(** * MRLab: a shallow embedding of the instrument-control layer

    The development follows the Python sources module by module:

    - [Py]            the fragment of the Python runtime the sources rely on
                      (string slicing and searching, [str.title], [str.upper],
                      [float()], [str.format] on numbers, exceptions);
    - [Errors]        the kinds of failure the profiles raise;
    - [Visa]          the transport seen from a profile: a log of what was sent
                      and a deterministic instrument answering queries;
    - [OxfordITC], [OxfordIPS], [OxfordILM]
                      the Oxford profiles: message tables, status decoders and
                      the set-then-verify commands of the power supply;
    - [Instruments], [Keithley2400]
                      the SCPI command builders;
    - [Manager]       the resource directory;
    - [Cryostat]      the commands the Oxford profiles share;
    - [OxfordIPSControl], [Keithley2400Setup], [InstrumentsCommon],
      [Keithley2400Output]
                      further methods of the classes above.

    Methods that mutate [self] are functions in a state-and-exception monad
    over a record holding the attributes the method reads or writes. *)

From Stdlib Require Import ZArith List String Ascii Bool Lia DecimalString.
From Stdlib Require Import PrimFloat SpecFloat FloatOps.
From stdpp Require Import base option list strings gmap.

Set Warnings "-inexact-float".
Set Default Proof Using "Type".

Local Open Scope string_scope.
Local Open Scope Z_scope.

(** ** The Python runtime *)

Module Py.

(** *** Strings

    A Python [str] is a [string]; a character is a string of length one, as in
    Python, so that [s[i]] and a one-character literal compare with [=]. *)

Definition len (s : string) : nat := String.length s.

Fixpoint drop (n : nat) (s : string) : string :=
  match n, s with
  | O, _ => s
  | S n', String _ s' => drop n' s'
  | S _, EmptyString => EmptyString
  end.

Fixpoint take (n : nat) (s : string) : string :=
  match n, s with
  | S n', String c s' => String c (take n' s')
  | _, _ => EmptyString
  end.

(** [s[lo:hi]] for literal bounds [0 <= lo <= hi]: slicing never raises and
    clips at the end of the string. *)
Definition slice (s : string) (lo hi : nat) : string := take (hi - lo) (drop lo s).

(** [s[lo:]] *)
Definition slice_from (s : string) (lo : nat) : string := drop lo s.

(** [s[:-k]] for a literal [k]. *)
Definition slice_until_last (s : string) (k : nat) : string := take (len s - k) s.

(** [s[i]] for a literal [i >= 0]; [None] stands for [IndexError]. *)
Definition getitem (s : string) (i : nat) : option string :=
  match drop i s with
  | String c _ => Some (String c EmptyString)
  | EmptyString => None
  end.

Fixpoint prefixb (p s : string) : bool :=
  match p, s with
  | EmptyString, _ => true
  | String a p', String b s' => if Ascii.eqb a b then prefixb p' s' else false
  | String _ _, EmptyString => false
  end.

(** [sub in s] *)
Fixpoint contains (sub s : string) : bool :=
  prefixb sub s ||
  match s with
  | EmptyString => false
  | String _ s' => contains sub s'
  end.

(** [s.split(sep)] for a one-character separator. *)
Fixpoint split_on (sep : ascii) (s : string) : list string :=
  match s with
  | EmptyString => [EmptyString]
  | String c s' =>
      if Ascii.eqb c sep then EmptyString :: split_on sep s'
      else match split_on sep s' with
           | w :: ws => String c w :: ws
           | [] => [String c EmptyString]
           end
  end.

Definition is_lower (c : ascii) : bool :=
  let n := nat_of_ascii c in (97 <=? n)%nat && (n <=? 122)%nat.

Definition is_upper (c : ascii) : bool :=
  let n := nat_of_ascii c in (65 <=? n)%nat && (n <=? 90)%nat.

Definition to_upper (c : ascii) : ascii :=
  if is_lower c then ascii_of_nat (nat_of_ascii c - 32) else c.

Definition to_lower (c : ascii) : ascii :=
  if is_upper c then ascii_of_nat (nat_of_ascii c + 32) else c.

(** [s.upper()] on ASCII text (the sources apply it to ASCII literals only). *)
Fixpoint upper (s : string) : string :=
  match s with
  | EmptyString => EmptyString
  | String c s' => String (to_upper c) (upper s')
  end.

(** [s.title()]: a cased character is upper-cased when the previous character
    is not cased, and lower-cased otherwise. *)
Fixpoint title_from (prev_cased : bool) (s : string) : string :=
  match s with
  | EmptyString => EmptyString
  | String c s' =>
      if is_lower c || is_upper c
      then String (if prev_cased then to_lower c else to_upper c) (title_from true s')
      else String c (title_from false s')
  end.

Definition title (s : string) : string := title_from false s.

(** Decimal text of an integer, as [str(n)] prints it. *)
Definition str_int (n : Z) : string :=
  match n with
  | Z0 => "0"
  | Zpos p => NilEmpty.string_of_uint (Pos.to_uint p)
  | Zneg p => "-" +:+ NilEmpty.string_of_uint (Pos.to_uint p)
  end.

Fixpoint replicate_char (n : nat) (c : ascii) : string :=
  match n with
  | O => EmptyString
  | S n' => String c (replicate_char n' c)
  end.

(** *** Floats

    A Python [float] is a binary64 value: the kernel's primitive [float].
    Conversions to and from decimal text are computed exactly on integers. *)

Definition round_half_even_div (n d : Z) : Z :=
  let q := n / d in
  match Z.compare (2 * (n mod d)) d with
  | Lt => q
  | Gt => q + 1
  | Eq => if Z.even q then q else q + 1
  end.

(** The binary64 nearest to [n/d] (ties to even), for [0 <= n] and [0 < d]. *)
Definition float_of_ratio (neg : bool) (n d : Z) : float :=
  SF2Prim
    match n with
    | Z0 => S754_zero neg
    | _ => let '(q, e, l) := SFdiv_core_binary prec emax n 0 d 0 in
           binary_round_aux prec emax neg q e l
    end.

Definition digit_val (c : ascii) : option Z :=
  let n := nat_of_ascii c in
  if (48 <=? n)%nat && (n <=? 57)%nat then Some (Z.of_nat (n - 48)) else None.

(** [digitpart ::= digit (["_"] digit)*], read after its first digit: the
    value so far, the number of digits so far, and the text left. *)
Fixpoint digitpart_rest (s : string) (v : Z) (n : nat) : Z * nat * string :=
  match s with
  | String c s' =>
      match digit_val c with
      | Some d => digitpart_rest s' (10 * v + d) (S n)
      | None =>
          if Ascii.eqb c "_" then
            match s' with
            | String c' s'' =>
                match digit_val c' with
                | Some d => digitpart_rest s'' (10 * v + d) (S n)
                | None => (v, n, s)
                end
            | EmptyString => (v, n, s)
            end
          else (v, n, s)
      end
  | EmptyString => (v, n, s)
  end.

Definition digitpart (s : string) : option (Z * nat * string) :=
  match s with
  | String c s' =>
      match digit_val c with
      | Some d => Some (digitpart_rest s' d 1%nat)
      | None => None
      end
  | EmptyString => None
  end.

(** [number ::= [digitpart] "." digitpart | digitpart ["."]]: the digits as one
    integer, the power of ten that places the point, and the text left. *)
Definition number (s : string) : option (Z * Z * string) :=
  match digitpart s with
  | Some (i, _, String "." rest) =>
      match digitpart rest with
      | Some (f, nf, rest') => Some (i * 10 ^ Z.of_nat nf + f, - Z.of_nat nf, rest')
      | None => Some (i, 0, rest)
      end
  | Some (i, _, rest) => Some (i, 0, rest)
  | None =>
      match s with
      | String "." rest =>
          match digitpart rest with
          | Some (f, nf, rest') => Some (f, - Z.of_nat nf, rest')
          | None => None
          end
      | _ => None
      end
  end.

Definition sign (s : string) : bool * string :=
  match s with
  | String "-" s' => (true, s')
  | String "+" s' => (false, s')
  | _ => (false, s)
  end.

(** [exponent ::= ("e" | "E") [sign] digitpart], required to reach the end of
    the text; no exponent at all is the exponent 0. *)
Definition exponent (s : string) : option Z :=
  match s with
  | EmptyString => Some 0
  | String c s' =>
      if Ascii.eqb c "e" || Ascii.eqb c "E" then
        let '(neg, s'') := sign s' in
        match digitpart s'' with
        | Some (e, _, EmptyString) => Some (if neg then - e else e)
        | _ => None
        end
      else None
  end.

(** The characters [float()] and [int()] skip on either side of a number.
    They are fewer than those [str.strip] removes: the text is first mapped
    to ASCII, which leaves every character below 127 as it is and turns the
    spaces above it (133 and 160, of the characters below 256) into a blank;
    the parser then skips the blanks of the C locale, 9 to 13 and 32. The
    separators 28 to 31 are therefore not skipped, and a number next to one
    of them is a [ValueError]. *)
Definition is_space (c : ascii) : bool :=
  let n := nat_of_ascii c in
  ((9 <=? n)%nat && (n <=? 13)%nat) || (n =? 32)%nat
  || (n =? 133)%nat || (n =? 160)%nat.

Fixpoint skip_leading (s : string) : string :=
  match s with
  | String c s' => if is_space c then skip_leading s' else s
  | EmptyString => EmptyString
  end.

Fixpoint skip_trailing (s : string) : string :=
  match s with
  | String c s' =>
      match skip_trailing s' with
      | EmptyString => if is_space c then EmptyString else String c EmptyString
      | t => String c t
      end
  | EmptyString => EmptyString
  end.

(** The text between the leading and the trailing blanks of a number. *)
Definition between_spaces (s : string) : string := skip_trailing (skip_leading s).

Fixpoint lower (s : string) : string :=
  match s with
  | EmptyString => EmptyString
  | String c s' => String (to_lower c) (lower s')
  end.

(** [float(s)]; [None] stands for [ValueError]. *)
Definition float_of_str (s : string) : option float :=
  let '(neg, body) := sign (between_spaces s) in
  let word := lower body in
  if String.eqb word "inf" || String.eqb word "infinity"
  then Some (if neg then neg_infinity else infinity)
  else if String.eqb word "nan" then Some nan
  else
    match number body with
    | Some (m, p, rest) =>
        match exponent rest with
        | Some e =>
            let x := p + e in
            Some (if 0 <=? x then float_of_ratio neg (m * 10 ^ x) 1
                  else float_of_ratio neg m (10 ^ (- x)))
        | None => None
        end
    | None => None
    end.

(** Decimal digits of [n >= 0], most significant first, at least [w] of them. *)
Definition digits_of (w : nat) (n : Z) : string :=
  let s := str_int n in
  replicate_char (w - len s) "0" +:+ s.

(** The text [iii.fff] of [n / 10^p] for an integer [n >= 0]; no point when
    [p = 0]. *)
Definition fixed_point (n : Z) (p : nat) : string :=
  let ds := digits_of (S p) n in
  let k := (len ds - p)%nat in
  match p with
  | O => ds
  | _ => take k ds +:+ "." +:+ drop k ds
  end.

Definition sign_text (plus neg : bool) : string :=
  if neg then "-" else if plus then "+" else "".

(** ['{:.pf}'.format(x)], or ['{:+.pf}'] when [plus]: [x] rounded to [p]
    decimals, ties on the exact binary value going to the even digit. *)
Definition format_f (plus : bool) (p : nat) (x : float) : string :=
  match Prim2SF x with
  | S754_nan => sign_text plus false +:+ "nan"
  | S754_infinity neg => sign_text plus neg +:+ "inf"
  | S754_zero neg => sign_text plus neg +:+ fixed_point 0 p
  | S754_finite neg m e =>
      let n := if 0 <=? e then Zpos m * 2 ^ e * 10 ^ Z.of_nat p
               else round_half_even_div (Zpos m * 10 ^ Z.of_nat p) (2 ^ (- e)) in
      sign_text plus neg +:+ fixed_point n p
  end.

(** [k] with [10^k <= n/d < 10^(k+1)], searched from [k] (for [0 < n],
    [0 < d]); binary64 values need at most 324 steps. *)
Fixpoint adjust_log10 (fuel : nat) (n d k : Z) : Z :=
  match fuel with
  | O => k
  | S fuel' =>
      let '(a, b) := if 0 <=? k then (n, d * 10 ^ k) else (n * 10 ^ (- k), d) in
      if a <? b then adjust_log10 fuel' n d (k - 1)
      else if 10 * b <=? a then adjust_log10 fuel' n d (k + 1)
      else k
  end.

Definition floor_log10 (n d : Z) : Z := adjust_log10 700 n d 0.

Definition is_Lt (c : comparison) : bool := match c with Lt => true | _ => false end.
Definition is_Eq (c : comparison) : bool := match c with Eq => true | _ => false end.
Definition is_Gt (c : comparison) : bool := match c with Gt => true | _ => false end.

(** Digit generation of the shortest text that reads back as the same float
    (dtoa mode 0, which [repr] uses). [r/s] is the part of the value not yet
    printed, [mlo/s] and [mhi/s] half the distance to the neighbouring floats.
    The result lists the digits last first, and says whether the last one is
    still to be rounded up. *)
Fixpoint shortest_loop (fuel : nat) (even : bool) (r s mlo mhi : Z) (acc : list Z)
  : list Z * bool :=
  match fuel with
  | O => (acc, false)
  | S fuel' =>
      let dig := r / s in
      let b := r mod s in
      let j := Z.compare b mlo in
      let j1 := Z.compare (b + mhi) s in
      if is_Eq j1 && even then (dig :: acc, (dig =? 9) || is_Gt j)
      else if is_Lt j || (is_Eq j && even) then
        if b =? 0 then (dig :: acc, false)
        else if is_Gt j1 then
          let c := Z.compare (2 * b) s in
          (dig :: acc, is_Gt c || (is_Eq c && Z.odd dig))
        else (dig :: acc, false)
      else if is_Gt j1 then (dig :: acc, true)
      else shortest_loop fuel' even (10 * b) s (10 * mlo) (10 * mhi) (dig :: acc)
  end.

(** Rounding up the last digit: trailing nines are dropped and the carry goes
    to the digit before them; all nines give the single digit 1 and move the
    decimal point. *)
Fixpoint bump_digits (rev_digits : list Z) : list Z * bool :=
  match rev_digits with
  | [] => ([1], true)
  | d :: ds => if d =? 9 then bump_digits ds else ((d + 1) :: ds, false)
  end.

(** Shortest digits of [m * 2^e] and the position of the decimal point:
    the value reads [0.d1d2... * 10^decpt]. *)
Definition shortest_digits (m : positive) (e : Z) : list Z * Z :=
  let boundary := (Zpos m =? 2 ^ 52) && (-1074 <? e) in
  let lo := if boundary then 1 else 2 in
  let '(r0, s0, mlo0, mhi0) :=
    if 2 <=? e then (4 * Zpos m * 2 ^ (e - 2), 1, lo * 2 ^ (e - 2), 2 * 2 ^ (e - 2))
    else (4 * Zpos m, 2 ^ (2 - e), lo, 2) in
  let k := floor_log10 r0 s0 in
  let '(r, s, mlo, mhi) :=
    if 0 <=? k then (r0, s0 * 10 ^ k, mlo0, mhi0)
    else (r0 * 10 ^ (- k), s0, mlo0 * 10 ^ (- k), mhi0 * 10 ^ (- k)) in
  let '(rev_digits, up) := shortest_loop 20 (Z.even (Zpos m)) r s mlo mhi [] in
  if up then
    let '(rev_digits', carried) := bump_digits rev_digits in
    (rev rev_digits', if carried then k + 2 else k + 1)
  else (rev rev_digits, k + 1).

Fixpoint digits_text (ds : list Z) : string :=
  match ds with
  | [] => ""
  | d :: ds' => str_int d +:+ digits_text ds'
  end.

Definition exponent_text (marker : string) (e : Z) : string :=
  marker +:+ (if e <? 0 then "-" else "+") +:+ digits_of 2 (Z.abs e).

(** Digits and decimal point laid out as Python does: [d.ddde+XX] when
    [use_exp], positional otherwise, with [.0] after an integer when
    [dot_zero]. *)
Definition layout (use_exp dot_zero : bool) (marker : string) (ds : list Z) (decpt : Z)
  : string :=
  let txt := digits_text ds in
  let n := Z.of_nat (len txt) in
  if use_exp then
    take 1 txt +:+ (if 1 <? n then "." +:+ drop 1 txt else "")
      +:+ exponent_text marker (decpt - 1)
  else if decpt <=? 0 then
    "0." +:+ replicate_char (Z.to_nat (- decpt)) "0" +:+ txt
  else if n <=? decpt then
    txt +:+ replicate_char (Z.to_nat (decpt - n)) "0" +:+ (if dot_zero then ".0" else "")
  else take (Z.to_nat decpt) txt +:+ "." +:+ drop (Z.to_nat decpt) txt.

(** [repr(x)], which is also [str(x)] and ['{!s}'.format(x)] for a float. *)
Definition repr_float (x : float) : string :=
  match Prim2SF x with
  | S754_nan => "nan"
  | S754_infinity neg => if neg then "-inf" else "inf"
  | S754_zero neg => if neg then "-0.0" else "0.0"
  | S754_finite neg m e =>
      let '(ds, decpt) := shortest_digits m e in
      (if neg then "-" else "")
        +:+ layout ((decpt <=? -4) || (16 <? decpt)) true "e" ds decpt
  end.

Fixpoint strip_zeros_rev (rev_digits : list Z) : list Z :=
  match rev_digits with
  | d :: ((_ :: _) as ds) => if d =? 0 then strip_zeros_rev ds else rev_digits
  | _ => rev_digits
  end.

Fixpoint digits_of_Z (fuel : nat) (n : Z) (acc : list Z) : list Z :=
  match fuel with
  | O => acc
  | S fuel' => if n <? 10 then n :: acc else digits_of_Z fuel' (n / 10) (n mod 10 :: acc)
  end.

(** [m * 2^e] rounded to [p] significant digits (ties to even). *)
Definition rounded_digits (m : positive) (e : Z) (p : Z) : list Z * Z :=
  let '(n, d) := if 0 <=? e then (Zpos m * 2 ^ e, 1) else (Zpos m, 2 ^ (- e)) in
  let k := floor_log10 n d in
  let x := k + 1 - p in
  let q := if 0 <=? x then round_half_even_div n (d * 10 ^ x)
           else round_half_even_div (n * 10 ^ (- x)) d in
  if q =? 10 ^ p then (digits_of_Z (Z.to_nat p) (10 ^ (p - 1)) [], k + 2)
  else (digits_of_Z (Z.to_nat p) q [], k + 1).

(** ['{:G}'.format(x)] for a float: six significant digits, trailing zeros
    removed, exponent form outside [1e-4 <= |x| < 1e6]. *)
Definition format_G (x : float) : string :=
  match Prim2SF x with
  | S754_nan => "NAN"
  | S754_infinity neg => if neg then "-INF" else "INF"
  | S754_zero neg => if neg then "-0" else "0"
  | S754_finite neg m e =>
      let '(ds, decpt) := rounded_digits m e 6 in
      let ds' := rev (strip_zeros_rev (rev ds)) in
      (if neg then "-" else "")
        +:+ layout ((decpt <=? -4) || (6 <? decpt)) false "E" ds' decpt
  end.

(** [float(n)] for an integer within the range of binary64. *)
Definition float_of_int (n : Z) : float := float_of_ratio (n <? 0) (Z.abs n) 1.

(** *** Values given to [str.format]

    The command builders format whatever the caller passes with ['{!s}']:
    integers, floats and strings print differently. *)
Inductive value : Type :=
  | VInt (n : Z)
  | VFloat (x : float)
  | VStr (s : string).

(** [str(v)], which ['{!s}'.format(v)] inserts. *)
Definition str (v : value) : string :=
  match v with
  | VInt n => str_int n
  | VFloat x => repr_float x
  | VStr s => s
  end.

(** *** Hexadecimal and binary text *)

Definition hex_val (c : ascii) : option Z :=
  let n := nat_of_ascii c in
  if (48 <=? n)%nat && (n <=? 57)%nat then Some (Z.of_nat (n - 48))
  else if (97 <=? n)%nat && (n <=? 102)%nat then Some (Z.of_nat (n - 87))
  else if (65 <=? n)%nat && (n <=? 70)%nat then Some (Z.of_nat (n - 55))
  else None.

(** Hexadecimal digits up to the end of the text, single underscores allowed
    between digits; [after_digit] says whether the last character read was a
    digit. *)
Fixpoint hex_digits (s : string) (v : Z) (after_digit : bool) : option Z :=
  match s with
  | EmptyString => if after_digit then Some v else None
  | String c s' =>
      match hex_val c with
      | Some d => hex_digits s' (16 * v + d) true
      | None => if Ascii.eqb c "_" && after_digit then hex_digits s' v false else None
      end
  end.

(** [int(s, 16)]; [None] stands for [ValueError]. *)
Definition int16 (s : string) : option Z :=
  let '(neg, body) := sign (between_spaces s) in
  let v :=
    match body with
    | String "0" (String x rest) =>
        if Ascii.eqb x "x" || Ascii.eqb x "X" then
          match rest with
          | String "_" rest' => hex_digits rest' 0 false
          | _ => hex_digits rest 0 false
          end
        else hex_digits body 0 false
    | _ => hex_digits body 0 false
    end in
  match v with
  | Some n => Some (if neg then - n else n)
  | None => None
  end.

(** [int(s)]; [None] stands for [ValueError]. *)
Definition int10 (s : string) : option Z :=
  let '(neg, body) := sign (between_spaces s) in
  match digitpart body with
  | Some (n, _, EmptyString) => Some (if neg then - n else n)
  | _ => None
  end.

Fixpoint bits_of_pos (p : positive) (acc : string) : string :=
  match p with
  | xH => String "1" acc
  | xO p' => bits_of_pos p' (String "0" acc)
  | xI p' => bits_of_pos p' (String "1" acc)
  end.

(** [bin(n)] *)
Definition bin (n : Z) : string :=
  match n with
  | Z0 => "0b0"
  | Zpos p => "0b" +:+ bits_of_pos p ""
  | Zneg p => "-0b" +:+ bits_of_pos p ""
  end.

(** [s.zfill(width)]: zeros go after a leading sign. *)
Definition zfill (width : nat) (s : string) : string :=
  let zeros := replicate_char (width - len s) "0" in
  match s with
  | String "+" s' => String "+" (zeros +:+ s')
  | String "-" s' => String "-" (zeros +:+ s')
  | _ => zeros +:+ s
  end.

(** The characters of [s] as one-character strings. *)
Fixpoint chars (s : string) : list string :=
  match s with
  | EmptyString => []
  | String c s' => String c EmptyString :: chars s'
  end.

(** [sep.join(parts)] *)
Fixpoint join (sep : string) (parts : list string) : string :=
  match parts with
  | [] => ""
  | [p] => p
  | p :: ps => p +:+ sep +:+ join sep ps
  end.

End Py.

(** ** Exceptions *)

Module Errors.

(** Modelled from the spec: the module [Errors] is imported by every source
    file but is not among the sources. Its exception classes are taken as an
    enumeration, one constructor per class the modelled methods name, carrying
    the arguments the class is built with. Each class has an [error_handler]
    method that reports the error and returns: [error.error_handler()] is the
    report, and a bare [error.error_handler], which the power-supply profile
    writes, evaluates the attribute and does nothing. *)
Inductive t : Type :=
  | IncorrectInstrumentError
  | PSNotResponding
  | TCNotResponding
  | LMNotResponding
  | PSWrongOutputCurrent (current : float)
  | PSWrongOutputField (field : float)
  | PSWrongCurrentSweepRate (rate : float)
  | PSWrongFieldSweepRate (rate : float)
  | InvalidTypeDictionaryError
  | InvalidTypeDictionaryKeyError
  | ReportInstrumentInternalError (code message : string)
  | VoidManagerError
  | InstrumentNotAvailableError.

End Errors.

(** A component of a dictionary key: the tables are keyed by tuples of
    strings and, in one table, integers. ['05'] and [5] are different keys. *)
Inductive atom : Type := AStr (s : string) | AInt (n : Z).

#[global] Instance atom_eq_dec : EqDecision atom.
Proof. solve_decision. Defined.

#[global] Instance atom_countable : Countable atom.
Proof.
  refine (inj_countable'
            (fun a => match a with AStr s => inl s | AInt n => inr n end)
            (fun x => match x with inl s => AStr s | inr n => AInt n end) _).
  by intros [].
Defined.

(** What a statement can raise: the built-in exceptions the modelled code can
    meet, and the classes of [Errors]. *)
Inductive exn : Type :=
  | KeyError (key : list atom)
  | IndexError
  | ValueError
  | TypeError
  | Custom (e : Errors.t).

Coercion Custom : Errors.t >-> exn.

Inductive outcome (A : Type) : Type :=
  | Normal (a : A)
  | Raised (e : exn).

Arguments Normal {A} a.
Arguments Raised {A} e.

(** A method body: it transforms the object and returns or raises. What was
    assigned before a [raise] stays assigned. *)
Definition M (S A : Type) : Type := S -> S * outcome A.

Definition ret {S A : Type} (a : A) : M S A := fun s => (s, Normal a).

Definition raise {S A : Type} (e : exn) : M S A := fun s => (s, Raised e).

Definition bind {S A B : Type} (m : M S A) (k : A -> M S B) : M S B :=
  fun s => match m s with
           | (s', Normal a) => k a s'
           | (s', Raised e) => (s', Raised e)
           end.

Definition gets {S A : Type} (f : S -> A) : M S A := fun s => (s, Normal (f s)).

Definition modify {S : Type} (f : S -> S) : M S unit := fun s => (f s, Normal tt).

(** [try: body except (classes) as error: handler]. *)
Definition try_except {S A : Type} (body : M S A) (classes : exn -> bool)
    (handler : exn -> M S A) : M S A :=
  fun s => match body s with
           | (s', Raised e) => if classes e then handler e s' else (s', Raised e)
           | r => r
           end.

(** A bare [raise] inside a handler. *)
Definition reraise {S A : Type} (e : exn) : M S A := raise e.

Declare Scope py_scope.
Delimit Scope py_scope with py.
Notation "x <- m ;; k" := (bind m (fun x => k))
  (at level 100, m at next level, k at level 200, right associativity) : py_scope.
Notation "m ;; k" := (bind m (fun _ => k))
  (at level 100, k at level 200, right associativity) : py_scope.
Local Open Scope py_scope.

(** [for x in xs: body]. *)
Fixpoint for_each {S A : Type} (xs : list A) (body : A -> M S unit) : M S unit :=
  match xs with
  | [] => ret tt
  | x :: xs' => body x ;; for_each xs' body
  end.

(** [s[i]] *)
Definition index {S : Type} (s : string) (i : nat) : M S string :=
  match Py.getitem s i with
  | Some c => ret c
  | None => raise IndexError
  end.

(** [d[key]] *)
Definition subscript {S : Type} (d : gmap (list atom) string) (key : list atom) : M S string :=
  match d !! key with
  | Some v => ret v
  | None => raise (KeyError key)
  end.

(** ['\n'] *)
Definition nl : string := String "010"%char EmptyString.

(** ** The transport

    [self.instrument] is a VISA session. What the claims observe of it is the
    traffic: every [write] and [query] is logged, and the instrument answers a
    query as a function of everything it was sent so far. *)

Module Visa.

Inductive io : Type := Write (cmd : string) | Query (cmd : string).

Record instrument : Type := {
  sent : list io;
  device : list io -> string
}.

Definition write (cmd : string) (i : instrument) : instrument :=
  {| sent := (sent i ++ [Write cmd])%list; device := device i |}.

Definition query (cmd : string) (i : instrument) : instrument * string :=
  let log := (sent i ++ [Query cmd])%list in
  ({| sent := log; device := device i |}, device i log).

End Visa.

(** ** OxfordITC: the temperature controller *)

Module OxfordITC.

(** The attributes the decoder reads and writes. *)
Record t : Type := {
  messages : gmap (list atom) string;
  last_decodified_status : option string
}.

Definition set_last_decodified_status (v : option string) (self : t) : t :=
  {| messages := messages self; last_decodified_status := v |}.

Definition X_messages : list (string * string) :=
  [("0", "Temperature controller NORMAL operative mode." +:+ nl)].

Definition A_messages : list (string * string) :=
  [("0", "Heater in MANUAL mode. Gas flow in MANUAL mode." +:+ nl);
   ("1", "Heater in AUTO mode. Gas flow in MANUAL mode." +:+ nl);
   ("2", "Heater in MANUAL mode. Gas flow in AUTO mode." +:+ nl);
   ("3", "Heater in AUTO mode. Gas flow in AUTO mode." +:+ nl)].

Definition C_messages : list (string * string) :=
  [("0", "Temperature controller in LOCAL and LOCKED state." +:+ nl);
   ("1", "Temperature controller in REMOTE and LOCKED state." +:+ nl);
   ("2", "Temperature controller in LOCAL and UNLOCKED state." +:+ nl);
   ("3", "Temperature controller in REMOTE and UNLOCKED state." +:+ nl)].

Definition H_messages : list (string * string) :=
  [("1", "Temperature is controlled by CHANNEL 1 sensor." +:+ nl);
   ("2", "Temperature is controlled by CHANNEL 2 sensor." +:+ nl);
   ("3", "Temperature is controlled by CHANNEL 3 sensor." +:+ nl)].

Definition L_messages : list (string * string) :=
  [("0", "Auto (learned) PIDs are DISABLED.");
   ("1", "Auto (learned) PIDs are ENABLED.")].

(** [for n in d: messages[key, n] = d[n]] *)
Definition copy_entries (key : string) (d : list (string * string))
    (messages : gmap (list atom) string) : gmap (list atom) string :=
  foldl (fun ms e => <[ [AStr key; AStr e.1] := e.2 ]> ms) messages d.

(** The body of [for nn in range(1,32)]: the key is the integer [nn]. *)
Definition sweep_entry (key : string) (ms : gmap (list atom) string) (nn : Z)
  : gmap (list atom) string :=
  if nn mod 2 =? 1 then
    <[ [AStr key; AInt nn] :=
         "Sweeping to step number " +:+ Py.format_G (Py.float_of_int ((nn + 1) / 2))
           +:+ " set temperature." +:+ nl ]> ms
  else
    <[ [AStr key; AInt nn] :=
         "Holding the step number " +:+ Py.format_G (Py.float_of_int (nn / 2))
           +:+ " set temperature." +:+ nl ]> ms.

Definition _messages_dictionary_ : gmap (list atom) string :=
  foldl (fun messages key =>
           if String.eqb key "X" then copy_entries key X_messages messages
           else if String.eqb key "A" then copy_entries key A_messages messages
           else if String.eqb key "C" then copy_entries key C_messages messages
           else if String.eqb key "S" then
             foldl (sweep_entry key)
                   (<[ [AStr key; AStr "00"] := "Sweep mode is not active." +:+ nl ]> messages)
                   (seqZ 1 31)
           else if String.eqb key "H" then copy_entries key H_messages messages
           else if String.eqb key "L" then copy_entries key L_messages messages
           else messages)
        ∅ ["X"; "A"; "C"; "S"; "H"; "L"].

(** [self.last_decodified_status = self.last_decodified_status + self.messages[key]] *)
Definition append_message (key : list atom) : M t unit :=
  old <- gets last_decodified_status ;;
  ms <- gets messages ;;
  msg <- subscript ms key ;;
  match old with
  | Some text => modify (set_last_decodified_status (Some (text +:+ msg)))
  | None => raise TypeError
  end.

(** The body of the loop over the fields. *)
Definition decode_field (string : string) : M t unit :=
  if (Py.len string =? 2)%nat then
    key <- index string 0 ;;
    n <- index string 1 ;;
    append_message [AStr key; AStr n]
  else
    key <- index string 0 ;;
    if String.eqb key "S" then
      let nn := Py.slice_from string 1 in
      append_message [AStr key; AStr nn]
    else
      m <- index string 1 ;;
      n <- index string 2 ;;
      append_message [AStr key; AStr m; AStr n].

Definition status_split (status : string) : list string :=
  [Py.slice status 0 2; Py.slice status 2 4; Py.slice status 4 6;
   Py.slice status 6 9; Py.slice status 9 11; Py.slice_from status 11].

Definition _status_decoder_ (status : string) : M t unit :=
  modify (set_last_decodified_status (Some "")) ;;
  for_each (status_split status) decode_field.

(** The profile as [__init__] leaves its table, before any status was read. *)
Definition fresh : t :=
  {| messages := _messages_dictionary_; last_decodified_status := None |}.

End OxfordITC.


(** ** OxfordIPS: the magnet power supply *)

Module OxfordIPS.

(** The attributes the modelled methods read and write. A reading is [None]
    until its first successful query. *)
Record t : Type := {
  instrument : Visa.instrument;
  buffer_radix : string;
  identity : string;
  extended_resolution : bool;
  messages : gmap (list atom) string;
  last_queried_status : option string;
  last_decodified_status : option string;
  current_set_point : option float;
  current_sweep_rate : option float;
  field_set_point : option float;
  safe_current_negative_limit : option float;
  safe_current_positive_limit : option float
}.

Definition set_instrument (v : Visa.instrument) (self : t) : t :=
  {| instrument := v; buffer_radix := buffer_radix self; identity := identity self;
     extended_resolution := extended_resolution self; messages := messages self;
     last_queried_status := last_queried_status self;
     last_decodified_status := last_decodified_status self;
     current_set_point := current_set_point self;
     current_sweep_rate := current_sweep_rate self;
     field_set_point := field_set_point self;
     safe_current_negative_limit := safe_current_negative_limit self;
     safe_current_positive_limit := safe_current_positive_limit self |}.

Definition set_last_queried_status (v : option string) (self : t) : t :=
  {| instrument := instrument self; buffer_radix := buffer_radix self;
     identity := identity self;
     extended_resolution := extended_resolution self; messages := messages self;
     last_queried_status := v;
     last_decodified_status := last_decodified_status self;
     current_set_point := current_set_point self;
     current_sweep_rate := current_sweep_rate self;
     field_set_point := field_set_point self;
     safe_current_negative_limit := safe_current_negative_limit self;
     safe_current_positive_limit := safe_current_positive_limit self |}.

Definition set_last_decodified_status (v : option string) (self : t) : t :=
  {| instrument := instrument self; buffer_radix := buffer_radix self;
     identity := identity self;
     extended_resolution := extended_resolution self; messages := messages self;
     last_queried_status := last_queried_status self;
     last_decodified_status := v;
     current_set_point := current_set_point self;
     current_sweep_rate := current_sweep_rate self;
     field_set_point := field_set_point self;
     safe_current_negative_limit := safe_current_negative_limit self;
     safe_current_positive_limit := safe_current_positive_limit self |}.

Definition set_current_set_point (v : option float) (self : t) : t :=
  {| instrument := instrument self; buffer_radix := buffer_radix self;
     identity := identity self;
     extended_resolution := extended_resolution self; messages := messages self;
     last_queried_status := last_queried_status self;
     last_decodified_status := last_decodified_status self;
     current_set_point := v;
     current_sweep_rate := current_sweep_rate self;
     field_set_point := field_set_point self;
     safe_current_negative_limit := safe_current_negative_limit self;
     safe_current_positive_limit := safe_current_positive_limit self |}.

Definition set_current_sweep_rate_attr (v : option float) (self : t) : t :=
  {| instrument := instrument self; buffer_radix := buffer_radix self;
     identity := identity self;
     extended_resolution := extended_resolution self; messages := messages self;
     last_queried_status := last_queried_status self;
     last_decodified_status := last_decodified_status self;
     current_set_point := current_set_point self;
     current_sweep_rate := v;
     field_set_point := field_set_point self;
     safe_current_negative_limit := safe_current_negative_limit self;
     safe_current_positive_limit := safe_current_positive_limit self |}.

Definition set_field_set_point (v : option float) (self : t) : t :=
  {| instrument := instrument self; buffer_radix := buffer_radix self;
     identity := identity self;
     extended_resolution := extended_resolution self; messages := messages self;
     last_queried_status := last_queried_status self;
     last_decodified_status := last_decodified_status self;
     current_set_point := current_set_point self;
     current_sweep_rate := current_sweep_rate self;
     field_set_point := v;
     safe_current_negative_limit := safe_current_negative_limit self;
     safe_current_positive_limit := safe_current_positive_limit self |}.

Definition set_safe_current_negative_limit (v : option float) (self : t) : t :=
  {| instrument := instrument self; buffer_radix := buffer_radix self;
     identity := identity self;
     extended_resolution := extended_resolution self; messages := messages self;
     last_queried_status := last_queried_status self;
     last_decodified_status := last_decodified_status self;
     current_set_point := current_set_point self;
     current_sweep_rate := current_sweep_rate self;
     field_set_point := field_set_point self;
     safe_current_negative_limit := v;
     safe_current_positive_limit := safe_current_positive_limit self |}.

Definition set_safe_current_positive_limit (v : option float) (self : t) : t :=
  {| instrument := instrument self; buffer_radix := buffer_radix self;
     identity := identity self;
     extended_resolution := extended_resolution self; messages := messages self;
     last_queried_status := last_queried_status self;
     last_decodified_status := last_decodified_status self;
     current_set_point := current_set_point self;
     current_sweep_rate := current_sweep_rate self;
     field_set_point := field_set_point self;
     safe_current_negative_limit := safe_current_negative_limit self;
     safe_current_positive_limit := v |}.

(** [self.instrument.query(cmd)] *)
Definition query (cmd : string) : M t string :=
  fun self =>
    let '(i, reply) := Visa.query cmd (instrument self) in
    (set_instrument i self, Normal reply).

(** [reading == value], where the reading may still be [None]. *)
Definition reading_eq (reading : option float) (value : float) : bool :=
  match reading with
  | Some r => PrimFloat.eqb r value
  | None => false
  end.

(** [float(string)] *)
Definition float (string : string) : M t PrimFloat.float :=
  match Py.float_of_str string with
  | Some v => ret v
  | None => raise ValueError
  end.

(** The classes named by an [except] clause. *)
Definition is_PSNotResponding (e : exn) : bool :=
  match e with Custom Errors.PSNotResponding => true | _ => false end.

Definition is_IncorrectInstrumentError (e : exn) : bool :=
  match e with Custom Errors.IncorrectInstrumentError => true | _ => false end.

Definition is_PSWrongOutputCurrent (e : exn) : bool :=
  match e with Custom (Errors.PSWrongOutputCurrent _) => true | _ => false end.

Definition is_PSWrongCurrentSweepRate (e : exn) : bool :=
  match e with Custom (Errors.PSWrongCurrentSweepRate _) => true | _ => false end.

(** *** Monitor commands *)

Definition get_current_set_point_reading : M t unit :=
  try_except
    (identity <- gets identity ;;
     if Py.contains "IPS" identity then
       radix <- gets buffer_radix ;;
       reply <- query (radix +:+ "R5") ;;
       let string := Py.slice_from reply 1 in
       if Py.contains "?" string then raise Errors.PSNotResponding
       else v <- float string ;; modify (set_current_set_point (Some v))
     else raise Errors.IncorrectInstrumentError)
    (fun e => is_PSNotResponding e || is_IncorrectInstrumentError e)
    (fun error => ret tt).

Definition get_current_sweep_rate_reading : M t unit :=
  try_except
    (identity <- gets identity ;;
     if Py.contains "IPS" identity then
       radix <- gets buffer_radix ;;
       reply <- query (radix +:+ "R6") ;;
       let string := Py.slice_from reply 1 in
       if Py.contains "?" string then raise Errors.PSNotResponding
       else v <- float string ;; modify (set_current_sweep_rate_attr (Some v))
     else raise Errors.IncorrectInstrumentError)
    (fun e => is_PSNotResponding e || is_IncorrectInstrumentError e)
    (fun error => ret tt).

Definition get_field_set_point_reading : M t unit :=
  try_except
    (identity <- gets identity ;;
     if Py.contains "IPS" identity then
       radix <- gets buffer_radix ;;
       reply <- query (radix +:+ "R8") ;;
       let string := Py.slice_from reply 1 in
       if Py.contains "?" string then raise Errors.PSNotResponding
       else v <- float string ;; modify (set_field_set_point (Some v))
     else raise Errors.IncorrectInstrumentError)
    (fun e => is_PSNotResponding e || is_IncorrectInstrumentError e)
    (fun error => ret tt).

Definition get_safe_current_negative_limit_reading : M t unit :=
  try_except
    (identity <- gets identity ;;
     if Py.contains "IPS" identity then
       radix <- gets buffer_radix ;;
       reply <- query (radix +:+ "R21") ;;
       let string := Py.slice_from reply 1 in
       if Py.contains "?" string then raise Errors.PSNotResponding
       else v <- float string ;; modify (set_safe_current_negative_limit (Some v))
     else raise Errors.IncorrectInstrumentError)
    (fun e => is_PSNotResponding e || is_IncorrectInstrumentError e)
    (fun error => ret tt).

Definition get_safe_current_positive_limit_reading : M t unit :=
  try_except
    (identity <- gets identity ;;
     if Py.contains "IPS" identity then
       radix <- gets buffer_radix ;;
       reply <- query (radix +:+ "R21") ;;
       let string := Py.slice_from reply 1 in
       if Py.contains "?" string then raise Errors.PSNotResponding
       else v <- float string ;; modify (set_safe_current_positive_limit (Some v))
     else raise Errors.IncorrectInstrumentError)
    (fun e => is_PSNotResponding e || is_IncorrectInstrumentError e)
    (fun error => ret tt).

(** *** Control commands *)

Definition set_target_current (current : PrimFloat.float) : M t unit :=
  try_except
    (identity <- gets identity ;;
     if Py.contains "IPS" identity then
       if PrimFloat.leb (PrimFloat.abs current) 98.46%float then
         radix <- gets buffer_radix ;;
         extended <- gets extended_resolution ;;
         (if extended then query (radix +:+ "I" +:+ Py.format_f true 4 current)
          else query (radix +:+ "I" +:+ Py.format_f true 3 current)) ;;
         get_current_set_point_reading ;;
         reading <- gets current_set_point ;;
         if negb (reading_eq reading current) then raise Errors.PSNotResponding
         else ret tt
       else raise (Errors.PSWrongOutputCurrent current)
     else raise Errors.IncorrectInstrumentError)
    (fun e => is_PSNotResponding e || is_PSWrongOutputCurrent e
              || is_IncorrectInstrumentError e)
    (fun error => ret tt).

Definition set_target_field (field : PrimFloat.float) : M t unit :=
  try_except
    (identity <- gets identity ;;
     if Py.contains "IPS" identity then
       if PrimFloat.leb (PrimFloat.abs field) 7%float then
         radix <- gets buffer_radix ;;
         extended <- gets extended_resolution ;;
         (if extended then query (radix +:+ "J" +:+ Py.format_f true 5 field)
          else query (radix +:+ "J" +:+ Py.format_f true 4 field)) ;;
         get_field_set_point_reading ;;
         reading <- gets field_set_point ;;
         if negb (reading_eq reading field) then raise Errors.PSNotResponding
         else ret tt
       else raise (Errors.PSWrongOutputField field)
     else raise Errors.IncorrectInstrumentError)
    is_IncorrectInstrumentError
    (fun error => ret tt).

(** In [set_current_sweep_rate] the two failures are written as expressions,
    [Errors.PSNotResponding] and [Errors.PSWrongCurrentSweepRate(rate)],
    without [raise]: evaluating them does nothing. *)
Definition set_current_sweep_rate (rate : PrimFloat.float) : M t unit :=
  try_except
    (identity <- gets identity ;;
     if Py.contains "IPS" identity then
       if PrimFloat.leb (PrimFloat.abs rate) 16.88%float then
         radix <- gets buffer_radix ;;
         extended <- gets extended_resolution ;;
         (if extended then query (radix +:+ "S" +:+ Py.format_f true 4 rate)
          else query (radix +:+ "S" +:+ Py.format_f true 3 rate)) ;;
         get_current_sweep_rate_reading ;;
         reading <- gets current_sweep_rate ;;
         if negb (reading_eq reading rate) then ret tt
         else ret tt
       else ret tt
     else raise Errors.IncorrectInstrumentError)
    (fun e => is_PSNotResponding e || is_PSWrongCurrentSweepRate e
              || is_IncorrectInstrumentError e)
    (fun error => ret tt).

(** *** Derived commands: the message table and the status decoder *)

Definition X_m_messages : list (string * string) :=
  [("0", "Magnet NORMAL."); ("1", "Magnet QUENCHED.");
   ("2", "Power supply OVER HEATED."); ("4", "Magnet is WARMING UP.");
   ("8", "Magnet is at FAULT.")].

Definition X_n_messages : list (string * string) :=
  [("0", "Power supply NORMAL." +:+ nl);
   ("1", "Power supply ON POSITIVE VOLTAGE LIMIT." +:+ nl);
   ("2", "Power supply ON NEGATIVE VOLTAGE LIMIT." +:+ nl);
   ("4", "Power supply OUTSIDE NEGATIVE CURRENT LIMIT." +:+ nl);
   ("8", "Power supply OUTSIDE POSITIVE CURRENT LIMIT." +:+ nl)].

Definition A_messages : list (string * string) :=
  [("0", "Power supply output is in HOLD state." +:+ nl);
   ("1", "Power supply output is sweeping TO SET POINT." +:+ nl);
   ("2", "Power supply output is sweeping TO ZERO." +:+ nl);
   ("4", "Power supply output is CLAMPED." +:+ nl)].

Definition C_messages : list (string * string) :=
  [("0", "Power supply in LOCAL AND LOCKED." +:+ nl);
   ("1", "Power supply in REMOTE AND LOCKED." +:+ nl);
   ("2", "Power supply in LOCAL AND UNLOCKED." +:+ nl);
   ("3", "Power supply in REMOTE AND UNLOCKED." +:+ nl);
   ("4", "Power supply in AUTO-RUN-DOWN." +:+ nl);
   ("5", "Power supply in AUTO-RUN-DOWN." +:+ nl);
   ("6", "Power supply in AUTO-RUN-DOWN." +:+ nl);
   ("7", "Power supply in AUTO-RUN-DOWN." +:+ nl)].

Definition H_messages : list (string * string) :=
  [("0", "Switch heater is OFF with MAGNET AT ZERO field." +:+ nl);
   ("1", "Switch heater is ON." +:+ nl);
   ("2", "Switch heater is OFF with MAGNET AT FIELD." +:+ nl);
   ("5", "Switch heater is at FAULT." +:+ nl);
   ("8", "There is NO SWITCH HEATER fitted." +:+ nl)].

Definition M_m_messages : list (string * string) :=
  [("0", "Power supply in AMPS FAST sweep mode.");
   ("1", "Power supply in FIELD FAST sweep mode.");
   ("4", "Power supply in AMPS SLOW sweep mode.");
   ("5", "Power supply in FIELD SLOW sweep mode.")].

Definition M_n_messages : list (string * string) :=
  [("0", "Power supply is AT REST." +:+ nl);
   ("1", "Power supply is SWEEPING (current in magnet)." +:+ nl);
   ("2", "Power supply is SWEEP LIMITING (current in switch))." +:+ nl);
   ("3", "Power supply is SWEEPING (current in magnet) buth with a SWEEP LIMITING in rate." +:+ nl)].

Definition P_m_messages : list (string * string) :=
  [("0", "Polarities: POS, POS, POS."); ("1", "Polarities: POS, POS, NEG.");
   ("2", "Polarities: POS, NEG, POS."); ("3", "Polarities: POS, NEG, NEG.");
   ("4", "Polarities: NEG, POS, POS."); ("5", "Polarities: NEG, POS, NEG.");
   ("6", "Polarities: NEG, NEG, POS."); ("7", "Polarities: NEG, NEG, NEG.")].

Definition P_n_messages : list (string * string) :=
  [("1", "Negative contactor closed."); ("2", "Positive contactor closed.");
   ("3", "Both contactors open."); ("4", "Both contactors closed.");
   ("7", "Output clamped.")].

(** [for n in d: messages[key, n] = d[n]] *)
Definition copy_entries (key : string) (d : list (string * string))
    (messages : gmap (list atom) string) : gmap (list atom) string :=
  foldl (fun ms e => <[ [AStr key; AStr e.1] := e.2 ]> ms) messages d.

(** [for m in dm: for n in dn: messages[key, m, n] = dm[m] + ' ' + dn[n]] *)
Definition product_entries (key : string) (dm dn : list (string * string))
    (messages : gmap (list atom) string) : gmap (list atom) string :=
  foldl (fun ms m =>
           foldl (fun ms' n =>
                    <[ [AStr key; AStr m.1; AStr n.1] := m.2 +:+ " " +:+ n.2 ]> ms')
                 ms dn)
        messages dm.

Definition _messages_dictionary_ : gmap (list atom) string :=
  foldl (fun messages key =>
           if String.eqb key "X" then product_entries key X_m_messages X_n_messages messages
           else if String.eqb key "A" then copy_entries key A_messages messages
           else if String.eqb key "C" then copy_entries key C_messages messages
           else if String.eqb key "H" then copy_entries key H_messages messages
           else if String.eqb key "M" then product_entries key M_m_messages M_n_messages messages
           else if String.eqb key "P" then product_entries key P_m_messages P_n_messages messages
           else messages)
        ∅ ["X"; "A"; "C"; "H"; "M"; "P"].

(** [self.last_decodified_status = self.last_decodified_status + self.messages[key]] *)
Definition append_message (key : list atom) : M t unit :=
  old <- gets last_decodified_status ;;
  ms <- gets messages ;;
  msg <- subscript ms key ;;
  match old with
  | Some text => modify (set_last_decodified_status (Some (text +:+ msg)))
  | None => raise TypeError
  end.

(** The body of the loop over the fields. *)
Definition decode_field (status : string) : M t unit :=
  if (Py.len status =? 2)%nat then
    key <- index status 0 ;;
    let n := Py.slice_from status 1 in
    append_message [AStr key; AStr n]
  else
    key <- index status 0 ;;
    m <- index status 1 ;;
    n <- index status 2 ;;
    append_message [AStr key; AStr m; AStr n].

Definition status_split (status : string) : list string :=
  [Py.slice status 0 3; Py.slice status 3 5; Py.slice status 5 7;
   Py.slice status 7 9; Py.slice status 9 12; Py.slice_from status 12].

Definition _status_decoder_ (status : string) : M t unit :=
  modify (set_last_decodified_status (Some "")) ;;
  for_each (status_split status) decode_field.

Definition get_status : M t unit :=
  try_except
    (identity <- gets identity ;;
     if Py.contains "IPS" identity then
       radix <- gets buffer_radix ;;
       reply <- query (radix +:+ "X") ;;
       modify (set_last_queried_status (Some reply)) ;;
       if Py.contains "?" reply then raise Errors.PSNotResponding
       else _status_decoder_ reply
     else raise Errors.IncorrectInstrumentError)
    (fun e => is_IncorrectInstrumentError e || is_PSNotResponding e)
    (fun error => ret tt).

(** What the instrument answers to the last of [cmds] when they are queried
    one after the other from the state [self]. *)
Definition answer (self : t) (cmds : list string) : string :=
  Visa.device (instrument self)
              (foldl (fun log cmd => log ++ [Visa.Query cmd])%list
                     (Visa.sent (instrument self)) cmds).

(** The traffic so far. *)
Definition sent (self : t) : list Visa.io := Visa.sent (instrument self).

(** A profile connected to [device], as [__init__] sets the attributes that
    do not come from the instrument. *)
Definition connected (device : list Visa.io -> string) (radix identity : string)
    (extended : bool) : t :=
  {| instrument := {| Visa.sent := []; Visa.device := device |};
     buffer_radix := radix; identity := identity;
     extended_resolution := extended; messages := _messages_dictionary_;
     last_queried_status := None; last_decodified_status := None;
     current_set_point := None; current_sweep_rate := None;
     field_set_point := None; safe_current_negative_limit := None;
     safe_current_positive_limit := None |}.

End OxfordIPS.


(** ** OxfordILM: the level meter *)

Module OxfordILM.

(** The attributes the decoder reads and writes. *)
Record t : Type := {
  messages : gmap (list atom) string;
  last_decodified_status : option string
}.

Definition set_last_decodified_status (v : option string) (self : t) : t :=
  {| messages := messages self; last_decodified_status := v |}.

Definition channel_messages (c : string) : list (string * string) :=
  [("0", "Channel " +:+ c +:+ " not in use.");
   ("1", "Channel " +:+ c +:+ " used for nitrogen level metering.");
   ("2", "Channel " +:+ c +:+ " used for pulsed helium level metering.");
   ("3", "Channel " +:+ c +:+ " used for continuous helium level metering.");
   ("9", "Error on channel " +:+ c +:+ ".")].

Definition channels : list (string * string) :=
  [("1", "Channel 1"); ("2", "Channel 2"); ("3", "Channel 3")].

(** A one-bit fragment table: [{'0': '', '1': phrase}]. *)
Definition bit_messages (phrase : string) : list (string * string) :=
  [("0", ""); ("1", phrase)].

Definition S_bit_3_4_messages : list (string * string) :=
  [("00", "END FILLING."); ("01", "NOT FILLING."); ("10", "FILLING.");
   ("11", "START FILLING.")].

(** The fragment tables of the nested loops, outermost loop first. *)
Definition X_tables : list (list (string * string)) :=
  [channel_messages "1"; channel_messages "2"; channel_messages "3"].

Definition S_tables : list (list (string * string)) :=
  [channels;
   bit_messages "CURRENT FLOWING in helium probe.";
   bit_messages "Helium probe in FAST rate.";
   bit_messages "Helium probe in SLOW rate.";
   S_bit_3_4_messages;
   bit_messages "LOW STATE is active.";
   bit_messages "ALARM requested.";
   bit_messages "PRE-PULSE CURRENT is flowing."].

Definition R_tables : list (list (string * string)) :=
  [bit_messages "In SHUT DOWN state.";
   bit_messages "Alarm is SOUNDING.";
   bit_messages "In ALARM state.";
   bit_messages "Alarm SILENCING is prohibited.";
   bit_messages "RELAY 1 is active.";
   bit_messages "RELAY 2 is active.";
   bit_messages "RELAY 3 is active.";
   bit_messages "RELAY 4 is active."].

(** The iterations of [for i in T1: for j in T2: ...], in order: the loop
    variables and the fragments they select. *)
Fixpoint nested_loops (tables : list (list (string * string)))
  : list (list string * list string) :=
  match tables with
  | [] => [([], [])]
  | d :: rest =>
      flat_map (fun e => map (fun it => (e.1 :: it.1, e.2 :: it.2)) (nested_loops rest)) d
  end.

(** [messages[key, i, j, ...] = Ti[i] + ' ' + Tj[j] + ... + tail] for every
    iteration. *)
Definition product_entries (key : string) (tables : list (list (string * string)))
    (tail : string) (messages : gmap (list atom) string) : gmap (list atom) string :=
  foldl (fun ms it => <[ AStr key :: map AStr it.1 := Py.join " " it.2 +:+ tail ]> ms)
        messages (nested_loops tables).

Definition _messages_dictionary_ : gmap (list atom) string :=
  foldl (fun messages key =>
           if String.eqb key "X" then product_entries key X_tables nl messages
           else if String.eqb key "S" then product_entries key S_tables nl messages
           else if String.eqb key "R" then product_entries key R_tables "" messages
           else messages)
        ∅ ["X"; "S"; "R"].

Definition append_message (key : list atom) : M t unit :=
  old <- gets last_decodified_status ;;
  ms <- gets messages ;;
  msg <- subscript ms key ;;
  match old with
  | Some text => modify (set_last_decodified_status (Some (text +:+ msg)))
  | None => raise TypeError
  end.

(** [bin(int(s,16))[2:].zfill(8)] *)
Definition byte_bits (s : string) : M t string :=
  match Py.int16 s with
  | Some n => ret (Py.zfill 8 (Py.slice_from (Py.bin n) 2))
  | None => raise ValueError
  end.

(** One iteration of [for i in channels] in the seven-character field. *)
Definition decode_channel (key : string) (channel_statuses : list string) (i : string)
  : M t unit :=
  match Py.int10 i with
  | Some n =>
      match channel_statuses !! Z.to_nat (n - 1) with
      | Some cs =>
          bit_7 <- index cs 0 ;;
          bit_6 <- index cs 1 ;;
          bit_5 <- index cs 2 ;;
          b4 <- index cs 4 ;;
          b3 <- index cs 3 ;;
          let bits_43 := b4 +:+ b3 in
          bit_2 <- index cs 5 ;;
          bit_1 <- index cs 6 ;;
          bit_0 <- index cs 7 ;;
          append_message [AStr key; AStr i; AStr bit_0; AStr bit_1; AStr bit_2;
                          AStr bits_43; AStr bit_5; AStr bit_6; AStr bit_7]
      | None => raise IndexError
      end
  | None => raise ValueError
  end.

(** The body of the loop over the three fields. *)
Definition decode_field (status : string) : M t unit :=
  if (Py.len status =? 3)%nat then
    key <- index status 0 ;;
    bits <- byte_bits (Py.slice_from status 1) ;;
    match Py.chars bits with
    | [bit_7; bit_6; bit_5; bit_4; bit_3; bit_2; bit_1; bit_0] =>
        append_message [AStr key; AStr bit_0; AStr bit_1; AStr bit_2; AStr bit_3;
                        AStr bit_4; AStr bit_5; AStr bit_6; AStr bit_7]
    | _ => raise ValueError
    end
  else if (Py.len status =? 4)%nat then
    key <- index status 0 ;;
    match Py.chars (Py.slice_from status 1) with
    | [channel_1; channel_2; channel_3] =>
        append_message [AStr key; AStr channel_1; AStr channel_2; AStr channel_3]
    | _ => raise ValueError
    end
  else
    key <- index status 0 ;;
    c1 <- byte_bits (Py.slice status 1 3) ;;
    c2 <- byte_bits (Py.slice status 3 5) ;;
    c3 <- byte_bits (Py.slice_from status 5) ;;
    for_each ["1"; "2"; "3"] (decode_channel key [c1; c2; c3]).

Definition status_split (status : string) : list string :=
  [Py.slice status 0 4; Py.slice status 4 11; Py.slice_from status 11].

Definition _status_decoder_ (status : string) : M t unit :=
  modify (set_last_decodified_status (Some "")) ;;
  for_each (status_split status) decode_field.

Definition fresh : t :=
  {| messages := _messages_dictionary_; last_decodified_status := None |}.

End OxfordILM.

(** ** Instruments: the generic SCPI instrument *)

Module Instruments.

(** The attributes the modelled methods read and write. [reported] collects
    the errors whose [error_handler()] was called, in order. *)
Record t : Type := {
  instrument : Visa.instrument;
  identity : string;
  sweep_steps : option Py.value;
  last_internal_error : option (list string);
  reported : list exn
}.

Definition set_instrument (v : Visa.instrument) (self : t) : t :=
  {| instrument := v; identity := identity self; sweep_steps := sweep_steps self;
     last_internal_error := last_internal_error self; reported := reported self |}.

Definition set_sweep_steps (v : option Py.value) (self : t) : t :=
  {| instrument := instrument self; identity := identity self; sweep_steps := v;
     last_internal_error := last_internal_error self; reported := reported self |}.

Definition set_last_internal_error (v : option (list string)) (self : t) : t :=
  {| instrument := instrument self; identity := identity self;
     sweep_steps := sweep_steps self;
     last_internal_error := v; reported := reported self |}.

Definition set_reported (v : list exn) (self : t) : t :=
  {| instrument := instrument self; identity := identity self;
     sweep_steps := sweep_steps self;
     last_internal_error := last_internal_error self; reported := v |}.

(** [error.error_handler()] *)
Definition error_handler (error : exn) : M t unit :=
  modify (fun self => set_reported (reported self ++ [error])%list self).

(** [self.instrument.write(cmd)] *)
Definition write (cmd : string) : M t unit :=
  modify (fun self => set_instrument (Visa.write cmd (instrument self)) self).

(** [self.instrument.query(cmd)] *)
Definition query (cmd : string) : M t string :=
  fun self =>
    let '(i, reply) := Visa.query cmd (instrument self) in
    (set_instrument i self, Normal reply).

Definition _operation_complete_query_ : M t unit :=
  query "*OPC?" ;; ret tt.

Definition is_InvalidTypeDictionaryError (e : exn) : bool :=
  match e with Custom Errors.InvalidTypeDictionaryError => true | _ => false end.

(** The list built by the loop of [type_dictionary]: each key as written, in
    title case and in upper case, with its buffer. Indexing [buffers[i]] is
    within range since the lengths were compared. *)
Fixpoint spellings (keys buffers : list string) : list (string * string) :=
  match keys, buffers with
  | k :: keys', b :: buffers' =>
      (k, b) :: (Py.title k, b) :: (Py.upper k, b) :: spellings keys' buffers'
  | _, _ => []
  end.

Definition type_dictionary (keys buffers : list string) : M t (list (string * string)) :=
  try_except
    (if (length keys =? length buffers)%nat then ret (spellings keys buffers)
     else raise Errors.InvalidTypeDictionaryError)
    is_InvalidTypeDictionaryError
    (fun error => error_handler error ;; reraise error).

(** [dict(pairs)]: a later pair replaces an earlier one with the same key. *)
Definition dict (pairs : list (string * string)) : gmap string string :=
  foldl (fun d p => <[ p.1 := p.2 ]> d) ∅ pairs.

(** [d[key]] on a dictionary keyed by strings. *)
Definition lookup_key (d : gmap string string) (key : string) : M t string :=
  match d !! key with
  | Some v => ret v
  | None => raise (KeyError [AStr key])
  end.

End Instruments.

(** ** Keithley2400: the source meter *)

Module Keithley2400.

Import Instruments.

Definition is_ReportInstrumentInternalError (e : exn) : bool :=
  match e with Custom (Errors.ReportInstrumentInternalError _ _) => true | _ => false end.

Definition is_IncorrectInstrumentError (e : exn) : bool :=
  match e with Custom Errors.IncorrectInstrumentError => true | _ => false end.

Definition is_InvalidTypeDictionaryKeyError (e : exn) : bool :=
  match e with Custom Errors.InvalidTypeDictionaryKeyError => true | _ => false end.

(** ['KEITHLEY' in self.identity and '2400' in self.identity] *)
Definition is_2400 (self : t) : bool :=
  Py.contains "KEITHLEY" (identity self) && Py.contains "2400" (identity self).

(** [l[i]] on a list of strings. *)
Definition item (l : list string) (i : nat) : M t string :=
  match l !! i with
  | Some x => ret x
  | None => raise IndexError
  end.

Definition _error_query_ : M t unit :=
  try_except
    (ok <- gets is_2400 ;;
     if ok then
       error_query <- query ":SYST:ERR?" ;;
       let fields := Py.split_on "," error_query in
       modify (set_last_internal_error (Some fields)) ;;
       code <- item fields 0 ;;
       if negb (String.eqb code "0") then
         message <- item fields 1 ;;
         raise (Errors.ReportInstrumentInternalError code
                  (Py.drop 1 (Py.slice_until_last message 2)))
       else ret tt
     else raise Errors.IncorrectInstrumentError)
    (fun e => is_ReportInstrumentInternalError e || is_IncorrectInstrumentError e)
    (fun error => error_handler error ;; reraise error).

(** The handler of the two private builders starts with [return None]: the
    lines after it never run. The result is [None] in that case. *)
Definition _source_general_configuration_ (auto_clear : bool) (autoclear_mode : string)
    (auto_settle : bool) (settling_delay : Py.value) : M t (option string) :=
  try_except
    (buffer <-
       (if auto_clear then
          pairs <- type_dictionary ["always"; "on trigger"] ["ALW"; "TCO"] ;;
          let autoclear_types := dict pairs in
          mode <- lookup_key autoclear_types autoclear_mode ;;
          ret (":SOUR:CLE:AUTO ON;:SOUR:CLE:AUTO:mode " +:+ mode +:+ ";")
        else ret ":SOUR:CLE:AUTO OFF;") ;;
     if auto_settle then ret (Some (buffer +:+ ":SOUR:DEL:AUTO ON;"))
     else ret (Some (buffer +:+ ":SOUR:DEL:AUTO OFF;:SOUR:DEL "
                       +:+ Py.str settling_delay +:+ ";")))
    is_InvalidTypeDictionaryKeyError
    (fun error => ret None).

Definition _sweep_configuration_ (spacing : string) (points : Py.value)
    (direction sweep_range_mode abort_on_compliance : string) : M t (option string) :=
  try_except
    (modify (set_sweep_steps (Some points)) ;;
     p1 <- type_dictionary ["linear"; "logarithmic"] ["LIN"; "LOG"] ;;
     let spacing_types := dict p1 in
     p2 <- type_dictionary ["up"; "down"] ["UP"; "DOWN"] ;;
     let directions := dict p2 in
     p3 <- type_dictionary ["best"; "auto"; "fixed"] ["BEST"; "AUTO"; "FIX"] ;;
     let range_modes := dict p3 in
     p4 <- type_dictionary ["never"; "early"; "late"] ["NEV"; "EARL"; "LATE"] ;;
     let abort_modes := dict p4 in
     a <- lookup_key spacing_types spacing ;;
     b <- lookup_key directions direction ;;
     c <- lookup_key range_modes sweep_range_mode ;;
     d <- lookup_key abort_modes abort_on_compliance ;;
     ret (Some (":SOUR:SWE:SPAC " +:+ a +:+ ";:SOUR:SWE:POIN " +:+ Py.str points
                  +:+ ";:SOUR:SWE:DIR " +:+ b +:+ ";:SOUR:SWE:RANG " +:+ c
                  +:+ ";:SOUR:SWE:CAB " +:+ d +:+ ";")))
    is_InvalidTypeDictionaryKeyError
    (fun error => ret None).

(** [buffer += text] where [buffer] may be [None]. *)
Definition extend (buffer : option string) (text : string) : M t string :=
  match buffer with
  | Some b => ret (b +:+ text)
  | None => raise TypeError
  end.

(** [set_level_mode == word or == word.title() or == word.upper()] *)
Definition spelled (word mode : string) : bool :=
  String.eqb mode word || String.eqb mode (Py.title word) || String.eqb mode (Py.upper word).

(** Defaults of the keyword arguments: [auto_clear = False],
    [autoclear_mode = 'Always'], [auto_settle = True], [settling_delay = 0],
    [auto_range = True], [manual_range = 1e-2], [source_level = 1e-3],
    [set_level_mode = 'Immediate'], [triggered_scaling = False],
    [scaling_factor = 1], [compliance_value = 20]. *)
Definition current_source_fixed_configuration (auto_clear : bool)
    (autoclear_mode : string) (auto_settle : bool) (settling_delay : Py.value)
    (auto_range : bool) (manual_range source_level : Py.value)
    (set_level_mode : string) (triggered_scaling : bool)
    (scaling_factor compliance_value : Py.value) : M t unit :=
  try_except
    (ok <- gets is_2400 ;;
     if ok then
       general <- _source_general_configuration_ auto_clear autoclear_mode
                    auto_settle settling_delay ;;
       buffer <- extend general ":SOUR:FUNC CURR;:SOUR:CURR:MODE FIX;" ;;
       let buffer :=
         if auto_range then buffer +:+ ":SOUR:CURR:RANG:AUTO ON;"
         else buffer +:+ ":SOUR:CURR:RANG:AUTO OFF;:SOUR:CURR:RANG " +:+ Py.str manual_range in
       let buffer :=
         if spelled "immediate" set_level_mode then
           buffer +:+ ":SOUR:CURR " +:+ Py.str source_level +:+ ";"
         else if spelled "triggered" set_level_mode then
           let buffer := buffer +:+ ":SOUR:CURR:TRIG " +:+ Py.str source_level +:+ ";" in
           if triggered_scaling then
             buffer +:+ ":SOUR:CURR:TRIG:SFAC ON;:SOUR:CURR:TRIG:SFAC " +:+ Py.str scaling_factor
           else buffer +:+ ":SOUR:CURR:TRIG:SFAC OFF;"
         else buffer in
       let buffer := buffer +:+ ":SENS:VOLT:PROT " +:+ Py.str compliance_value +:+ ";" in
       write buffer ;;
       _operation_complete_query_ ;;
       _error_query_
     else raise Errors.IncorrectInstrumentError)
    (fun e => is_ReportInstrumentInternalError e || is_IncorrectInstrumentError e
              || is_InvalidTypeDictionaryKeyError e)
    (fun error => error_handler error).

(** Defaults of the keyword arguments: [autoclear = False],
    [autoclear_mode = 'Always'], [auto_settle = True], [settling_delay = 0],
    [start_level = -1], [stop_level = +1], [spacing = 'Linear'],
    [points = 2500], [direction = 'Up'], [sweep_range_mode = 'Best'],
    [abort_on_compliance = 'Never'], [compliance_value = 1e-4]. *)
Definition current_source_sweep_configuration (autoclear : bool)
    (autoclear_mode : string) (auto_settle : bool) (settling_delay : Py.value)
    (start_level stop_level : Py.value) (spacing : string) (points : Py.value)
    (direction sweep_range_mode abort_on_compliance : string)
    (compliance_value : Py.value) : M t unit :=
  try_except
    (ok <- gets is_2400 ;;
     if ok then
       general <- _source_general_configuration_ autoclear autoclear_mode
                    auto_settle settling_delay ;;
       buffer <- extend general (":SOUR:FUNC CURR;:SOUR:CURR:mode SWE;:SOUR:CURR:STAR "
                                   +:+ Py.str start_level +:+ ";:SOUR:CURR:STOP "
                                   +:+ Py.str stop_level +:+ ";") ;;
       sweep <- _sweep_configuration_ spacing points direction sweep_range_mode
                  abort_on_compliance ;;
       buffer <- match sweep with
                 | Some text => ret (buffer +:+ text)
                 | None => raise TypeError
                 end ;;
       let buffer := buffer +:+ ":SENS:VOLT:PROT " +:+ Py.str compliance_value +:+ ";" in
       write buffer ;;
       _operation_complete_query_ ;;
       _error_query_
     else raise Errors.IncorrectInstrumentError)
    (fun e => is_ReportInstrumentInternalError e || is_IncorrectInstrumentError e
              || is_InvalidTypeDictionaryKeyError e)
    (fun error => error_handler error).

(** A source meter connected to [device], with the identity it answered. *)
Definition connected (device : list Visa.io -> string) (identity : string) : t :=
  {| instrument := {| Visa.sent := []; Visa.device := device |};
     identity := identity; sweep_steps := None; last_internal_error := None;
     reported := [] |}.

End Keithley2400.

(** ** Manager: the resource directory *)

Module Manager.

(** [self.resources] is the last enumeration read. The VISA resource manager
    is outside the program: [bus n] is what its [n]-th call of
    [list_resources()] answers, and [calls] counts the calls made so far.
    [reported] collects the errors whose [error_handler()] was called. *)
Record t : Type := {
  resources : list string;
  bus : nat -> list string;
  calls : nat;
  reported : list exn
}.

Definition set_resources (v : list string) (self : t) : t :=
  {| resources := v; bus := bus self; calls := calls self; reported := reported self |}.

Definition set_reported (v : list exn) (self : t) : t :=
  {| resources := resources self; bus := bus self; calls := calls self; reported := v |}.

(** [error.error_handler()] *)
Definition error_handler (error : exn) : M t unit :=
  modify (fun self => set_reported (reported self ++ [error])%list self).

(** [self.manager.list_resources()] *)
Definition list_resources : M t (list string) :=
  fun self =>
    ({| resources := resources self; bus := bus self; calls := S (calls self);
        reported := reported self |},
     Normal (bus self (calls self))).

(** [self.manager.open_resource(adress)]: the session is identified by the
    address it was opened on. *)
Definition open_resource (adress : string) : M t string := ret adress.

Definition is_VoidManagerError (e : exn) : bool :=
  match e with Custom Errors.VoidManagerError => true | _ => false end.

Definition is_InstrumentNotAvailableError (e : exn) : bool :=
  match e with Custom Errors.InstrumentNotAvailableError => true | _ => false end.

Definition _is_resource_ (adress : string) : M t bool :=
  gets (fun self => bool_decide (adress ∈ resources self)).

Definition _refresh_resources_ : M t unit :=
  try_except
    (initial_resources <- gets resources ;;
     listed <- list_resources ;;
     modify (set_resources listed) ;;
     if bool_decide (listed = initial_resources) then
       if bool_decide (listed = []) then raise Errors.VoidManagerError
       else raise Errors.InstrumentNotAvailableError
     else ret tt)
    (fun e => is_VoidManagerError e || is_InstrumentNotAvailableError e)
    (fun error => error_handler error ;; reraise error).

(** The result is the session, or [None] when the method falls off its end
    after the handler. *)
Definition open_instrument (adress : string) : M t (option string) :=
  try_except
    (known <- _is_resource_ adress ;;
     if known then h <- open_resource adress ;; ret (Some h)
     else
       _refresh_resources_ ;;
       known' <- _is_resource_ adress ;;
       if known' then h <- open_resource adress ;; ret (Some h)
       else raise Errors.InstrumentNotAvailableError)
    is_InstrumentNotAvailableError
    (fun error => error_handler error ;; ret None).

End Manager.

(** ** Cryostat: what the Oxford profiles share *)

Module Cryostat.

(** The attributes the modelled methods read and write. [identity] and
    [last_queried_status] are [None] until the instrument has been asked.
    [reported] collects the errors whose [error_handler()] was called, in
    order; [closed] records [self.instrument.close()]. *)
Record t : Type := {
  instrument : Visa.instrument;
  buffer_radix : string;
  identity : option string;
  last_queried_status : option string;
  reported : list exn;
  closed : bool
}.

Definition set_instrument (v : Visa.instrument) (self : t) : t :=
  {| instrument := v; buffer_radix := buffer_radix self; identity := identity self;
     last_queried_status := last_queried_status self; reported := reported self;
     closed := closed self |}.

Definition set_last_queried_status (v : option string) (self : t) : t :=
  {| instrument := instrument self; buffer_radix := buffer_radix self;
     identity := identity self; last_queried_status := v; reported := reported self;
     closed := closed self |}.

Definition set_reported (v : list exn) (self : t) : t :=
  {| instrument := instrument self; buffer_radix := buffer_radix self;
     identity := identity self; last_queried_status := last_queried_status self;
     reported := v; closed := closed self |}.

Definition set_closed (v : bool) (self : t) : t :=
  {| instrument := instrument self; buffer_radix := buffer_radix self;
     identity := identity self; last_queried_status := last_queried_status self;
     reported := reported self; closed := v |}.

(** [error.error_handler()] *)
Definition error_handler (error : exn) : M t unit :=
  modify (fun self => set_reported (reported self ++ [error])%list self).

(** [self.instrument.query(cmd)] *)
Definition query (cmd : string) : M t string :=
  fun self =>
    let '(i, reply) := Visa.query cmd (instrument self) in
    (set_instrument i self, Normal reply).

(** [token in self.identity]; the identity may still be [None]. *)
Definition identity_has (token : string) : M t bool :=
  identity <- gets identity ;;
  match identity with
  | Some text => ret (Py.contains token text)
  | None => raise TypeError
  end.

(** [if '?' in string:] and the chain of model tests under it. *)
Definition check_reply (string : string) : M t unit :=
  if Py.contains "?" string then
    ilm <- identity_has "ILM" ;;
    if ilm then raise Errors.LMNotResponding
    else
      ips <- identity_has "IPS" ;;
      if ips then raise Errors.PSNotResponding
      else
        itc <- identity_has "ITC" ;;
        if itc then raise Errors.TCNotResponding else ret tt
  else ret tt.

(** The classes the three handlers name. *)
Definition is_not_responding (e : exn) : bool :=
  match e with
  | Custom Errors.LMNotResponding | Custom Errors.PSNotResponding
  | Custom Errors.TCNotResponding => true
  | _ => false
  end.

Definition set_control_mode (remote locked : bool) : M t unit :=
  try_except
    (radix <- gets buffer_radix ;;
     string <- (if remote then
                  if locked then query (radix +:+ "C1") else query (radix +:+ "C3")
                else
                  if locked then query (radix +:+ "C0") else query (radix +:+ "C2")) ;;
     check_reply string)
    is_not_responding
    (fun error => error_handler error ;; reraise error).

Definition get_status_string : M t unit :=
  try_except
    (radix <- gets buffer_radix ;;
     reply <- query (radix +:+ "X") ;;
     modify (set_last_queried_status (Some reply)) ;;
     check_reply reply)
    is_not_responding
    (fun error => error_handler error ;; reraise error).

Definition _set_RAM_contents_ : M t unit :=
  try_except
    (radix <- gets buffer_radix ;;
     string <- query (radix +:+ "Y8") ;;
     check_reply string)
    is_not_responding
    (fun error => error_handler error ;; reraise error).

Definition _general_close_ : M t unit :=
  set_control_mode false false ;;
  modify (set_closed true).

(** A component connected to [device], as [__init__] leaves it and after the
    version string [identity] was read. *)
Definition connected (device : list Visa.io -> string) (radix : string)
    (identity : option string) : t :=
  {| instrument := {| Visa.sent := []; Visa.device := device |};
     buffer_radix := radix; identity := identity; last_queried_status := None;
     reported := []; closed := false |}.

End Cryostat.

(** ** OxfordIPS: further control commands *)

Module OxfordIPSControl.

Import OxfordIPS.

(** [self.last_queried_status[i]]; the status may still be [None]. *)
Definition status_char (i : nat) : M t string :=
  status <- gets last_queried_status ;;
  match status with
  | Some text => index text i
  | None => raise TypeError
  end.

(** [flag and not(self.last_queried_status[i] == digit)]: the status is read
    only when the flag is set. *)
Definition flag_unconfirmed (flag : bool) (i : nat) (digit : string) : M t bool :=
  if flag then c <- status_char i ;; ret (negb (String.eqb c digit))
  else ret false.

(** Defaults of the keyword arguments: [hold = True], [to_set_point = False],
    [to_zero = False], [clamped = False]. *)
Definition set_activity (hold to_set_point to_zero clamped : bool) : M t unit :=
  try_except
    (identity <- gets identity ;;
     if Py.contains "IPS" identity then
       radix <- gets buffer_radix ;;
       (if hold then query (radix +:+ "A0") ;; ret tt
        else if to_set_point then query (radix +:+ "A1") ;; ret tt
        else if to_zero then query (radix +:+ "A2") ;; ret tt
        else if clamped then query (radix +:+ "A4") ;; ret tt
        else ret tt) ;;
       get_status ;;
       a <- flag_unconfirmed hold 4 "0" ;;
       if a then raise Errors.PSNotResponding
       else
         b <- flag_unconfirmed to_set_point 4 "1" ;;
         if b then raise Errors.PSNotResponding
         else
           c <- flag_unconfirmed to_zero 4 "2" ;;
           if c then raise Errors.PSNotResponding
           else
             d <- flag_unconfirmed clamped 4 "4" ;;
             if d then raise Errors.PSNotResponding else ret tt
     else raise Errors.IncorrectInstrumentError)
    (fun e => is_PSNotResponding e || is_IncorrectInstrumentError e)
    (fun error => ret tt).

(** Default of the keyword argument: [opened = False]. *)
Definition set_switch_heater (opened : bool) : M t unit :=
  try_except
    (identity <- gets identity ;;
     if Py.contains "IPS" identity then
       radix <- gets buffer_radix ;;
       (if opened then query (radix +:+ "H1") else query (radix +:+ "H0")) ;;
       get_status ;;
       a <- flag_unconfirmed opened 8 "1" ;;
       if a then raise Errors.PSNotResponding
       else
         b <- (if negb opened then
                 c <- status_char 8 ;;
                 if String.eqb c "0" then ret true
                 else c' <- status_char 8 ;; ret (String.eqb c' "2")
               else ret false) ;;
         if b then raise Errors.PSNotResponding else ret tt
     else raise Errors.IncorrectInstrumentError)
    (fun e => is_PSNotResponding e || is_IncorrectInstrumentError e)
    (fun error => ret tt).

End OxfordIPSControl.

(** ** Keithley2400: sense, route and output configurations *)

Module Keithley2400Setup.

Import Instruments.

(** Defaults of the keyword arguments: [auto_range = True],
    [manual_range = 1e-4], [NPLCs = 10]. The write and the two queries stand
    under the [else] of [if auto_range]. *)
Definition current_sense_configuration (auto_range : bool)
    (manual_range NPLCs : Py.value) : M t unit :=
  try_except
    (ok <- gets Keithley2400.is_2400 ;;
     if ok then
       let buffer := ":SENS:FUNC:CONC ON;:SENS:FUNC:ALL;" in
       if auto_range then
         let buffer := buffer +:+ ":SENS:CURR:RANG:AUTO ON;" in
         ret tt
       else
         let buffer := buffer +:+ ":SENS:CURR:RANG:AUTO OFF;:SENS:CURR:RANG "
                         +:+ Py.str manual_range +:+ ";" in
         let buffer := buffer +:+ ":SENS:CURR:NPLC " +:+ Py.str NPLCs +:+ ";" in
         write buffer ;;
         _operation_complete_query_ ;;
         Keithley2400._error_query_
     else raise Errors.IncorrectInstrumentError)
    (fun e => Keithley2400.is_ReportInstrumentInternalError e
              || Keithley2400.is_IncorrectInstrumentError e)
    (fun error => error_handler error).

(** Defaults of the keyword arguments: [auto_range = True],
    [manual_range = 21], [NPLCs = 10]. *)
Definition voltage_sense_configuration (auto_range : bool)
    (manual_range NPLCs : Py.value) : M t unit :=
  try_except
    (ok <- gets Keithley2400.is_2400 ;;
     if ok then
       let buffer := ":SENS:FUNC:CONC ON;:SENS:FUNC:ALL;" in
       let buffer :=
         if auto_range then buffer +:+ ":SENS:VOLT:RANG:AUTO ON;"
         else buffer +:+ ":SENS:VOLT:RANG:AUTO OFF;:SENS:VOLT:RANG "
                +:+ Py.str manual_range +:+ ";" in
       let buffer := buffer +:+ ":SENS:VOLT:NPLC " +:+ Py.str NPLCs +:+ ";" in
       write buffer ;;
       _operation_complete_query_ ;;
       Keithley2400._error_query_
     else raise Errors.IncorrectInstrumentError)
    (fun e => Keithley2400.is_ReportInstrumentInternalError e
              || Keithley2400.is_IncorrectInstrumentError e)
    (fun error => error_handler error).

(** Default of the keyword argument: [terminals = 'Front']. *)
Definition route_configuration (terminals : string) : M t unit :=
  try_except
    (ok <- gets Keithley2400.is_2400 ;;
     if ok then
       pairs <- type_dictionary ["front"; "rear"] ["FRON"; "REAR"] ;;
       let types := dict pairs in
       terminal <- lookup_key types terminals ;;
       let buffer := ":ROUT:TERM " +:+ terminal +:+ ";" in
       write buffer ;;
       _operation_complete_query_ ;;
       Keithley2400._error_query_
     else raise Errors.IncorrectInstrumentError)
    (fun e => Keithley2400.is_ReportInstrumentInternalError e
              || Keithley2400.is_IncorrectInstrumentError e
              || Keithley2400.is_InvalidTypeDictionaryKeyError e)
    (fun error => error_handler error).

(** Defaults of the keyword arguments: [output_enable = False],
    [output_off_mode = 'Normal']. *)
Definition output_configuration (output_enable : bool) (output_off_mode : string)
  : M t unit :=
  try_except
    (ok <- gets Keithley2400.is_2400 ;;
     if ok then
       let buffer := if output_enable then ":OUTP:ENAB ON;" else ":OUTP:ENAB OFF;" in
       pairs <- type_dictionary ["hi-z"; "normal"; "zero"; "guard"]
                  ["HIMP"; "NORM"; "ZERO"; "GUAR"] ;;
       let types := dict pairs in
       mode <- lookup_key types output_off_mode ;;
       let buffer := buffer +:+ ":OUTP:SMODE " +:+ mode +:+ ";" in
       write buffer ;;
       _operation_complete_query_ ;;
       Keithley2400._error_query_
     else raise Errors.IncorrectInstrumentError)
    (fun e => Keithley2400.is_ReportInstrumentInternalError e
              || Keithley2400.is_IncorrectInstrumentError e
              || Keithley2400.is_InvalidTypeDictionaryKeyError e)
    (fun error => error_handler error).

End Keithley2400Setup.

(** ** Instruments: the common commands *)

Module InstrumentsCommon.

Import Instruments.

(** The queries below drop the reply: the methods have no [return]. *)
Definition _clear_status_ : M t unit := write "*CLS".

(** Defaults of the keyword arguments: [all_disabled = False],
    [enable_number = 0]; [{0:d}] formats an integer. *)
Definition _event_enable_ (all_disabled : bool) (enable_number : Z) : M t unit :=
  if all_disabled then write "*ESE 0"
  else write ("*ESE " +:+ Py.str_int enable_number).

Definition _event_enable_query_ : M t unit := query "*ESE?" ;; ret tt.

Definition _event_status_register_query_ : M t unit := query "*ESR?" ;; ret tt.

(** The result is [None]: the reply is not returned. *)
Definition _options_query_ : M t (option string) := query "*OPT?" ;; ret None.

Definition _reset_command_ : M t unit := write "*RST".

Definition _service_request_enable_command_ (all_disabled : bool) (enable_number : Z)
  : M t unit :=
  if all_disabled then write "*SRE 0"
  else write ("*SRE " +:+ Py.str_int enable_number).

Definition _service_request_enable_query_ : M t unit := query "*SRE?" ;; ret tt.

Definition _self_test_query_ : M t unit := query "*TST?" ;; ret tt.

End InstrumentsCommon.

(** ** Keithley2400: the output and the reset *)

Module Keithley2400Output.

(** The attributes of the source meter beside those of the generic
    instrument. *)
Record t : Type := {
  instruments : Instruments.t;
  output_status : option string;
  options : option string
}.

Definition set_instruments (v : Instruments.t) (self : t) : t :=
  {| instruments := v; output_status := output_status self; options := options self |}.

Definition set_output_status (v : option string) (self : t) : t :=
  {| instruments := instruments self; output_status := v; options := options self |}.

Definition set_options (v : option string) (self : t) : t :=
  {| instruments := instruments self; output_status := output_status self; options := v |}.

(** A method of the generic instrument, run on the source meter. *)
Definition inherited {A : Type} (m : M Instruments.t A) : M t A :=
  fun self =>
    let '(i, r) := m (instruments self) in (set_instruments i self, r).

Definition is_2400 (self : t) : bool := Keithley2400.is_2400 (instruments self).

Definition _output_off_ : M t unit :=
  try_except
    (ok <- gets is_2400 ;;
     if ok then
       inherited (Instruments.write ":OUTP:STAT OFF;") ;;
       status <- inherited (Instruments.query ":OUTP:STAT?") ;;
       modify (set_output_status (Some status)) ;;
       inherited Instruments._operation_complete_query_ ;;
       inherited Keithley2400._error_query_
     else raise Errors.IncorrectInstrumentError)
    (fun e => Keithley2400.is_ReportInstrumentInternalError e
              || Keithley2400.is_IncorrectInstrumentError e)
    (fun error => inherited (Instruments.error_handler error) ;; reraise error).

(** The handler switches the output off before it reports. *)
Definition _output_on_ : M t unit :=
  try_except
    (ok <- gets is_2400 ;;
     if ok then
       inherited (Instruments.write ":OUTP:STAT ON;") ;;
       status <- inherited (Instruments.query ":OUTP:STAT?") ;;
       modify (set_output_status (Some status)) ;;
       inherited Instruments._operation_complete_query_ ;;
       inherited Keithley2400._error_query_
     else raise Errors.IncorrectInstrumentError)
    (fun e => Keithley2400.is_ReportInstrumentInternalError e
              || Keithley2400.is_IncorrectInstrumentError e)
    (fun error =>
       _output_off_ ;; inherited (Instruments.error_handler error) ;; reraise error).

(** Default of the keyword argument: [secure_output = True]. *)
Definition _system_reset_ (secure_output : bool) : M t unit :=
  try_except
    (ok <- gets is_2400 ;;
     if ok then
       inherited InstrumentsCommon._self_test_query_ ;;
       inherited InstrumentsCommon._reset_command_ ;;
       inherited InstrumentsCommon._clear_status_ ;;
       inherited (InstrumentsCommon._event_enable_ false 255) ;;
       inherited InstrumentsCommon._event_enable_query_ ;;
       inherited InstrumentsCommon._event_status_register_query_ ;;
       found <- inherited InstrumentsCommon._options_query_ ;;
       modify (set_options found) ;;
       inherited (InstrumentsCommon._service_request_enable_command_ false 189) ;;
       inherited InstrumentsCommon._service_request_enable_query_ ;;
       (if secure_output then _output_off_ else ret tt) ;;
       inherited Instruments._operation_complete_query_ ;;
       inherited Keithley2400._error_query_
     else raise Errors.IncorrectInstrumentError)
    (fun e => Keithley2400.is_ReportInstrumentInternalError e
              || Keithley2400.is_IncorrectInstrumentError e)
    (fun error => inherited (Instruments.error_handler error) ;; reraise error).

(** A source meter as [__init__] leaves it before the reset. *)
Definition connected (i : Instruments.t) : t :=
  {| instruments := i; output_status := None; options := None |}.

End Keithley2400Output.

(** * Properties *)

(** ** Literals

    The decimal literals of the sources denote the same binary64 values as
    the literals used here, and print as the claims quote them. *)

Example literal_98_46 : Py.float_of_str "98.46" = Some 98.46%float.
Proof. vm_compute. reflexivity. Qed.

(** [float()] skips the blanks around a number, and not the separators 28 to
    31 that [str.strip] would remove: next to one of them the text is not a
    number. The same holds of [int()]. *)
Example float_of_str_blanks :
  Py.float_of_str (" 2.5" +:+ nl) = Some 2.5%float
  /\ Py.float_of_str (String (ascii_of_nat 31) "2.5") = None
  /\ Py.float_of_str ("2.5" +:+ String (ascii_of_nat 28) "") = None
  /\ Py.int10 (String (ascii_of_nat 31) "25") = None
  /\ Py.int16 ("1f" +:+ String (ascii_of_nat 28) "") = None.
Proof. repeat split; vm_compute; reflexivity. Qed.

Example literal_98_47 : Py.float_of_str "98.47" = Some 98.47%float.
Proof. vm_compute. reflexivity. Qed.

Example literal_16_88 : Py.float_of_str "16.88" = Some 16.88%float.
Proof. vm_compute. reflexivity. Qed.

Example literal_1e_2 : Py.float_of_str "1e-2" = Some 0.01%float.
Proof. vm_compute. reflexivity. Qed.

Example literal_5e_3 : Py.float_of_str "5e-3" = Some 0.005%float.
Proof. vm_compute. reflexivity. Qed.

Example str_1e_2 : Py.str (Py.VFloat 0.01) = "0.01".
Proof. vm_compute. reflexivity. Qed.

Example str_5e_3 : Py.str (Py.VFloat 0.005) = "0.005".
Proof. vm_compute. reflexivity. Qed.

Example format_current_98_46 : Py.format_f true 4 98.46%float = "+98.4600".
Proof. vm_compute. reflexivity. Qed.

Example title_on_trigger : Py.title "on trigger" = "On Trigger".
Proof. reflexivity. Qed.

Example upper_on_trigger : Py.upper "on trigger" = "ON TRIGGER".
Proof. reflexivity. Qed.

(** ** The temperature controller's decoder on the example status *)

(** The message the example of the specification expects, phrase by phrase. *)
Definition itc_example_expected : string :=
  "Temperature controller NORMAL operative mode."
  +:+ "Heater in AUTO mode. Gas flow in MANUAL mode."
  +:+ "Temperature controller in REMOTE and LOCKED state."
  +:+ "Holding the step number 3 set temperature."
  +:+ "Temperature is controlled by CHANNEL 2 sensor."
  +:+ "Auto (learned) PIDs are DISABLED.".

(** The fields the 2/2/2/3/2/2 schedule cuts out of the 14-character example:
    the second field starts with the extra [0]. *)
Example itc_example_fields :
  OxfordITC.status_split "X00A1C1S05H2L0" = ["X0"; "0A"; "1C"; "1S0"; "5H"; "2L0"].
Proof. reflexivity. Qed.

(** The table's phrases for sweep steps 5 and 6, stored under integer keys. *)
Example itc_sweep_step_phrases :
  OxfordITC._messages_dictionary_ !! [AStr "S"; AInt 5]
    = Some ("Sweeping to step number 3 set temperature." +:+ nl)
  /\ OxfordITC._messages_dictionary_ !! [AStr "S"; AInt 6]
    = Some ("Holding the step number 3 set temperature." +:+ nl).
Proof. split; vm_compute; reflexivity. Qed.

(** C1, as stated, fails: on ['X00A1C1S05H2L0'] the decoder raises the lookup
    failure of [('0','A')], and what it leaves in [last_decodified_status] is
    not the expected message. *)
Lemma itc_example_not_decoded :
  (OxfordITC._status_decoder_ "X00A1C1S05H2L0" OxfordITC.fresh).2
    = Raised (KeyError [AStr "0"; AStr "A"])
  /\ OxfordITC.last_decodified_status
       (OxfordITC._status_decoder_ "X00A1C1S05H2L0" OxfordITC.fresh).1
     <> Some itc_example_expected.
Proof. split; [vm_compute; reflexivity | vm_compute; discriminate]. Qed.

(** C1 (amended): whatever was decoded before, decoding the 14-character
    ['X00A1C1S05H2L0'] stops at its second field ['0A'] with a lookup failure,
    after the first phrase; the 13-character status ['X0A1C1S00H2L0'] decodes
    to exactly the six phrases of its fields, each but the last ending in a
    newline. *)
Theorem itc_example_decoding (previous : option string) :
  let self := {| OxfordITC.messages := OxfordITC._messages_dictionary_;
                 OxfordITC.last_decodified_status := previous |} in
  ((OxfordITC._status_decoder_ "X00A1C1S05H2L0" self).2
     = Raised (KeyError [AStr "0"; AStr "A"])
   /\ OxfordITC.last_decodified_status (OxfordITC._status_decoder_ "X00A1C1S05H2L0" self).1
     = Some ("Temperature controller NORMAL operative mode." +:+ nl))
  /\ ((OxfordITC._status_decoder_ "X0A1C1S00H2L0" self).2 = Normal tt
      /\ OxfordITC.last_decodified_status (OxfordITC._status_decoder_ "X0A1C1S00H2L0" self).1
        = Some ("Temperature controller NORMAL operative mode." +:+ nl
                +:+ "Heater in AUTO mode. Gas flow in MANUAL mode." +:+ nl
                +:+ "Temperature controller in REMOTE and LOCKED state." +:+ nl
                +:+ "Sweep mode is not active." +:+ nl
                +:+ "Temperature is controlled by CHANNEL 2 sensor." +:+ nl
                +:+ "Auto (learned) PIDs are DISABLED.")).
Proof. repeat split; vm_compute; reflexivity. Qed.

(** ** Valid statuses of the temperature controller *)

(** C2 at a valid status of the temperature controller: every field of
    ['X0A1C1S05H2L0'] is legal (sweep step 5), the table has the phrase of
    step 5 under the integer key [5], the decoder looks it up under the text
    ['05'], and the decoding raises instead of producing a message. *)
Theorem itc_valid_status_not_decoded :
  (OxfordITC._status_decoder_ "X0A1C1S05H2L0" OxfordITC.fresh).2
    = Raised (KeyError [AStr "S"; AStr "05"])
  /\ OxfordITC._messages_dictionary_ !! [AStr "S"; AStr "05"] = None
  /\ OxfordITC._messages_dictionary_ !! [AStr "S"; AInt 5]
     = Some ("Sweeping to step number 3 set temperature." +:+ nl).
Proof. repeat split; vm_compute; reflexivity. Qed.

(** ** The power supply: range checks and read-back *)

(** Unfolding of the monad's operations, for goals about a method run on a
    symbolic object. *)
Ltac run :=
  cbv beta iota delta
    [try_except bind gets modify raise reraise ret for_each index subscript
     OxfordIPS.query OxfordIPS.float Visa.query fst snd].

(** The command a set operation sends for [v]. *)
Definition ips_command (self : OxfordIPS.t) (letter : string) (wide narrow : nat)
    (v : float) : string :=
  OxfordIPS.buffer_radix self +:+ letter
    +:+ (if OxfordIPS.extended_resolution self then Py.format_f true wide v
         else Py.format_f true narrow v).

(** An instrument that answers every query with the same text. *)
Definition constant_ips (reply : string) : OxfordIPS.t :=
  OxfordIPS.connected (fun _ => reply) "@0" "IPS120-10  Version 3.07  (c) OXFORD 1996" true.

(** A current beyond 98.46 A in magnitude: [set_target_current] sends
    nothing, changes nothing and returns normally. The failure
    [PSWrongOutputCurrent] it raises is caught by its own [except] clause,
    whose body only names [error.error_handler]. *)
Theorem set_target_current_out_of_range (current : float) (self : OxfordIPS.t) :
  PrimFloat.leb (PrimFloat.abs current) 98.46%float = false ->
  OxfordIPS.set_target_current current self = (self, Normal tt).
Proof.
  intros Hrange. unfold OxfordIPS.set_target_current. run.
  destruct (Py.contains "IPS" (OxfordIPS.identity self)); [rewrite Hrange|]; reflexivity.
Qed.

(** C4 at 98.47: nothing is written, and the caller gets no failure. *)
Lemma set_target_current_98_47 :
  PrimFloat.leb (PrimFloat.abs 98.47%float) 98.46%float = false
  /\ OxfordIPS.set_target_current 98.47%float (constant_ips "R+0.0000")
     = (constant_ips "R+0.0000", Normal tt).
Proof.
  split; [reflexivity|].
  apply (set_target_current_out_of_range 98.47%float (constant_ips "R+0.0000")).
  reflexivity.
Defined.

(** 98.46 is accepted: the command goes out with four decimals. *)
Example set_target_current_98_46 :
  OxfordIPS.sent (OxfordIPS.set_target_current 98.46%float (constant_ips "R+98.4600")).1
    = [Visa.Query "@0I+98.4600"; Visa.Query "@0R5"]
  /\ (OxfordIPS.set_target_current 98.46%float (constant_ips "R+98.4600")).2 = Normal tt
  /\ OxfordIPS.current_set_point
       (OxfordIPS.set_target_current 98.46%float (constant_ips "R+98.4600")).1
     = Some 98.46%float.
Proof. repeat split; vm_compute; reflexivity. Qed.

(** X1: Read-back of [set_target_field]: when the supply answers the re-read with
    a number [v], the reading becomes [v]; the call returns normally if [v]
    equals the requested field and raises [PSNotResponding] to the caller
    otherwise. *)
Lemma set_target_field_read_back (field v : float) (self : OxfordIPS.t) :
  Py.contains "IPS" (OxfordIPS.identity self) = true ->
  PrimFloat.leb (PrimFloat.abs field) 7%float = true ->
  let cmd := ips_command self "J" 5 4 field in
  let reread := OxfordIPS.buffer_radix self +:+ "R8" in
  let reply := OxfordIPS.answer self [cmd; reread] in
  Py.contains "?" (Py.slice_from reply 1) = false ->
  Py.float_of_str (Py.slice_from reply 1) = Some v ->
  let r := OxfordIPS.set_target_field field self in
  r.2 = (if PrimFloat.eqb v field then Normal tt else Raised Errors.PSNotResponding)
  /\ OxfordIPS.field_set_point r.1 = Some v
  /\ OxfordIPS.sent r.1 = (OxfordIPS.sent self ++ [Visa.Query cmd; Visa.Query reread])%list.
Proof.
  intros Hid Hrange cmd reread reply Hq Hv r.
  subst r cmd reread reply. unfold OxfordIPS.answer, ips_command in *. simpl foldl in *.
  unfold OxfordIPS.set_target_field, OxfordIPS.get_field_set_point_reading, OxfordIPS.sent.
  run. rewrite Hid, Hrange.
  destruct (OxfordIPS.extended_resolution self); cbn [OxfordIPS.instrument
    OxfordIPS.set_instrument OxfordIPS.identity OxfordIPS.buffer_radix Visa.sent Visa.device
    OxfordIPS.extended_resolution] in *;
    run; rewrite Hid; cbn [OxfordIPS.instrument OxfordIPS.set_instrument
    OxfordIPS.buffer_radix Visa.sent Visa.device] in *; rewrite Hq, Hv;
    cbn; destruct (PrimFloat.eqb v field); cbn; rewrite <- app_assoc; auto.
Qed.

(** X2: Read-back of [set_target_current]: the reading becomes the answered [v],
    and the call returns normally whether or not [v] is the requested
    current. *)
Lemma set_target_current_read_back (current v : float) (self : OxfordIPS.t) :
  Py.contains "IPS" (OxfordIPS.identity self) = true ->
  PrimFloat.leb (PrimFloat.abs current) 98.46%float = true ->
  let cmd := ips_command self "I" 4 3 current in
  let reread := OxfordIPS.buffer_radix self +:+ "R5" in
  let reply := OxfordIPS.answer self [cmd; reread] in
  Py.contains "?" (Py.slice_from reply 1) = false ->
  Py.float_of_str (Py.slice_from reply 1) = Some v ->
  let r := OxfordIPS.set_target_current current self in
  r.2 = Normal tt
  /\ OxfordIPS.current_set_point r.1 = Some v
  /\ OxfordIPS.sent r.1 = (OxfordIPS.sent self ++ [Visa.Query cmd; Visa.Query reread])%list.
Proof.
  intros Hid Hrange cmd reread reply Hq Hv r.
  subst r cmd reread reply. unfold OxfordIPS.answer, ips_command in *. simpl foldl in *.
  unfold OxfordIPS.set_target_current, OxfordIPS.get_current_set_point_reading, OxfordIPS.sent.
  run. rewrite Hid, Hrange.
  destruct (OxfordIPS.extended_resolution self); cbn [OxfordIPS.instrument
    OxfordIPS.set_instrument OxfordIPS.identity OxfordIPS.buffer_radix Visa.sent Visa.device
    OxfordIPS.extended_resolution] in *;
    run; rewrite Hid; cbn [OxfordIPS.instrument OxfordIPS.set_instrument
    OxfordIPS.buffer_radix Visa.sent Visa.device] in *; rewrite Hq, Hv;
    cbn; destruct (PrimFloat.eqb v current); cbn; rewrite <- app_assoc; auto.
Qed.

(** C3 at a wrong echo: the supply answers the re-read of the set point with
    2.0 after 1.0 was requested. [set_target_current] stores the echoed 2.0
    and returns normally: the [PSNotResponding] it raises is caught by its own
    [except] clause, which names [error.error_handler] without calling it.
    [set_target_field], whose [except] clause does not list the class, lets
    the same failure reach the caller. *)
Theorem set_target_current_wrong_echo_unreported :
  (OxfordIPS.set_target_current 1%float (constant_ips "R+2.0000")).2 = Normal tt
  /\ OxfordIPS.current_set_point
       (OxfordIPS.set_target_current 1%float (constant_ips "R+2.0000")).1 = Some 2%float
  /\ OxfordIPS.sent (OxfordIPS.set_target_current 1%float (constant_ips "R+2.0000")).1
     = [Visa.Query "@0I+1.0000"; Visa.Query "@0R5"]
  /\ (OxfordIPS.set_target_field 1%float (constant_ips "R+2.0000")).2
     = Raised Errors.PSNotResponding
  /\ OxfordIPS.field_set_point
       (OxfordIPS.set_target_field 1%float (constant_ips "R+2.0000")).1 = Some 2%float.
Proof. repeat split; vm_compute; reflexivity. Qed.

(** C9: [set_current_sweep_rate] never reports. A rate beyond 16.88 in
    magnitude sends nothing, changes nothing and returns normally; an accepted
    rate whose re-read answers a different number [v] stores [v] and returns
    normally as well. *)
Theorem set_current_sweep_rate_never_reports (rate : float) (self : OxfordIPS.t) :
  (PrimFloat.leb (PrimFloat.abs rate) 16.88%float = false ->
   OxfordIPS.set_current_sweep_rate rate self = (self, Normal tt))
  /\ (forall v : float,
        Py.contains "IPS" (OxfordIPS.identity self) = true ->
        PrimFloat.leb (PrimFloat.abs rate) 16.88%float = true ->
        let cmd := ips_command self "S" 4 3 rate in
        let reread := OxfordIPS.buffer_radix self +:+ "R6" in
        let reply := OxfordIPS.answer self [cmd; reread] in
        Py.contains "?" (Py.slice_from reply 1) = false ->
        Py.float_of_str (Py.slice_from reply 1) = Some v ->
        PrimFloat.eqb v rate = false ->
        let r := OxfordIPS.set_current_sweep_rate rate self in
        r.2 = Normal tt
        /\ OxfordIPS.current_sweep_rate r.1 = Some v
        /\ OxfordIPS.sent r.1
           = (OxfordIPS.sent self ++ [Visa.Query cmd; Visa.Query reread])%list).
Proof.
  split.
  - intros Hrange. unfold OxfordIPS.set_current_sweep_rate. run.
    destruct (Py.contains "IPS" (OxfordIPS.identity self)); [rewrite Hrange|]; reflexivity.
  - intros v Hid Hrange cmd reread reply Hq Hv Hne r.
    subst r cmd reread reply. unfold OxfordIPS.answer, ips_command in *. simpl foldl in *.
    unfold OxfordIPS.set_current_sweep_rate, OxfordIPS.get_current_sweep_rate_reading,
      OxfordIPS.sent.
    run. rewrite Hid, Hrange.
    destruct (OxfordIPS.extended_resolution self); cbn [OxfordIPS.instrument
      OxfordIPS.set_instrument OxfordIPS.identity OxfordIPS.buffer_radix Visa.sent Visa.device
      OxfordIPS.extended_resolution] in *;
      run; rewrite Hid; cbn [OxfordIPS.instrument OxfordIPS.set_instrument
      OxfordIPS.buffer_radix Visa.sent Visa.device] in *; rewrite Hq, Hv;
      cbn; rewrite Hne; cbn; rewrite <- app_assoc; auto.
Qed.

(** C9 on a supply that answers 2.0 to everything: the rate 17 is dropped
    silently, and the rate 1 is sent, read back as 2 and not reported. *)
Lemma set_current_sweep_rate_never_reports_witness :
  OxfordIPS.set_current_sweep_rate 17%float (constant_ips "R+2.0000")
    = (constant_ips "R+2.0000", Normal tt)
  /\ (OxfordIPS.set_current_sweep_rate 1%float (constant_ips "R+2.0000")).2 = Normal tt
  /\ OxfordIPS.current_sweep_rate
       (OxfordIPS.set_current_sweep_rate 1%float (constant_ips "R+2.0000")).1 = Some 2%float
  /\ OxfordIPS.sent (OxfordIPS.set_current_sweep_rate 1%float (constant_ips "R+2.0000")).1
     = [Visa.Query "@0S+1.0000"; Visa.Query "@0R6"].
Proof.
  split.
  - apply (proj1 (set_current_sweep_rate_never_reports 17%float (constant_ips "R+2.0000"))).
    reflexivity.
  - apply (proj2 (set_current_sweep_rate_never_reports 1%float (constant_ips "R+2.0000"))
             2%float); reflexivity.
Defined.

(** C10: the two safe-current-limit readings send the same command, the
    buffer prefix followed by [R21]; and when the supply answers it with a
    number [v], the one stores [v] as the positive limit and the other stores
    [v] as the negative limit. *)
Theorem safe_current_limits_share_query (self : OxfordIPS.t) :
  OxfordIPS.sent (OxfordIPS.get_safe_current_positive_limit_reading self).1
    = OxfordIPS.sent (OxfordIPS.get_safe_current_negative_limit_reading self).1
  /\ (forall v : float,
        Py.contains "IPS" (OxfordIPS.identity self) = true ->
        let cmd := OxfordIPS.buffer_radix self +:+ "R21" in
        let reply := OxfordIPS.answer self [cmd] in
        Py.contains "?" (Py.slice_from reply 1) = false ->
        Py.float_of_str (Py.slice_from reply 1) = Some v ->
        let p := OxfordIPS.get_safe_current_positive_limit_reading self in
        let n := OxfordIPS.get_safe_current_negative_limit_reading self in
        OxfordIPS.sent p.1 = (OxfordIPS.sent self ++ [Visa.Query cmd])%list
        /\ OxfordIPS.sent n.1 = (OxfordIPS.sent self ++ [Visa.Query cmd])%list
        /\ OxfordIPS.safe_current_positive_limit p.1 = Some v
        /\ OxfordIPS.safe_current_negative_limit n.1 = Some v
        /\ p.2 = Normal tt /\ n.2 = Normal tt).
Proof.
  split.
  - unfold OxfordIPS.get_safe_current_positive_limit_reading,
      OxfordIPS.get_safe_current_negative_limit_reading, OxfordIPS.sent.
    run.
    destruct (Py.contains "IPS" (OxfordIPS.identity self)); [|reflexivity].
    cbn [OxfordIPS.instrument OxfordIPS.set_instrument Visa.sent Visa.device].
    destruct (Py.contains "?" _); [reflexivity|].
    destruct (Py.float_of_str _); reflexivity.
  - intros v Hid cmd reply Hq Hv p n. subst p n cmd reply.
    unfold OxfordIPS.answer in *. simpl foldl in *.
    unfold OxfordIPS.get_safe_current_positive_limit_reading,
      OxfordIPS.get_safe_current_negative_limit_reading, OxfordIPS.sent.
    run. rewrite Hid.
    cbn [OxfordIPS.instrument OxfordIPS.set_instrument Visa.sent Visa.device].
    rewrite Hq, Hv. cbn. auto 10.
Qed.

(** C10 on a supply that answers [R-98.4600]: both limits read -98.46. *)
Lemma safe_current_limits_share_query_witness :
  OxfordIPS.sent (OxfordIPS.get_safe_current_positive_limit_reading
                    (constant_ips "R-98.4600")).1 = [Visa.Query "@0R21"]
  /\ OxfordIPS.sent (OxfordIPS.get_safe_current_negative_limit_reading
                       (constant_ips "R-98.4600")).1 = [Visa.Query "@0R21"]
  /\ OxfordIPS.safe_current_positive_limit
       (OxfordIPS.get_safe_current_positive_limit_reading (constant_ips "R-98.4600")).1
     = Some (-98.46)%float
  /\ OxfordIPS.safe_current_negative_limit
       (OxfordIPS.get_safe_current_negative_limit_reading (constant_ips "R-98.4600")).1
     = Some (-98.46)%float
  /\ (OxfordIPS.get_safe_current_positive_limit_reading (constant_ips "R-98.4600")).2
     = Normal tt
  /\ (OxfordIPS.get_safe_current_negative_limit_reading (constant_ips "R-98.4600")).2
     = Normal tt.
Proof.
  apply (proj2 (safe_current_limits_share_query (constant_ips "R-98.4600"))
           (-98.46)%float); reflexivity.
Defined.

(** A reply whose number follows a separator character: [float()] raises
    [ValueError], which no [except] clause of the power supply names. The
    reading caches nothing and the failure reaches the caller, also through
    the commands that read back what they set. *)
Example reading_after_separator :
  let supply := constant_ips ("R" +:+ String (ascii_of_nat 31) "2.5") in
  (OxfordIPS.get_current_set_point_reading supply).2 = Raised ValueError
  /\ OxfordIPS.current_set_point (OxfordIPS.get_current_set_point_reading supply).1 = None
  /\ (OxfordIPS.get_safe_current_positive_limit_reading supply).2 = Raised ValueError
  /\ (OxfordIPS.get_safe_current_negative_limit_reading supply).2 = Raised ValueError
  /\ (OxfordIPS.set_current_sweep_rate 1%float supply).2 = Raised ValueError
  /\ (OxfordIPS.set_target_current 1%float supply).2 = Raised ValueError
  /\ (OxfordIPS.set_target_field 1%float supply).2 = Raised ValueError.
Proof. repeat split; vm_compute; reflexivity. Qed.

(** ** The source meter's command buffers *)

(** [fragments] occur in [s] one after the other, in this order. *)
Fixpoint in_order (fragments : list string) (s : string) : Prop :=
  match fragments with
  | [] => True
  | f :: fs => exists before after, s = before +:+ f +:+ after /\ in_order fs after
  end.

(** The traffic of a SCPI instrument so far. *)
Definition scpi_sent (self : Instruments.t) : list Visa.io :=
  Visa.sent (Instruments.instrument self).

Ltac run_scpi :=
  cbv beta iota delta
    [try_except bind gets modify raise reraise ret
     Instruments.query Instruments.write Instruments.error_handler
     Instruments._operation_complete_query_ Keithley2400.item Keithley2400.extend
     Visa.query Visa.write fst snd].

(** The error query asks the instrument once, whatever it answers. *)
Lemma error_query_sent (self : Instruments.t) :
  Keithley2400.is_2400 self = true ->
  scpi_sent (Keithley2400._error_query_ self).1
    = (scpi_sent self ++ [Visa.Query ":SYST:ERR?"])%list.
Proof.
  intros Hid. unfold Keithley2400._error_query_, scpi_sent. run_scpi. rewrite Hid.
  cbn [Instruments.instrument Instruments.set_instrument Instruments.set_last_internal_error
       Visa.sent Visa.device].
  destruct (Py.split_on _ _) as [|code [|message rest]]; cbn; try reflexivity;
    destruct (negb _); reflexivity.
Qed.

(** The buffer of the example call, as the method assembles it. *)
Definition fixed_example_buffer : string :=
  ":SOUR:CLE:AUTO OFF;:SOUR:DEL:AUTO ON;:SOUR:FUNC CURR;:SOUR:CURR:MODE FIX;"
  +:+ ":SOUR:CURR:RANG:AUTO OFF;:SOUR:CURR:RANG 0.01:SOUR:CURR 0.005;:SENS:VOLT:PROT 10;".

(** C5: on a Keithley 2400, [current_source_fixed_configuration] called with
    [auto_range = False], [manual_range = 1e-2], [source_level = 5e-3],
    [compliance_value = 10] and the defaults for the rest writes one buffer,
    followed by the completion and error queries; the buffer contains
    [:SOUR:FUNC CURR;], [:SOUR:CURR:RANG:AUTO OFF;:SOUR:CURR:RANG 0.01],
    [:SOUR:CURR 0.005;] and [:SENS:VOLT:PROT 10;] in this order. *)
Theorem fixed_configuration_fragments (self : Instruments.t) :
  Keithley2400.is_2400 self = true ->
  let r := Keithley2400.current_source_fixed_configuration
             false "Always" true (Py.VInt 0) false (Py.VFloat 0.01) (Py.VFloat 0.005)
             "Immediate" false (Py.VInt 1) (Py.VInt 10) self in
  scpi_sent r.1
    = (scpi_sent self
         ++ [Visa.Write fixed_example_buffer; Visa.Query "*OPC?"; Visa.Query ":SYST:ERR?"])%list
  /\ in_order [":SOUR:FUNC CURR;";
               ":SOUR:CURR:RANG:AUTO OFF;:SOUR:CURR:RANG 0.01";
               ":SOUR:CURR 0.005;";
               ":SENS:VOLT:PROT 10;"] fixed_example_buffer.
Proof.
  intros Hid r. split.
  - subst r. unfold Keithley2400.current_source_fixed_configuration,
      Keithley2400._source_general_configuration_.
    run_scpi. rewrite Hid.
    change (Py.str (Py.VFloat 0.01)) with "0.01".
    change (Py.str (Py.VFloat 0.005)) with "0.005".
    cbn [Keithley2400.spelled Py.title Py.title_from Py.upper String.eqb orb Ascii.eqb
         Py.is_lower Py.is_upper Py.to_upper Py.to_lower].
    set (self1 := Instruments.set_instrument _ self).
    set (self2 := Instruments.set_instrument _ self1).
    assert (H2 : Keithley2400.is_2400 self2 = true) by exact Hid.
    pose proof (error_query_sent self2 H2) as Hsent.
    destruct (Keithley2400._error_query_ self2) as [self3 [[]|e]] eqn:Hq;
      cbn [fst snd] in Hsent |- *.
    + rewrite Hsent. unfold scpi_sent, self2, self1. cbn. rewrite <- !app_assoc. reflexivity.
    + destruct (_ || _); cbn; unfold scpi_sent in *; cbn;
        rewrite Hsent; unfold self2, self1; cbn; rewrite <- !app_assoc; reflexivity.
  - cbn [in_order].
    exists ":SOUR:CLE:AUTO OFF;:SOUR:DEL:AUTO ON;",
      (":SOUR:CURR:MODE FIX;:SOUR:CURR:RANG:AUTO OFF;:SOUR:CURR:RANG 0.01"
       +:+ ":SOUR:CURR 0.005;:SENS:VOLT:PROT 10;").
    split; [reflexivity|].
    exists ":SOUR:CURR:MODE FIX;", ":SOUR:CURR 0.005;:SENS:VOLT:PROT 10;".
    split; [reflexivity|].
    exists "", ":SENS:VOLT:PROT 10;". split; [reflexivity|].
    exists "", "". split; [reflexivity|exact I].
Qed.

(** A source meter that reports no error and answers 1 to everything else. *)
Definition quiet_2400 : Instruments.t :=
  Keithley2400.connected
    (fun log => match last log with
                | Some (Visa.Query ":SYST:ERR?") => "0,No error"
                | _ => "1"
                end)
    "KEITHLEY INSTRUMENTS INC.,MODEL 2400,1234567,C30".

(** C5 on the quiet source meter. *)
Lemma fixed_configuration_fragments_witness :
  Keithley2400.is_2400 quiet_2400 = true
  /\ scpi_sent (Keithley2400.current_source_fixed_configuration
                  false "Always" true (Py.VInt 0) false (Py.VFloat 0.01) (Py.VFloat 0.005)
                  "Immediate" false (Py.VInt 1) (Py.VInt 10) quiet_2400).1
     = [Visa.Write fixed_example_buffer; Visa.Query "*OPC?"; Visa.Query ":SYST:ERR?"]
  /\ in_order [":SOUR:FUNC CURR;";
               ":SOUR:CURR:RANG:AUTO OFF;:SOUR:CURR:RANG 0.01";
               ":SOUR:CURR 0.005;";
               ":SENS:VOLT:PROT 10;"] fixed_example_buffer.
Proof.
  split; [reflexivity|].
  apply (fixed_configuration_fragments quiet_2400). reflexivity.
Defined.

(** The call itself returns normally on the quiet source meter. *)
Example fixed_configuration_returns :
  (Keithley2400.current_source_fixed_configuration
     false "Always" true (Py.VInt 0) false (Py.VFloat 0.01) (Py.VFloat 0.005)
     "Immediate" false (Py.VInt 1) (Py.VInt 10) quiet_2400).2 = Normal tt.
Proof. vm_compute. reflexivity. Qed.

(** ** The resource directory *)

Ltac run_manager :=
  cbv beta iota delta
    [try_except bind gets modify raise reraise ret
     Manager.open_instrument Manager._refresh_resources_ Manager._is_resource_
     Manager.list_resources Manager.open_resource Manager.error_handler fst snd].

(** A directory that knows one instrument, on a bus where a second one has
    been plugged in since. *)
Definition bench : Manager.t :=
  {| Manager.resources := ["GPIB0::23::INSTR"];
     Manager.bus := fun _ => ["GPIB0::23::INSTR"; "GPIB0::27::INSTR"];
     Manager.calls := 0;
     Manager.reported := [] |}.

(** C8, as stated, fails: the address [GPIB0::5::INSTR] is unknown before and
    after the refresh, and [open_instrument] returns [None] to its caller; the
    failure it raised went to its own handler. *)
Lemma open_instrument_returns_none :
  bool_decide ("GPIB0::5::INSTR" ∈ Manager.resources bench) = false
  /\ bool_decide ("GPIB0::5::INSTR" ∈ Manager.bus bench 0) = false
  /\ (Manager.open_instrument "GPIB0::5::INSTR" bench).2 = Normal None
  /\ Manager.reported (Manager.open_instrument "GPIB0::5::INSTR" bench).1
     = [Custom Errors.InstrumentNotAvailableError].
Proof. repeat split; vm_compute; reflexivity. Qed.

(** C8 (amended): for an address that is not in the current enumeration,
    [open_instrument] reads the enumeration exactly once more. If the new
    enumeration differs from the old one, the address is opened when it is
    now listed; when it is still not listed, [InstrumentNotAvailableError] is
    raised, handed to its [error_handler] and the call returns [None]. If the
    new enumeration equals the old one, the refresh itself fails: with
    [InstrumentNotAvailableError], reported by the refresh and again by
    [open_instrument], which returns [None]; or, when the enumeration is
    empty, with [VoidManagerError], which reaches the caller. *)
Theorem open_instrument_unknown_address (adress : string) (self : Manager.t) :
  adress ∉ Manager.resources self ->
  let listed := Manager.bus self (Manager.calls self) in
  let r := Manager.open_instrument adress self in
  Manager.calls r.1 = S (Manager.calls self)
  /\ Manager.resources r.1 = listed
  /\ (if bool_decide (listed = Manager.resources self) then
        if bool_decide (listed = []) then
          r.2 = Raised Errors.VoidManagerError
          /\ Manager.reported r.1
             = (Manager.reported self ++ [Custom Errors.VoidManagerError])%list
        else
          r.2 = Normal None
          /\ Manager.reported r.1
             = (Manager.reported self ++ [Custom Errors.InstrumentNotAvailableError;
                                          Custom Errors.InstrumentNotAvailableError])%list
      else if bool_decide (adress ∈ listed) then
        r.2 = Normal (Some adress) /\ Manager.reported r.1 = Manager.reported self
      else
        r.2 = Normal None
        /\ Manager.reported r.1
           = (Manager.reported self ++ [Custom Errors.InstrumentNotAvailableError])%list).
Proof.
  intros Hnew listed r. subst r listed. run_manager.
  rewrite (bool_decide_eq_false_2 _ Hnew).
  cbn [Manager.resources Manager.bus Manager.calls Manager.reported
       Manager.set_resources Manager.set_reported].
  destruct (bool_decide (Manager.bus self (Manager.calls self) = Manager.resources self)).
  - destruct (bool_decide (Manager.bus self (Manager.calls self) = [])); cbn;
      rewrite <- ?app_assoc; auto.
  - cbn. destruct (bool_decide (adress ∈ Manager.bus self (Manager.calls self))); cbn; auto.
Qed.

(** C8 on the bench, for an address that stays unknown. *)
Lemma open_instrument_unknown_address_witness :
  ("GPIB0::5::INSTR" ∉ Manager.resources bench)
  /\ Manager.calls (Manager.open_instrument "GPIB0::5::INSTR" bench).1 = 1%nat
  /\ Manager.resources (Manager.open_instrument "GPIB0::5::INSTR" bench).1
     = ["GPIB0::23::INSTR"; "GPIB0::27::INSTR"]
  /\ (Manager.open_instrument "GPIB0::5::INSTR" bench).2 = Normal None
  /\ Manager.reported (Manager.open_instrument "GPIB0::5::INSTR" bench).1
     = [Custom Errors.InstrumentNotAvailableError].
Proof.
  assert (H : "GPIB0::5::INSTR" ∉ Manager.resources bench)
    by (apply (bool_decide_eq_false_1 _); reflexivity).
  split; [exact H|].
  exact (open_instrument_unknown_address "GPIB0::5::INSTR" bench H).
Defined.

(** The other outcomes of the refresh: a newly listed address is opened; an
    unchanged enumeration is reported twice; an empty one raises to the
    caller. *)
Example open_instrument_after_refresh :
  (Manager.open_instrument "GPIB0::27::INSTR" bench).2 = Normal (Some "GPIB0::27::INSTR").
Proof. vm_compute. reflexivity. Qed.

Example open_instrument_empty_bus :
  (Manager.open_instrument "GPIB0::5::INSTR"
     {| Manager.resources := []; Manager.bus := fun _ => []; Manager.calls := 0;
        Manager.reported := [] |}).2 = Raised Errors.VoidManagerError.
Proof. vm_compute. reflexivity. Qed.

(** ** Option spellings of the source meter *)

(** The mnemonic of the first option name of [table] that [s] spells, in one
    of the three recognised ways: as listed, in title case, in upper case. *)
Fixpoint mnemonic (table : list (string * string)) (s : string) : option string :=
  match table with
  | [] => None
  | (name, m) :: table' =>
      if Keithley2400.spelled name s then Some m else mnemonic table' s
  end.

Definition autoclear_names : list (string * string) :=
  [("always", "ALW"); ("on trigger", "TCO")].

Definition spacing_names : list (string * string) :=
  [("linear", "LIN"); ("logarithmic", "LOG")].

Definition direction_names : list (string * string) :=
  [("up", "UP"); ("down", "DOWN")].

Definition range_names : list (string * string) :=
  [("best", "BEST"); ("auto", "AUTO"); ("fixed", "FIX")].

Definition abort_names : list (string * string) :=
  [("never", "NEV"); ("early", "EARL"); ("late", "LATE")].

(** The dictionary built from a table answers as [mnemonic] does. The proof
    compares [s] with each spelling in the dictionary. *)
Ltac dictionary_cases s :=
  unfold Instruments.dict; cbn [Instruments.spellings foldl fst snd fmap list_fmap];
  rewrite ?lookup_insert, ?lookup_empty;
  cbv delta [autoclear_names spacing_names direction_names range_names abort_names];
  cbn [mnemonic];
  unfold Keithley2400.spelled;
  repeat match goal with
         | |- context [decide (?c = s)] =>
             destruct (decide (c = s)) as [<-|?]; [reflexivity|]
         end;
  repeat match goal with
         | H : ?c <> s |- context [String.eqb s ?d] =>
             let E := fresh in
             assert (E : String.eqb s d = false)
               by (apply String.eqb_neq; intros ->; apply H; reflexivity);
             rewrite E; clear E
         end;
  reflexivity.

Lemma autoclear_dictionary (s : string) :
  Instruments.dict (Instruments.spellings ["always"; "on trigger"] ["ALW"; "TCO"]) !! s
    = mnemonic autoclear_names s.
Proof. dictionary_cases s. Qed.

Lemma spacing_dictionary (s : string) :
  Instruments.dict (Instruments.spellings ["linear"; "logarithmic"] ["LIN"; "LOG"]) !! s
    = mnemonic spacing_names s.
Proof. dictionary_cases s. Qed.

Lemma direction_dictionary (s : string) :
  Instruments.dict (Instruments.spellings ["up"; "down"] ["UP"; "DOWN"]) !! s
    = mnemonic direction_names s.
Proof. dictionary_cases s. Qed.

Lemma range_dictionary (s : string) :
  Instruments.dict (Instruments.spellings ["best"; "auto"; "fixed"] ["BEST"; "AUTO"; "FIX"]) !! s
    = mnemonic range_names s.
Proof. dictionary_cases s. Qed.

Lemma abort_dictionary (s : string) :
  Instruments.dict (Instruments.spellings ["never"; "early"; "late"] ["NEV"; "EARL"; "LATE"]) !! s
    = mnemonic abort_names s.
Proof. dictionary_cases s. Qed.

Lemma lookup_key_run (d : gmap string string) (key : string) (self : Instruments.t) :
  Instruments.lookup_key d key self
    = match d !! key with
      | Some v => (self, Normal v)
      | None => (self, Raised (KeyError [AStr key]))
      end.
Proof. unfold Instruments.lookup_key. destruct (d !! key); reflexivity. Qed.

(** The text [_source_general_configuration_] builds when the autoclear mode,
    if asked for, has the mnemonic [m]. *)
Definition general_text (auto_clear : bool) (m : string) (auto_settle : bool)
    (settling_delay : Py.value) : string :=
  let buffer := if auto_clear then ":SOUR:CLE:AUTO ON;:SOUR:CLE:AUTO:mode " +:+ m +:+ ";"
                else ":SOUR:CLE:AUTO OFF;" in
  if auto_settle then buffer +:+ ":SOUR:DEL:AUTO ON;"
  else buffer +:+ ":SOUR:DEL:AUTO OFF;:SOUR:DEL " +:+ Py.str settling_delay +:+ ";".

(** The text [_sweep_configuration_] builds from the four mnemonics. *)
Definition sweep_text (a : string) (points : Py.value) (b c d : string) : string :=
  ":SOUR:SWE:SPAC " +:+ a +:+ ";:SOUR:SWE:POIN " +:+ Py.str points
    +:+ ";:SOUR:SWE:DIR " +:+ b +:+ ";:SOUR:SWE:RANG " +:+ c
    +:+ ";:SOUR:SWE:CAB " +:+ d +:+ ";".

(** The buffer [current_source_sweep_configuration] writes. *)
Definition sweep_buffer (general : string) (start_level stop_level : Py.value)
    (sweep : string) (compliance_value : Py.value) : string :=
  ((general +:+ ":SOUR:FUNC CURR;:SOUR:CURR:mode SWE;:SOUR:CURR:STAR "
      +:+ Py.str start_level +:+ ";:SOUR:CURR:STOP " +:+ Py.str stop_level +:+ ";")
     +:+ sweep)
    +:+ ":SENS:VOLT:PROT " +:+ Py.str compliance_value +:+ ";".

Ltac run_tables :=
  cbv beta iota delta
    [try_except bind gets modify raise reraise ret Instruments.type_dictionary
     Instruments.error_handler fst snd];
  cbn [length Nat.eqb].

Lemma source_general_configuration_run (auto_clear : bool) (autoclear_mode : string)
    (auto_settle : bool) (settling_delay : Py.value) (self : Instruments.t) :
  Keithley2400._source_general_configuration_ auto_clear autoclear_mode auto_settle
    settling_delay self
  = (self,
     match (if auto_clear then mnemonic autoclear_names autoclear_mode else Some "") with
     | Some m => Normal (Some (general_text auto_clear m auto_settle settling_delay))
     | None => Raised (KeyError [AStr autoclear_mode])
     end).
Proof.
  unfold Keithley2400._source_general_configuration_, general_text.
  destruct auto_clear; run_tables.
  - rewrite lookup_key_run, autoclear_dictionary.
    destruct (mnemonic autoclear_names autoclear_mode); [|reflexivity].
    destruct auto_settle; reflexivity.
  - destruct auto_settle; reflexivity.
Qed.

Lemma sweep_configuration_run (spacing : string) (points : Py.value)
    (direction sweep_range_mode abort_on_compliance : string) (self : Instruments.t) :
  Keithley2400._sweep_configuration_ spacing points direction sweep_range_mode
    abort_on_compliance self
  = (Instruments.set_sweep_steps (Some points) self,
     match mnemonic spacing_names spacing with
     | None => Raised (KeyError [AStr spacing])
     | Some a =>
         match mnemonic direction_names direction with
         | None => Raised (KeyError [AStr direction])
         | Some b =>
             match mnemonic range_names sweep_range_mode with
             | None => Raised (KeyError [AStr sweep_range_mode])
             | Some c =>
                 match mnemonic abort_names abort_on_compliance with
                 | None => Raised (KeyError [AStr abort_on_compliance])
                 | Some d => Normal (Some (sweep_text a points b c d))
                 end
             end
         end
     end).
Proof.
  unfold Keithley2400._sweep_configuration_, sweep_text. run_tables.
  rewrite lookup_key_run, spacing_dictionary.
  destruct (mnemonic spacing_names spacing); [|reflexivity].
  rewrite lookup_key_run, direction_dictionary.
  destruct (mnemonic direction_names direction); [|reflexivity].
  rewrite lookup_key_run, range_dictionary.
  destruct (mnemonic range_names sweep_range_mode); [|reflexivity].
  rewrite lookup_key_run, abort_dictionary.
  destruct (mnemonic abort_names abort_on_compliance); reflexivity.
Qed.

(** C6, as stated, fails: ['lINEAR'] is a case spelling of the recognised
    ['linear'], the dictionary of [_sweep_configuration_] maps ['linear'] and
    has no entry for ['lINEAR'], and the sweep configuration called with it
    ends in the lookup failure. *)
Lemma mixed_case_spelling_not_recognised :
  Instruments.dict (Instruments.spellings ["linear"; "logarithmic"] ["LIN"; "LOG"])
    !! "linear" = Some "LIN"
  /\ Instruments.dict (Instruments.spellings ["linear"; "logarithmic"] ["LIN"; "LOG"])
       !! "lINEAR" = None
  /\ (Keithley2400.current_source_sweep_configuration
        false "Always" true (Py.VInt 0) (Py.VInt (-1)) (Py.VInt 1) "lINEAR" (Py.VInt 2500)
        "Up" "Best" "Never" (Py.VFloat 0.0001) quiet_2400).2
     = Raised (KeyError [AStr "lINEAR"]).
Proof. repeat split; vm_compute; reflexivity. Qed.

(** C6 (amended): in [current_source_sweep_configuration] on a Keithley 2400,
    each of the options autoclear mode (when autoclear is on), spacing,
    direction, sweep range mode and abort on compliance is recognised in three
    spellings of a listed name: as listed, in title case and in upper case.
    When all are recognised, one buffer carrying their mnemonics is written,
    followed by the completion and error queries. When one is not, nothing is
    sent to the instrument and the call does not return normally. *)
Theorem sweep_option_spellings (self : Instruments.t) (autoclear : bool)
    (autoclear_mode : string) (auto_settle : bool)
    (settling_delay start_level stop_level : Py.value) (spacing : string)
    (points : Py.value) (direction sweep_range_mode abort_on_compliance : string)
    (compliance_value : Py.value) :
  Keithley2400.is_2400 self = true ->
  let r := Keithley2400.current_source_sweep_configuration autoclear autoclear_mode
             auto_settle settling_delay start_level stop_level spacing points direction
             sweep_range_mode abort_on_compliance compliance_value self in
  match (if autoclear then mnemonic autoclear_names autoclear_mode else Some ""),
        mnemonic spacing_names spacing, mnemonic direction_names direction,
        mnemonic range_names sweep_range_mode, mnemonic abort_names abort_on_compliance with
  | Some m, Some a, Some b, Some c, Some d =>
      scpi_sent r.1
      = (scpi_sent self
           ++ [Visa.Write (sweep_buffer (general_text autoclear m auto_settle settling_delay)
                             start_level stop_level (sweep_text a points b c d)
                             compliance_value);
               Visa.Query "*OPC?"; Visa.Query ":SYST:ERR?"])%list
  | _, _, _, _, _ => scpi_sent r.1 = scpi_sent self /\ r.2 <> Normal tt
  end.
Proof.
  intros Hid r. subst r. unfold Keithley2400.current_source_sweep_configuration.
  cbv beta iota delta [try_except bind gets fst snd]. rewrite Hid.
  rewrite source_general_configuration_run.
  destruct (if autoclear then mnemonic autoclear_names autoclear_mode else Some "")
    as [m|].
  2: { destruct (mnemonic spacing_names spacing), (mnemonic direction_names direction),
         (mnemonic range_names sweep_range_mode), (mnemonic abort_names abort_on_compliance);
       cbn; split; auto; discriminate. }
  cbv beta iota delta [Keithley2400.extend ret raise].
  rewrite sweep_configuration_run.
  destruct (mnemonic spacing_names spacing) as [a|];
    [|cbn; destruct (mnemonic direction_names direction),
        (mnemonic range_names sweep_range_mode), (mnemonic abort_names abort_on_compliance);
      split; auto; discriminate].
  destruct (mnemonic direction_names direction) as [b|];
    [|cbn; destruct (mnemonic range_names sweep_range_mode),
        (mnemonic abort_names abort_on_compliance); split; auto; discriminate].
  destruct (mnemonic range_names sweep_range_mode) as [c|];
    [|cbn; destruct (mnemonic abort_names abort_on_compliance); split; auto; discriminate].
  destruct (mnemonic abort_names abort_on_compliance) as [d|];
    [|cbn; split; auto; discriminate].
  run_scpi. cbv beta iota zeta.
  fold (sweep_buffer (general_text autoclear m auto_settle settling_delay)
          start_level stop_level (sweep_text a points b c d) compliance_value).
  set (buffer := sweep_buffer _ _ _ _ _).
  set (self0 := Instruments.set_sweep_steps (Some points) self).
  set (self1 := Instruments.set_instrument _ self0).
  set (self2 := Instruments.set_instrument _ self1).
  assert (H2 : Keithley2400.is_2400 self2 = true) by exact Hid.
  pose proof (error_query_sent self2 H2) as Hsent.
  destruct (Keithley2400._error_query_ self2) as [self3 [[]|e]] eqn:Hq;
    cbn [fst snd] in Hsent |- *.
  - rewrite Hsent. unfold scpi_sent, self2, self1, self0. cbn. rewrite <- !app_assoc.
    reflexivity.
  - destruct (_ || _); cbn; unfold scpi_sent in *; cbn;
      rewrite Hsent; unfold self2, self1, self0; cbn; rewrite <- !app_assoc; reflexivity.
Qed.

(** C6 on the quiet source meter, with the defaults of the keyword arguments
    and with the spacing spelled ['LOGARITHMIC'], then ['lINEAR']. *)
Lemma sweep_option_spellings_witness :
  Keithley2400.is_2400 quiet_2400 = true
  /\ scpi_sent (Keithley2400.current_source_sweep_configuration
                  false "Always" true (Py.VInt 0) (Py.VInt (-1)) (Py.VInt 1) "LOGARITHMIC"
                  (Py.VInt 2500) "Up" "Best" "Never" (Py.VFloat 0.0001) quiet_2400).1
     = [Visa.Write (":SOUR:CLE:AUTO OFF;:SOUR:DEL:AUTO ON;:SOUR:FUNC CURR;"
                    +:+ ":SOUR:CURR:mode SWE;:SOUR:CURR:STAR -1;:SOUR:CURR:STOP 1;"
                    +:+ ":SOUR:SWE:SPAC LOG;:SOUR:SWE:POIN 2500;:SOUR:SWE:DIR UP;"
                    +:+ ":SOUR:SWE:RANG BEST;:SOUR:SWE:CAB NEV;:SENS:VOLT:PROT 0.0001;");
        Visa.Query "*OPC?"; Visa.Query ":SYST:ERR?"]
  /\ scpi_sent (Keithley2400.current_source_sweep_configuration
                  false "Always" true (Py.VInt 0) (Py.VInt (-1)) (Py.VInt 1) "lINEAR"
                  (Py.VInt 2500) "Up" "Best" "Never" (Py.VFloat 0.0001) quiet_2400).1
     = [].
Proof.
  split; [reflexivity|]. split.
  - exact (sweep_option_spellings quiet_2400 false "Always" true (Py.VInt 0)
             (Py.VInt (-1)) (Py.VInt 1) "LOGARITHMIC" (Py.VInt 2500) "Up" "Best" "Never"
             (Py.VFloat 0.0001) eq_refl).
  - exact (proj1 (sweep_option_spellings quiet_2400 false "Always" true (Py.VInt 0)
                    (Py.VInt (-1)) (Py.VInt 1) "lINEAR" (Py.VInt 2500) "Up" "Best" "Never"
                    (Py.VFloat 0.0001) eq_refl)).
Defined.

(** An option compared by hand rather than through a dictionary: an
    unrecognised [set_level_mode] is skipped, and the buffer goes out without
    a source level. *)
Example unrecognised_level_mode_is_sent :
  scpi_sent (Keithley2400.current_source_fixed_configuration
               false "Always" true (Py.VInt 0) false (Py.VFloat 0.01) (Py.VFloat 0.005)
               "at once" false (Py.VInt 1) (Py.VInt 10) quiet_2400).1
  = [Visa.Write (":SOUR:CLE:AUTO OFF;:SOUR:DEL:AUTO ON;:SOUR:FUNC CURR;:SOUR:CURR:MODE FIX;"
                 +:+ ":SOUR:CURR:RANG:AUTO OFF;:SOUR:CURR:RANG 0.01:SENS:VOLT:PROT 10;");
     Visa.Query "*OPC?"; Visa.Query ":SYST:ERR?"].
Proof. vm_compute. reflexivity. Qed.

(** ** Decoders and absent table entries *)

Lemma string_append_assoc (a b c : string) : (a +:+ b) +:+ c = a +:+ b +:+ c.
Proof.
  induction a as [|x a IH]; [reflexivity|].
  change (String x ((a +:+ b) +:+ c) = String x (a +:+ b +:+ c)).
  rewrite IH. reflexivity.
Qed.

Lemma string_append_empty (a : string) : a +:+ "" = a.
Proof.
  induction a as [|x a IH]; [reflexivity|].
  change (String x (a +:+ "") = String x a).
  rewrite IH. reflexivity.
Qed.

(** The phrases of several fields, put together. *)
Definition concat_text (texts : list string) : string := foldr String.append "" texts.

Section Fields.

(** The key a decoder forms for a field, if the field is long enough to
    form one, and the table it uses. *)
Variable field_key : string -> option (list atom).
Variable ms : gmap (list atom) string.

(** The phrase the table gives for a field. *)
Definition phrase (f : string) : option string :=
  match field_key f with
  | Some k => ms !! k
  | None => None
  end.

(** The loop over the fields, on the text accumulated so far. *)
Fixpoint decode_fields (fields : list string) (acc : string) : string * outcome unit :=
  match fields with
  | [] => (acc, Normal tt)
  | f :: fs =>
      match field_key f with
      | None => (acc, Raised IndexError)
      | Some k =>
          match ms !! k with
          | None => (acc, Raised (KeyError k))
          | Some v => decode_fields fs (acc +:+ v)
          end
      end
  end.

Lemma decode_fields_found (f : string) (fs : list string) (acc : string)
    (k : list atom) (v : string) :
  field_key f = Some k -> ms !! k = Some v ->
  decode_fields (f :: fs) acc = decode_fields fs (acc +:+ v).
Proof. intros Hk Hv. cbn [decode_fields]. rewrite Hk, Hv. reflexivity. Qed.

(** After a field too short to form a key, no field forms one. *)
Definition short_then_short (fields : list string) : Prop :=
  forall l1 f l2, fields = (l1 ++ f :: l2)%list -> field_key f = None ->
                  Forall (fun g => field_key g = None) l2.

Lemma short_then_short_tail (f : string) (fs : list string) :
  short_then_short (f :: fs) -> short_then_short fs.
Proof.
  intros H l1 g l2 E Hg. apply (H (f :: l1) g l2); [|exact Hg].
  rewrite E. reflexivity.
Qed.

(** When some field forms a key the table does not have, the loop stops at
    the first such field with the lookup failure of its key, having
    accumulated the phrases of the fields before it and nothing else. *)
Lemma decode_fields_absent (fields : list string) (acc : string) :
  short_then_short fields ->
  (exists f k, f ∈ fields /\ field_key f = Some k /\ ms !! k = None) ->
  exists before bad after k texts,
    fields = (before ++ bad :: after)%list
    /\ field_key bad = Some k /\ ms !! k = None
    /\ mapM phrase before = Some texts
    /\ decode_fields fields acc = (acc +:+ concat_text texts, Raised (KeyError k)).
Proof.
  revert acc. induction fields as [|f0 fs IH]; intros acc Hshort (f & k & Hin & Hk & Hab).
  - inversion Hin.
  - cbn [decode_fields]. destruct (field_key f0) as [k0|] eqn:Hk0.
    + destruct (ms !! k0) as [v|] eqn:Hv.
      * assert (Hin' : f ∈ fs).
        { apply elem_of_cons in Hin as [->|Hin]; [|exact Hin].
          rewrite Hk0 in Hk. injection Hk as ->. congruence. }
        destruct (IH (acc +:+ v) (short_then_short_tail _ _ Hshort))
          as (before & bad & after & k' & texts & E & Hbad & Hab' & Hm & Hrun).
        { exists f, k. auto. }
        exists (f0 :: before), bad, after, k', (v :: texts).
        repeat split; auto.
        -- rewrite E. reflexivity.
        -- assert (Hp : phrase f0 = Some v) by (unfold phrase; rewrite Hk0; exact Hv).
           cbn. rewrite Hp, Hm. reflexivity.
        -- rewrite Hrun. cbn. rewrite string_append_assoc. reflexivity.
      * exists [], f0, fs, k0, []. repeat split; auto.
        cbn. rewrite string_append_empty. reflexivity.
    + exfalso.
      pose proof (Hshort [] f0 fs eq_refl Hk0) as Hall.
      apply elem_of_cons in Hin as [->|Hin]; [congruence|].
      rewrite Forall_forall in Hall. specialize (Hall f Hin). congruence.
Qed.

End Fields.

(** *** Lengths of slices *)

Lemma len_drop (n : nat) (s : string) : Py.len (Py.drop n s) = (Py.len s - n)%nat.
Proof.
  unfold Py.len. revert s. induction n as [|n IH]; intros s.
  - cbn. symmetry. apply Nat.sub_0_r.
  - destruct s as [|c s]; [reflexivity|]. cbn. apply IH.
Qed.

Lemma drop_all (n : nat) (s : string) : (Py.len s <= n)%nat -> Py.drop n s = "".
Proof.
  unfold Py.len. revert s. induction n as [|n IH]; intros s H.
  - destruct s; [reflexivity|]. cbn in H. lia.
  - destruct s as [|c s]; [reflexivity|]. cbn in *. apply IH. lia.
Qed.

Lemma len_take (n : nat) (s : string) : Py.len (Py.take n s) = Nat.min n (Py.len s).
Proof.
  unfold Py.len. revert s. induction n as [|n IH]; intros s; [reflexivity|].
  destruct s as [|c s]; [reflexivity|]. cbn. f_equal. apply IH.
Qed.

Lemma take_empty (n : nat) : Py.take n "" = "".
Proof. destruct n; reflexivity. Qed.

(** A field of nominal width at least two that came out shorter than two
    characters ends the status: every later slice is empty. *)
Lemma later_slices_empty (status : string) (lo hi lo' : nat) :
  (lo + 2 <= hi)%nat -> (hi <= lo')%nat ->
  (Py.len (Py.slice status lo hi) < 2)%nat ->
  (forall hi', Py.slice status lo' hi' = "") /\ Py.slice_from status lo' = "".
Proof.
  intros Hw Hlo Hshort. unfold Py.slice in Hshort. rewrite len_take, len_drop in Hshort.
  assert (Hd : Py.drop lo' status = "") by (apply drop_all; lia).
  split; [intros hi'; unfold Py.slice|unfold Py.slice_from]; rewrite Hd; auto using take_empty.
Qed.

(** *** The keys the two decoders form *)

Definition ips_field_key (f : string) : option (list atom) :=
  if (Py.len f =? 2)%nat then
    match Py.getitem f 0 with
    | Some key => Some [AStr key; AStr (Py.slice_from f 1)]
    | None => None
    end
  else
    match Py.getitem f 0, Py.getitem f 1, Py.getitem f 2 with
    | Some key, Some m, Some n => Some [AStr key; AStr m; AStr n]
    | _, _, _ => None
    end.

Definition itc_field_key (f : string) : option (list atom) :=
  if (Py.len f =? 2)%nat then
    match Py.getitem f 0, Py.getitem f 1 with
    | Some key, Some n => Some [AStr key; AStr n]
    | _, _ => None
    end
  else
    match Py.getitem f 0 with
    | Some key =>
        if String.eqb key "S" then Some [AStr key; AStr (Py.slice_from f 1)]
        else
          match Py.getitem f 1, Py.getitem f 2 with
          | Some m, Some n => Some [AStr key; AStr m; AStr n]
          | _, _ => None
          end
    | None => None
    end.

Lemma ips_field_key_short (f : string) :
  ips_field_key f = None -> (Py.len f < 2)%nat.
Proof.
  destruct f as [|a [|b [|c f]]]; cbn; intros H; try lia; discriminate.
Qed.

Lemma itc_field_key_short (f : string) :
  itc_field_key f = None -> (Py.len f < 2)%nat.
Proof.
  destruct f as [|a [|b [|c f]]]; cbn; intros H; try lia; try discriminate.
  destruct (Ascii.eqb a "S"); discriminate.
Qed.

(** After the field [H] speaks of, which is too short, the remaining fields
    are empty slices and form no key. *)
Ltac empty_fields status H :=
  repeat match goal with
         | |- Forall _ [] => constructor
         | |- Forall _ (Py.slice status ?lo' ?hi' :: _) =>
             match type of H with
             | (Py.len (Py.slice status ?lo ?hi) < 2)%nat =>
                 rewrite (proj1 (later_slices_empty status lo hi lo'
                                   ltac:(lia) ltac:(lia) H) hi')
             end; constructor; [reflexivity|]
         | |- Forall _ (Py.slice_from status ?lo' :: _) =>
             match type of H with
             | (Py.len (Py.slice status ?lo ?hi) < 2)%nat =>
                 rewrite (proj2 (later_slices_empty status lo hi lo'
                                   ltac:(lia) ltac:(lia) H))
             end; constructor; [reflexivity|]
         end.

Lemma six_fields_short (key : string -> option (list atom)) (f1 f2 f3 f4 f5 f6 : string) :
  (key f1 = None -> Forall (fun g => key g = None) [f2; f3; f4; f5; f6]) ->
  (key f2 = None -> Forall (fun g => key g = None) [f3; f4; f5; f6]) ->
  (key f3 = None -> Forall (fun g => key g = None) [f4; f5; f6]) ->
  (key f4 = None -> Forall (fun g => key g = None) [f5; f6]) ->
  (key f5 = None -> Forall (fun g => key g = None) [f6]) ->
  short_then_short key [f1; f2; f3; f4; f5; f6].
Proof.
  intros H1 H2 H3 H4 H5 l1 f l2 E Hf.
  destruct l1 as [|? [|? [|? [|? [|? [|? l1]]]]]]; cbn [app] in E.
  7: { exfalso. injection E as _ _ _ _ _ _ E. destruct l1; discriminate. }
  all: injection E as; subst; auto.
Qed.

Lemma ips_short_then_short (status : string) :
  short_then_short ips_field_key (OxfordIPS.status_split status).
Proof.
  apply six_fields_short; intros Hf%ips_field_key_short; empty_fields status Hf.
Qed.

Lemma itc_short_then_short (status : string) :
  short_then_short itc_field_key (OxfordITC.status_split status).
Proof.
  apply six_fields_short; intros Hf%itc_field_key_short; empty_fields status Hf.
Qed.

(** *** The decoders, as loops over keys *)

Lemma ips_decode_field_run (f : string) (self : OxfordIPS.t) :
  OxfordIPS.decode_field f self
  = match ips_field_key f with
    | Some k => OxfordIPS.append_message k self
    | None => (self, Raised IndexError)
    end.
Proof.
  unfold OxfordIPS.decode_field, ips_field_key. run.
  destruct (Py.len f =? 2)%nat.
  - destruct (Py.getitem f 0); reflexivity.
  - destruct (Py.getitem f 0); [|reflexivity].
    destruct (Py.getitem f 1); [|reflexivity].
    destruct (Py.getitem f 2); reflexivity.
Qed.

Lemma itc_decode_field_run (f : string) (self : OxfordITC.t) :
  OxfordITC.decode_field f self
  = match itc_field_key f with
    | Some k => OxfordITC.append_message k self
    | None => (self, Raised IndexError)
    end.
Proof.
  unfold OxfordITC.decode_field, itc_field_key. run.
  destruct (Py.len f =? 2)%nat.
  - destruct (Py.getitem f 0); [|reflexivity]. destruct (Py.getitem f 1); reflexivity.
  - destruct (Py.getitem f 0) as [key|]; [|reflexivity].
    destruct (String.eqb key "S"); [reflexivity|].
    destruct (Py.getitem f 1); [|reflexivity].
    destruct (Py.getitem f 2); reflexivity.
Qed.

Lemma ips_fields_run (fields : list string) (acc : string) (self : OxfordIPS.t) :
  for_each fields OxfordIPS.decode_field
           (OxfordIPS.set_last_decodified_status (Some acc) self)
  = (OxfordIPS.set_last_decodified_status
       (Some (decode_fields ips_field_key (OxfordIPS.messages self) fields acc).1) self,
     (decode_fields ips_field_key (OxfordIPS.messages self) fields acc).2).
Proof.
  revert acc. induction fields as [|f fs IH]; intros acc; [reflexivity|].
  cbn [for_each decode_fields]. unfold bind. rewrite ips_decode_field_run.
  destruct (ips_field_key f) as [k|]; [|reflexivity].
  unfold OxfordIPS.append_message. run.
  cbn [OxfordIPS.messages OxfordIPS.last_decodified_status
       OxfordIPS.set_last_decodified_status].
  destruct (OxfordIPS.messages self !! k) as [v|]; [|reflexivity].
  apply IH.
Qed.

Lemma itc_fields_run (fields : list string) (acc : string) (self : OxfordITC.t) :
  for_each fields OxfordITC.decode_field
           (OxfordITC.set_last_decodified_status (Some acc) self)
  = (OxfordITC.set_last_decodified_status
       (Some (decode_fields itc_field_key (OxfordITC.messages self) fields acc).1) self,
     (decode_fields itc_field_key (OxfordITC.messages self) fields acc).2).
Proof.
  revert acc. induction fields as [|f fs IH]; intros acc; [reflexivity|].
  cbn [for_each decode_fields]. unfold bind. rewrite itc_decode_field_run.
  destruct (itc_field_key f) as [k|]; [|reflexivity].
  unfold OxfordITC.append_message. run.
  cbn [OxfordITC.messages OxfordITC.last_decodified_status
       OxfordITC.set_last_decodified_status].
  destruct (OxfordITC.messages self !! k) as [v|]; [|reflexivity].
  apply IH.
Qed.

(** [_status_decoder_] is the loop over the keys of the fields, started on
    the empty text. *)
Lemma ips_decoder_run (status : string) (self : OxfordIPS.t) :
  OxfordIPS._status_decoder_ status self
  = (OxfordIPS.set_last_decodified_status
       (Some (decode_fields ips_field_key (OxfordIPS.messages self)
                (OxfordIPS.status_split status) "").1) self,
     (decode_fields ips_field_key (OxfordIPS.messages self)
        (OxfordIPS.status_split status) "").2).
Proof.
  unfold OxfordIPS._status_decoder_, bind, modify. apply ips_fields_run.
Qed.

Lemma itc_decoder_run (status : string) (self : OxfordITC.t) :
  OxfordITC._status_decoder_ status self
  = (OxfordITC.set_last_decodified_status
       (Some (decode_fields itc_field_key (OxfordITC.messages self)
                (OxfordITC.status_split status) "").1) self,
     (decode_fields itc_field_key (OxfordITC.messages self)
        (OxfordITC.status_split status) "").2).
Proof.
  unfold OxfordITC._status_decoder_, bind, modify. apply itc_fields_run.
Qed.

(** C7 (amended): when a field of the status forms a key that the profile's
    table does not have, the decoder of the power supply, and likewise the
    decoder of the temperature controller, raises the lookup failure of the
    first such key, which nothing in the decoder catches; no field is
    skipped. The call returns nothing, yet it leaves a message behind:
    [last_decodified_status], emptied when the decoding starts, holds the
    phrases of the fields before the failing one, and nothing of the fields
    after it. *)
Theorem decoders_fail_on_absent_entry :
  (forall (self : OxfordIPS.t) (status f : string) (k : list atom),
      f ∈ OxfordIPS.status_split status ->
      ips_field_key f = Some k ->
      OxfordIPS.messages self !! k = None ->
      exists before bad after k' texts,
        OxfordIPS.status_split status = (before ++ bad :: after)%list
        /\ ips_field_key bad = Some k'
        /\ OxfordIPS.messages self !! k' = None
        /\ mapM (phrase ips_field_key (OxfordIPS.messages self)) before = Some texts
        /\ OxfordIPS._status_decoder_ status self
           = (OxfordIPS.set_last_decodified_status (Some (concat_text texts)) self,
              Raised (KeyError k')))
  /\ (forall (self : OxfordITC.t) (status f : string) (k : list atom),
        f ∈ OxfordITC.status_split status ->
        itc_field_key f = Some k ->
        OxfordITC.messages self !! k = None ->
        exists before bad after k' texts,
          OxfordITC.status_split status = (before ++ bad :: after)%list
          /\ itc_field_key bad = Some k'
          /\ OxfordITC.messages self !! k' = None
          /\ mapM (phrase itc_field_key (OxfordITC.messages self)) before = Some texts
          /\ OxfordITC._status_decoder_ status self
             = (OxfordITC.set_last_decodified_status (Some (concat_text texts)) self,
                Raised (KeyError k'))).
Proof.
  split; intros self status f k Hin Hk Hab.
  - destruct (decode_fields_absent ips_field_key (OxfordIPS.messages self)
                (OxfordIPS.status_split status) "" (ips_short_then_short status))
      as (before & bad & after & k' & texts & E & Hbad & Hab' & Hm & Hrun);
      [exists f, k; auto|].
    exists before, bad, after, k', texts. repeat split; auto.
    rewrite ips_decoder_run, Hrun. reflexivity.
  - destruct (decode_fields_absent itc_field_key (OxfordITC.messages self)
                (OxfordITC.status_split status) "" (itc_short_then_short status))
      as (before & bad & after & k' & texts & E & Hbad & Hab' & Hm & Hrun);
      [exists f, k; auto|].
    exists before, bad, after, k', texts. repeat split; auto.
    rewrite itc_decoder_run, Hrun. reflexivity.
Qed.

(** C7 on two statuses: activity 9 does not exist on the power supply, and
    the temperature controller's table has no entry under the text ['05']. *)
Lemma decoders_fail_on_absent_entry_witness :
  (exists before bad after k' texts,
      OxfordIPS.status_split "X00A9C1H0M00P01" = (before ++ bad :: after)%list
      /\ ips_field_key bad = Some k'
      /\ OxfordIPS.messages (constant_ips "X") !! k' = None
      /\ mapM (phrase ips_field_key (OxfordIPS.messages (constant_ips "X"))) before
         = Some texts
      /\ OxfordIPS._status_decoder_ "X00A9C1H0M00P01" (constant_ips "X")
         = (OxfordIPS.set_last_decodified_status (Some (concat_text texts))
              (constant_ips "X"),
            Raised (KeyError k')))
  /\ (exists before bad after k' texts,
        OxfordITC.status_split "X0A1C1S05H2L0" = (before ++ bad :: after)%list
        /\ itc_field_key bad = Some k'
        /\ OxfordITC.messages OxfordITC.fresh !! k' = None
        /\ mapM (phrase itc_field_key (OxfordITC.messages OxfordITC.fresh)) before
           = Some texts
        /\ OxfordITC._status_decoder_ "X0A1C1S05H2L0" OxfordITC.fresh
           = (OxfordITC.set_last_decodified_status (Some (concat_text texts))
                OxfordITC.fresh,
              Raised (KeyError k'))).
Proof.
  split.
  - apply (proj1 decoders_fail_on_absent_entry (constant_ips "X") "X00A9C1H0M00P01"
             "A9" [AStr "A"; AStr "9"]).
    + apply list_elem_of_further, list_elem_of_here.
    + reflexivity.
    + vm_compute. reflexivity.
  - apply (proj2 decoders_fail_on_absent_entry OxfordITC.fresh "X0A1C1S05H2L0"
             "S05" [AStr "S"; AStr "05"]).
    + do 3 apply list_elem_of_further. apply list_elem_of_here.
    + reflexivity.
    + vm_compute. reflexivity.
Defined.

(** C7, as stated, fails: ['A9'] is a field of the status
    ['X00A9C1H0M00P01'] and the table of the power supply has no entry
    [('A','9')]; the decoder raises the lookup failure, but a decoded message
    is produced for that input all the same: [last_decodified_status], which
    held nothing before the call, holds the phrase of the first field after
    it. Likewise on the temperature controller, whose table has no entry
    [('A','9')] either: the status ['X0A9C1S00H2L0'] leaves the phrase of its
    first field. *)
Lemma absent_entry_leaves_partial_message :
  (OxfordIPS.status_split "X00A9C1H0M00P01" = ["X00"; "A9"; "C1"; "H0"; "M00"; "P01"]
   /\ OxfordIPS.messages (constant_ips "X") !! [AStr "A"; AStr "9"] = None
   /\ (OxfordIPS._status_decoder_ "X00A9C1H0M00P01" (constant_ips "X")).2
      = Raised (KeyError [AStr "A"; AStr "9"])
   /\ OxfordIPS.last_decodified_status (constant_ips "X") = None
   /\ OxfordIPS.last_decodified_status
        (OxfordIPS._status_decoder_ "X00A9C1H0M00P01" (constant_ips "X")).1
      = Some ("Magnet NORMAL. Power supply NORMAL." +:+ nl))
  /\ (OxfordITC.status_split "X0A9C1S00H2L0" = ["X0"; "A9"; "C1"; "S00"; "H2"; "L0"]
      /\ OxfordITC.messages OxfordITC.fresh !! [AStr "A"; AStr "9"] = None
      /\ (OxfordITC._status_decoder_ "X0A9C1S00H2L0" OxfordITC.fresh).2
         = Raised (KeyError [AStr "A"; AStr "9"])
      /\ OxfordITC.last_decodified_status OxfordITC.fresh = None
      /\ OxfordITC.last_decodified_status
           (OxfordITC._status_decoder_ "X0A9C1S00H2L0" OxfordITC.fresh).1
         = Some ("Temperature controller NORMAL operative mode." +:+ nl)).
Proof. repeat split; vm_compute; reflexivity. Qed.

(** [get_status] does not catch the lookup failure: it reaches the caller. *)
Example ips_get_status_absent_activity :
  (OxfordIPS.get_status (constant_ips "X00A9C1H0M00P01")).2
    = Raised (KeyError [AStr "A"; AStr "9"]).
Proof. vm_compute. reflexivity. Qed.

(** ** Valid statuses of the power supply *)

(** The character [c] as a one-character string. *)
Definition one (c : ascii) : string := String c EmptyString.

(** The values a fragment table lists. *)
Definition keys (d : list (string * string)) : list string := map fst d.

(** A status of the power supply: fifteen characters [XmnAnCnHnMmnPmn], each
    value one that the fragment table of its position lists. *)
Definition ips_valid_status (status : string) : Prop :=
  exists xm xn a c h mm mn pm pn : ascii,
    status = string_of_list_ascii
               ["X"%char; xm; xn; "A"%char; a; "C"%char; c; "H"%char; h;
                "M"%char; mm; mn; "P"%char; pm; pn]
    /\ one xm ∈ keys OxfordIPS.X_m_messages /\ one xn ∈ keys OxfordIPS.X_n_messages
    /\ one a ∈ keys OxfordIPS.A_messages /\ one c ∈ keys OxfordIPS.C_messages
    /\ one h ∈ keys OxfordIPS.H_messages
    /\ one mm ∈ keys OxfordIPS.M_m_messages /\ one mn ∈ keys OxfordIPS.M_n_messages
    /\ one pm ∈ keys OxfordIPS.P_m_messages /\ one pn ∈ keys OxfordIPS.P_n_messages.

(** Every listed value, one after the other. *)
Ltac each_value H :=
  unfold keys in H; cbn in H;
  repeat (apply elem_of_cons in H as [H|H]; [injection H as ->|]);
  try (apply elem_of_nil in H; destruct H).

Ltac entry_found := eexists; split; [vm_compute; reflexivity|discriminate].

Lemma ips_X_entry (m n : ascii) :
  one m ∈ keys OxfordIPS.X_m_messages -> one n ∈ keys OxfordIPS.X_n_messages ->
  exists v, OxfordIPS._messages_dictionary_ !! [AStr "X"; AStr (one m); AStr (one n)] = Some v
            /\ v <> "".
Proof. intros Hm Hn. each_value Hm; each_value Hn; entry_found. Qed.

Lemma ips_A_entry (n : ascii) :
  one n ∈ keys OxfordIPS.A_messages ->
  exists v, OxfordIPS._messages_dictionary_ !! [AStr "A"; AStr (one n)] = Some v /\ v <> "".
Proof. intros H. each_value H; entry_found. Qed.

Lemma ips_C_entry (n : ascii) :
  one n ∈ keys OxfordIPS.C_messages ->
  exists v, OxfordIPS._messages_dictionary_ !! [AStr "C"; AStr (one n)] = Some v /\ v <> "".
Proof. intros H. each_value H; entry_found. Qed.

Lemma ips_H_entry (n : ascii) :
  one n ∈ keys OxfordIPS.H_messages ->
  exists v, OxfordIPS._messages_dictionary_ !! [AStr "H"; AStr (one n)] = Some v /\ v <> "".
Proof. intros H. each_value H; entry_found. Qed.

Lemma ips_M_entry (m n : ascii) :
  one m ∈ keys OxfordIPS.M_m_messages -> one n ∈ keys OxfordIPS.M_n_messages ->
  exists v, OxfordIPS._messages_dictionary_ !! [AStr "M"; AStr (one m); AStr (one n)] = Some v
            /\ v <> "".
Proof. intros Hm Hn. each_value Hm; each_value Hn; entry_found. Qed.

Lemma ips_P_entry (m n : ascii) :
  one m ∈ keys OxfordIPS.P_m_messages -> one n ∈ keys OxfordIPS.P_n_messages ->
  exists v, OxfordIPS._messages_dictionary_ !! [AStr "P"; AStr (one m); AStr (one n)] = Some v
            /\ v <> "".
Proof. intros Hm Hn. each_value Hm; each_value Hn; entry_found. Qed.

Lemma append_not_empty (a b : string) : a <> "" -> a +:+ b <> "".
Proof. destruct a; [congruence|discriminate]. Qed.

(** On a profile holding the table [_messages_dictionary_] builds, every
    valid status of the power supply decodes: the decoder returns, and the
    message it leaves is not empty. *)
Theorem ips_valid_status_decodes (self : OxfordIPS.t) (status : string) :
  OxfordIPS.messages self = OxfordIPS._messages_dictionary_ ->
  ips_valid_status status ->
  exists text,
    OxfordIPS._status_decoder_ status self
      = (OxfordIPS.set_last_decodified_status (Some text) self, Normal tt)
    /\ text <> "".
Proof.
  intros Hms (xm & xn & a & c & h & mm & mn & pm & pn & -> & Hxm & Hxn & Ha & Hc & Hh
              & Hmm & Hmn & Hpm & Hpn).
  rewrite ips_decoder_run, Hms.
  destruct (ips_X_entry xm xn Hxm Hxn) as (v1 & E1 & N1).
  destruct (ips_A_entry a Ha) as (v2 & E2 & _).
  destruct (ips_C_entry c Hc) as (v3 & E3 & _).
  destruct (ips_H_entry h Hh) as (v4 & E4 & _).
  destruct (ips_M_entry mm mn Hmm Hmn) as (v5 & E5 & _).
  destruct (ips_P_entry pm pn Hpm Hpn) as (v6 & E6 & _).
  unfold one in *.
  cbn [string_of_list_ascii].
  unfold OxfordIPS.status_split, Py.slice, Py.slice_from.
  cbn [Py.take Py.drop Nat.sub].
  erewrite (decode_fields_found ips_field_key); [|reflexivity|exact E1].
  erewrite (decode_fields_found ips_field_key); [|reflexivity|exact E2].
  erewrite (decode_fields_found ips_field_key); [|reflexivity|exact E3].
  erewrite (decode_fields_found ips_field_key); [|reflexivity|exact E4].
  erewrite (decode_fields_found ips_field_key); [|reflexivity|exact E5].
  erewrite (decode_fields_found ips_field_key); [|reflexivity|exact E6].
  eexists. split; [reflexivity|].
  cbn [decode_fields fst]. rewrite !string_append_assoc.
  change ("" +:+ v1 +:+ v2 +:+ v3 +:+ v4 +:+ v5 +:+ v6)
    with (v1 +:+ v2 +:+ v3 +:+ v4 +:+ v5 +:+ v6).
  apply append_not_empty. exact N1.
Qed.

(** ** Statuses of the temperature controller, sweep step by sweep step *)

Lemma decode_fields_missing (field_key : string -> option (list atom))
    (ms : gmap (list atom) string) (f : string) (fs : list string) (acc : string)
    (k : list atom) :
  field_key f = Some k -> ms !! k = None ->
  decode_fields field_key ms (f :: fs) acc = (acc, Raised (KeyError k)).
Proof. intros Hk Hv. cbn [decode_fields]. rewrite Hk, Hv. reflexivity. Qed.

(** The sweep steps an instrument can report: [00] to [31], two digits. *)
Definition itc_sweep_steps : list string :=
  map (fun n => Py.digits_of 2 n) (seqZ 0 32).

(** A status of the temperature controller: thirteen characters
    [XnAnCnSnnHnLn], each value a legal one for its position. *)
Definition itc_valid_status (status : string) : Prop :=
  exists x a c s1 s2 h l : ascii,
    status = string_of_list_ascii
               ["X"%char; x; "A"%char; a; "C"%char; c; "S"%char; s1; s2;
                "H"%char; h; "L"%char; l]
    /\ one x ∈ keys OxfordITC.X_messages /\ one a ∈ keys OxfordITC.A_messages
    /\ one c ∈ keys OxfordITC.C_messages
    /\ String s1 (String s2 "") ∈ itc_sweep_steps
    /\ one h ∈ keys OxfordITC.H_messages /\ one l ∈ keys OxfordITC.L_messages.

Lemma itc_X_entry (n : ascii) :
  one n ∈ keys OxfordITC.X_messages ->
  exists v, OxfordITC._messages_dictionary_ !! [AStr "X"; AStr (one n)] = Some v /\ v <> "".
Proof. intros H. each_value H; entry_found. Qed.

Lemma itc_A_entry (n : ascii) :
  one n ∈ keys OxfordITC.A_messages ->
  exists v, OxfordITC._messages_dictionary_ !! [AStr "A"; AStr (one n)] = Some v /\ v <> "".
Proof. intros H. each_value H; entry_found. Qed.

Lemma itc_C_entry (n : ascii) :
  one n ∈ keys OxfordITC.C_messages ->
  exists v, OxfordITC._messages_dictionary_ !! [AStr "C"; AStr (one n)] = Some v /\ v <> "".
Proof. intros H. each_value H; entry_found. Qed.

Lemma itc_H_entry (n : ascii) :
  one n ∈ keys OxfordITC.H_messages ->
  exists v, OxfordITC._messages_dictionary_ !! [AStr "H"; AStr (one n)] = Some v /\ v <> "".
Proof. intros H. each_value H; entry_found. Qed.

Lemma itc_L_entry (n : ascii) :
  one n ∈ keys OxfordITC.L_messages ->
  exists v, OxfordITC._messages_dictionary_ !! [AStr "L"; AStr (one n)] = Some v /\ v <> "".
Proof. intros H. each_value H; entry_found. Qed.

(** The table answers a sweep step given as text for [00] only. *)
Lemma itc_S_entry (s1 s2 : ascii) :
  String s1 (String s2 "") ∈ itc_sweep_steps ->
  OxfordITC._messages_dictionary_ !! [AStr "S"; AStr (String s1 (String s2 ""))]
  = if String.eqb (String s1 (String s2 "")) "00"
    then Some ("Sweep mode is not active." +:+ nl) else None.
Proof.
  intros H. unfold itc_sweep_steps in H. vm_compute in H.
  repeat (apply elem_of_cons in H as [H|H]; [injection H as -> ->; vm_compute; reflexivity|]).
  apply elem_of_nil in H. destruct H.
Qed.

(** X3: The temperature controller decodes a valid status exactly when its sweep
    step is [00]; for any other step it raises the lookup failure of the
    step's text. *)
Theorem itc_valid_status_decoding (self : OxfordITC.t) (status : string) :
  OxfordITC.messages self = OxfordITC._messages_dictionary_ ->
  itc_valid_status status ->
  let step := Py.slice status 7 9 in
  if String.eqb step "00" then
    exists text,
      OxfordITC._status_decoder_ status self
        = (OxfordITC.set_last_decodified_status (Some text) self, Normal tt)
      /\ text <> ""
  else
    (OxfordITC._status_decoder_ status self).2 = Raised (KeyError [AStr "S"; AStr step]).
Proof.
  intros Hms (x & a & c & s1 & s2 & h & l & -> & Hx & Ha & Hc & Hs & Hh & Hl) step.
  subst step. rewrite itc_decoder_run, Hms.
  destruct (itc_X_entry x Hx) as (v1 & E1 & N1).
  destruct (itc_A_entry a Ha) as (v2 & E2 & _).
  destruct (itc_C_entry c Hc) as (v3 & E3 & _).
  pose proof (itc_S_entry s1 s2 Hs) as E4.
  destruct (itc_H_entry h Hh) as (v5 & E5 & _).
  destruct (itc_L_entry l Hl) as (v6 & E6 & _).
  unfold one in *.
  cbn [string_of_list_ascii].
  unfold OxfordITC.status_split, Py.slice, Py.slice_from.
  cbn [Py.take Py.drop Nat.sub].
  erewrite (decode_fields_found itc_field_key); [|reflexivity|exact E1].
  erewrite (decode_fields_found itc_field_key); [|reflexivity|exact E2].
  erewrite (decode_fields_found itc_field_key); [|reflexivity|exact E3].
  destruct (String.eqb (String s1 (String s2 "")) "00").
  - erewrite (decode_fields_found itc_field_key); [|reflexivity|exact E4].
    erewrite (decode_fields_found itc_field_key); [|reflexivity|exact E5].
    erewrite (decode_fields_found itc_field_key); [|reflexivity|exact E6].
    eexists. split; [reflexivity|].
    cbn [decode_fields fst]. rewrite !string_append_assoc.
    apply (append_not_empty v1). exact N1.
  - erewrite (decode_fields_missing itc_field_key); [|reflexivity|exact E4].
    reflexivity.
Qed.

(** ** Valid statuses of the level meter *)

(** [bin(n)[2:].zfill(8)] *)
Definition bits8 (n : Z) : string := Py.zfill 8 (Py.slice_from (Py.bin n) 2).

(** The key [decode_channel] forms from the bits of a channel. *)
Definition channel_key (key i cs : string) : option (list atom) :=
  match Py.getitem cs 0, Py.getitem cs 1, Py.getitem cs 2, Py.getitem cs 4,
        Py.getitem cs 3, Py.getitem cs 5, Py.getitem cs 6, Py.getitem cs 7 with
  | Some bit_7, Some bit_6, Some bit_5, Some b4, Some b3, Some bit_2, Some bit_1,
    Some bit_0 =>
      Some [AStr key; AStr i; AStr bit_0; AStr bit_1; AStr bit_2; AStr (b4 +:+ b3);
            AStr bit_5; AStr bit_6; AStr bit_7]
  | _, _, _, _, _, _, _, _ => None
  end.

(** The key the three-character field forms from its bits. *)
Definition relay_key (key bits : string) : option (list atom) :=
  match Py.chars bits with
  | [bit_7; bit_6; bit_5; bit_4; bit_3; bit_2; bit_1; bit_0] =>
      Some [AStr key; AStr bit_0; AStr bit_1; AStr bit_2; AStr bit_3; AStr bit_4;
            AStr bit_5; AStr bit_6; AStr bit_7]
  | _ => None
  end.

(** The hexadecimal digits, in both cases. *)
Definition hex_chars : list ascii :=
  list_ascii_of_string "0123456789abcdefABCDEF".

(** A status of the level meter: fourteen characters [XabcSuuvvwwRzz], the
    channel uses legal, the rest hexadecimal digits. *)
Definition ilm_valid_status (status : string) : Prop :=
  exists c1 c2 c3 u1 u2 v1 v2 w1 w2 z1 z2 : ascii,
    status = string_of_list_ascii
               ["X"%char; c1; c2; c3; "S"%char; u1; u2; v1; v2; w1; w2; "R"%char; z1; z2]
    /\ one c1 ∈ keys (OxfordILM.channel_messages "1")
    /\ one c2 ∈ keys (OxfordILM.channel_messages "2")
    /\ one c3 ∈ keys (OxfordILM.channel_messages "3")
    /\ Forall (fun h => In h hex_chars) [u1; u2; v1; v2; w1; w2; z1; z2].

Definition found (k : option (list atom)) : bool :=
  match k with
  | Some k' => bool_decide (is_Some (OxfordILM._messages_dictionary_ !! k'))
  | None => false
  end.

(** Two hexadecimal digits read as a byte. *)
Lemma hex_byte (a b : ascii) :
  In a hex_chars -> In b hex_chars ->
  exists n, Py.int16 (String a (String b "")) = Some n /\ 0 <= n < 256.
Proof.
  intros Ha Hb.
  assert (H : forallb (fun a => forallb (fun b =>
                match Py.int16 (String a (String b "")) with
                | Some n => (0 <=? n) && (n <? 256)
                | None => false
                end) hex_chars) hex_chars = true) by (vm_compute; reflexivity).
  rewrite forallb_forall in H. specialize (H a Ha).
  rewrite forallb_forall in H. specialize (H b Hb).
  destruct (Py.int16 _) as [n|]; [|discriminate].
  exists n. split; [reflexivity|]. lia.
Qed.

Lemma byte_listed (n : Z) : 0 <= n < 256 -> In n (seqZ 0 256).
Proof. intros H. apply list_elem_of_In, elem_of_seqZ. lia. Qed.

(** Every byte gives each channel a key the table has. *)
Lemma channel_entry (n : Z) (i : string) :
  0 <= n < 256 -> In i ["1"; "2"; "3"] ->
  exists k v, channel_key "S" i (bits8 n) = Some k
              /\ OxfordILM._messages_dictionary_ !! k = Some v.
Proof.
  intros Hn%byte_listed Hi.
  assert (H : forallb (fun n => forallb (fun i => found (channel_key "S" i (bits8 n)))
                                        ["1"; "2"; "3"]) (seqZ 0 256) = true)
    by (vm_compute; reflexivity).
  rewrite forallb_forall in H. specialize (H n Hn).
  rewrite forallb_forall in H. specialize (H i Hi).
  unfold found in H. destruct (channel_key "S" i (bits8 n)) as [k|]; [|discriminate].
  apply bool_decide_eq_true_1 in H as [v Hv]. exists k, v. auto.
Qed.

(** Every byte gives the relay field a key the table has. *)
Lemma relay_entry (n : Z) :
  0 <= n < 256 ->
  exists k v, relay_key "R" (bits8 n) = Some k
              /\ OxfordILM._messages_dictionary_ !! k = Some v.
Proof.
  intros Hn%byte_listed.
  assert (H : forallb (fun n => found (relay_key "R" (bits8 n))) (seqZ 0 256) = true)
    by (vm_compute; reflexivity).
  rewrite forallb_forall in H. specialize (H n Hn).
  unfold found in H. destruct (relay_key "R" (bits8 n)) as [k|]; [|discriminate].
  apply bool_decide_eq_true_1 in H as [v Hv]. exists k, v. auto.
Qed.

Lemma ilm_X_entry (c1 c2 c3 : ascii) :
  one c1 ∈ keys (OxfordILM.channel_messages "1") ->
  one c2 ∈ keys (OxfordILM.channel_messages "2") ->
  one c3 ∈ keys (OxfordILM.channel_messages "3") ->
  exists v, OxfordILM._messages_dictionary_
              !! [AStr "X"; AStr (one c1); AStr (one c2); AStr (one c3)] = Some v
            /\ v <> "".
Proof. intros H1 H2 H3. each_value H1; each_value H2; each_value H3; entry_found. Qed.

Ltac run_ilm :=
  cbv beta iota delta
    [try_except bind gets modify raise reraise ret index subscript
     OxfordILM.append_message OxfordILM.byte_bits fst snd].

Lemma ilm_append_found (k : list atom) (v acc : string) (self : OxfordILM.t) :
  OxfordILM.messages self !! k = Some v ->
  OxfordILM.append_message k (OxfordILM.set_last_decodified_status (Some acc) self)
  = (OxfordILM.set_last_decodified_status (Some (acc +:+ v)) self, Normal tt).
Proof.
  intros Hv. run_ilm.
  cbn [OxfordILM.messages OxfordILM.last_decodified_status
       OxfordILM.set_last_decodified_status].
  rewrite Hv. reflexivity.
Qed.

Lemma ilm_decode_channel_run (key : string) (css : list string) (i : string)
    (self : OxfordILM.t) :
  OxfordILM.decode_channel key css i self
  = match Py.int10 i with
    | Some n =>
        match css !! Z.to_nat (n - 1) with
        | Some cs =>
            match channel_key key i cs with
            | Some k => OxfordILM.append_message k self
            | None => (self, Raised IndexError)
            end
        | None => (self, Raised IndexError)
        end
    | None => (self, Raised ValueError)
    end.
Proof.
  unfold OxfordILM.decode_channel, channel_key.
  destruct (Py.int10 i) as [n|]; [|reflexivity].
  destruct (css !! Z.to_nat (n - 1)) as [cs|]; [|reflexivity].
  cbv beta iota delta [bind index raise ret].
  destruct (Py.getitem cs 0); [|reflexivity].
  destruct (Py.getitem cs 1); [|reflexivity].
  destruct (Py.getitem cs 2); [|reflexivity].
  destruct (Py.getitem cs 4); [|reflexivity].
  destruct (Py.getitem cs 3); [|reflexivity].
  destruct (Py.getitem cs 5); [|reflexivity].
  destruct (Py.getitem cs 6); [|reflexivity].
  destruct (Py.getitem cs 7); reflexivity.
Qed.

Lemma ilm_decode_X (c1 c2 c3 : ascii) (self : OxfordILM.t) :
  OxfordILM.decode_field (String "X" (String c1 (String c2 (String c3 "")))) self
  = OxfordILM.append_message [AStr "X"; AStr (one c1); AStr (one c2); AStr (one c3)] self.
Proof. reflexivity. Qed.

Lemma ilm_decode_S (u1 u2 v1 v2 w1 w2 : ascii) (n1 n2 n3 : Z) (self : OxfordILM.t) :
  Py.int16 (String u1 (String u2 "")) = Some n1 ->
  Py.int16 (String v1 (String v2 "")) = Some n2 ->
  Py.int16 (String w1 (String w2 "")) = Some n3 ->
  OxfordILM.decode_field
    (String "S" (String u1 (String u2 (String v1 (String v2 (String w1 (String w2 "")))))))
    self
  = for_each ["1"; "2"; "3"]
             (OxfordILM.decode_channel "S" [bits8 n1; bits8 n2; bits8 n3]) self.
Proof.
  intros H1 H2 H3. unfold OxfordILM.decode_field.
  cbn [Py.len String.length Nat.eqb Py.slice Py.slice_from Py.take Py.drop Nat.sub].
  run_ilm. cbn [Py.getitem Py.drop]. rewrite H1, H2, H3. reflexivity.
Qed.

Lemma ilm_decode_R (z1 z2 : ascii) (n : Z) (self : OxfordILM.t) :
  Py.int16 (String z1 (String z2 "")) = Some n ->
  OxfordILM.decode_field (String "R" (String z1 (String z2 ""))) self
  = match relay_key "R" (bits8 n) with
    | Some k => OxfordILM.append_message k self
    | None => (self, Raised ValueError)
    end.
Proof.
  intros H. unfold OxfordILM.decode_field, relay_key.
  cbn [Py.len String.length Nat.eqb Py.slice_from Py.drop].
  run_ilm. cbn [Py.getitem Py.drop]. rewrite H. fold (bits8 n).
  destruct (Py.chars (bits8 n)) as [|? [|? [|? [|? [|? [|? [|? [|? [|? ?]]]]]]]]];
    reflexivity.
Qed.

(** One channel of the seven-character field, on the text so far. *)
Lemma ilm_channel_found (css : list string) (i : string) (m n : Z) (acc : string)
    (self : OxfordILM.t) :
  OxfordILM.messages self = OxfordILM._messages_dictionary_ ->
  0 <= n < 256 -> In i ["1"; "2"; "3"] ->
  Py.int10 i = Some m ->
  css !! Z.to_nat (m - 1) = Some (bits8 n) ->
  exists v,
    OxfordILM.decode_channel "S" css i
      (OxfordILM.set_last_decodified_status (Some acc) self)
    = (OxfordILM.set_last_decodified_status (Some (acc +:+ v)) self, Normal tt).
Proof.
  intros Hms Hn Hi Hm Hcs.
  destruct (channel_entry n i Hn Hi) as (k & v & Hk & Hv).
  exists v. rewrite ilm_decode_channel_run, Hm, Hcs, Hk.
  apply ilm_append_found. rewrite Hms. exact Hv.
Qed.

Lemma for_each_step {S A : Type} (x : A) (xs : list A) (body : A -> M S unit)
    (s s' : S) :
  body x s = (s', Normal tt) ->
  for_each (x :: xs) body s = for_each xs body s'.
Proof. intros H. cbn [for_each]. unfold bind. rewrite H. reflexivity. Qed.

(** X4: The level meter decodes every valid status: three channel digits listed
    in the table and four hexadecimal bytes always select entries of the
    table. *)
Theorem ilm_valid_status_decodes (self : OxfordILM.t) (status : string) :
  OxfordILM.messages self = OxfordILM._messages_dictionary_ ->
  ilm_valid_status status ->
  exists text,
    OxfordILM._status_decoder_ status self
      = (OxfordILM.set_last_decodified_status (Some text) self, Normal tt)
    /\ text <> "".
Proof.
  intros Hms (c1 & c2 & c3 & u1 & u2 & v1 & v2 & w1 & w2 & z1 & z2 & -> &
              H1 & H2 & H3 & Hhex).
  repeat match goal with
         | H : Forall _ (_ :: _) |- _ =>
             let Hh := fresh "Hh" in
             apply Forall_cons in H as [Hh H]
         end.
  destruct (hex_byte u1 u2) as (n1 & E1 & B1); [assumption..|].
  destruct (hex_byte v1 v2) as (n2 & E2 & B2); [assumption..|].
  destruct (hex_byte w1 w2) as (n3 & E3 & B3); [assumption..|].
  destruct (hex_byte z1 z2) as (n4 & E4 & B4); [assumption..|].
  destruct (ilm_X_entry c1 c2 c3 H1 H2 H3) as (x & Ex & Nx).
  destruct (relay_entry n4 B4) as (kr & r & Ekr & Er).
  destruct (ilm_channel_found [bits8 n1; bits8 n2; bits8 n3] "1" 1 n1 x self)
    as (a & Ea); [assumption|assumption|cbn; tauto|reflexivity|reflexivity|].
  destruct (ilm_channel_found [bits8 n1; bits8 n2; bits8 n3] "2" 2 n2 (x +:+ a) self)
    as (b & Eb); [assumption|assumption|cbn; tauto|reflexivity|reflexivity|].
  destruct (ilm_channel_found [bits8 n1; bits8 n2; bits8 n3] "3" 3 n3
              ((x +:+ a) +:+ b) self)
    as (c & Ec); [assumption|assumption|cbn; tauto|reflexivity|reflexivity|].
  exists ((((x +:+ a) +:+ b) +:+ c) +:+ r). split.
  - unfold OxfordILM._status_decoder_, OxfordILM.status_split, Py.slice, Py.slice_from.
    cbn [string_of_list_ascii Py.take Py.drop Nat.sub].
    unfold bind at 1. unfold modify at 1.
    rewrite (for_each_step _ _ _ _
               (OxfordILM.set_last_decodified_status (Some x) self)).
    2:{ rewrite ilm_decode_X.
        apply (ilm_append_found _ x "" self). rewrite Hms. exact Ex. }
    rewrite (for_each_step _ _ _ _
               (OxfordILM.set_last_decodified_status
                  (Some (((x +:+ a) +:+ b) +:+ c)) self)).
    2:{ rewrite (ilm_decode_S u1 u2 v1 v2 w1 w2 n1 n2 n3) by assumption.
        rewrite (for_each_step _ _ _ _ _ Ea).
        rewrite (for_each_step _ _ _ _ _ Eb).
        rewrite (for_each_step _ _ _ _ _ Ec).
        reflexivity. }
    rewrite (for_each_step _ _ _ _
               (OxfordILM.set_last_decodified_status
                  (Some ((((x +:+ a) +:+ b) +:+ c) +:+ r)) self)).
    2:{ rewrite (ilm_decode_R z1 z2 n4) by assumption. rewrite Ekr.
        apply ilm_append_found. rewrite Hms. exact Er. }
    reflexivity.
  - repeat apply append_not_empty. exact Nx.
Qed.

(** * Further properties of the power supply *)

(** The object after one more query went out. *)
Definition ips_logged (self : OxfordIPS.t) (cmd : string) : OxfordIPS.t :=
  OxfordIPS.set_instrument (Visa.query cmd (OxfordIPS.instrument self)).1 self.

(** X5: A field beyond 7 T in magnitude, or not a number: [set_target_field]
    sends nothing, changes nothing and raises [PSWrongOutputField] to the
    caller; its [except] clause lists only the wrong-instrument class. *)
Theorem set_target_field_out_of_range (field : float) (self : OxfordIPS.t) :
  Py.contains "IPS" (OxfordIPS.identity self) = true ->
  PrimFloat.leb (PrimFloat.abs field) 7%float = false ->
  OxfordIPS.set_target_field field self
  = (self, Raised (Custom (Errors.PSWrongOutputField field))).
Proof.
  intros Hid Hrange. unfold OxfordIPS.set_target_field. run.
  rewrite Hid, Hrange. reflexivity.
Qed.

Lemma set_target_field_out_of_range_witness :
  OxfordIPS.set_target_field 7.5%float (constant_ips "R+0.0000")
  = (constant_ips "R+0.0000", Raised (Custom (Errors.PSWrongOutputField 7.5%float))).
Proof.
  apply (set_target_field_out_of_range 7.5%float (constant_ips "R+0.0000"));
    reflexivity.
Defined.

(** X6: On an instrument whose identity does not contain [IPS], the modelled
    commands of the power supply send nothing, change nothing and return
    normally: the wrong-instrument failure stays inside each method. *)
Theorem ips_wrong_instrument_untouched (v : float) (self : OxfordIPS.t) :
  Py.contains "IPS" (OxfordIPS.identity self) = false ->
  Forall (fun method : M OxfordIPS.t unit => method self = (self, Normal tt))
    [OxfordIPS.get_current_set_point_reading;
     OxfordIPS.get_current_sweep_rate_reading;
     OxfordIPS.get_field_set_point_reading;
     OxfordIPS.get_safe_current_negative_limit_reading;
     OxfordIPS.get_safe_current_positive_limit_reading;
     OxfordIPS.get_status;
     OxfordIPS.set_target_current v;
     OxfordIPS.set_target_field v;
     OxfordIPS.set_current_sweep_rate v].
Proof.
  intros Hid.
  repeat constructor;
    unfold OxfordIPS.get_current_set_point_reading,
      OxfordIPS.get_current_sweep_rate_reading,
      OxfordIPS.get_field_set_point_reading,
      OxfordIPS.get_safe_current_negative_limit_reading,
      OxfordIPS.get_safe_current_positive_limit_reading,
      OxfordIPS.get_status, OxfordIPS.set_target_current,
      OxfordIPS.set_target_field, OxfordIPS.set_current_sweep_rate;
    run; rewrite Hid; reflexivity.
Qed.

Lemma ips_wrong_instrument_untouched_witness :
  let itc := OxfordIPS.connected (fun _ => "R+1.0") "" "ITC503 Version 1.1" true in
  Forall (fun method : M OxfordIPS.t unit => method itc = (itc, Normal tt))
    [OxfordIPS.get_current_set_point_reading;
     OxfordIPS.get_current_sweep_rate_reading;
     OxfordIPS.get_field_set_point_reading;
     OxfordIPS.get_safe_current_negative_limit_reading;
     OxfordIPS.get_safe_current_positive_limit_reading;
     OxfordIPS.get_status;
     OxfordIPS.set_target_current 1%float;
     OxfordIPS.set_target_field 1%float;
     OxfordIPS.set_current_sweep_rate 1%float].
Proof.
  apply (ips_wrong_instrument_untouched 1%float
           (OxfordIPS.connected (fun _ => "R+1.0") "" "ITC503 Version 1.1" true)).
  reflexivity.
Defined.

(** X7: The three outcomes of a reading, on [get_current_set_point_reading]: the
    first character of the reply is dropped unread; a [?] in the rest leaves
    the cached reading as it was and is not reported; a rest that is not a
    number raises [ValueError] to the caller; a number is cached. *)
Theorem get_current_set_point_reading_outcomes (self : OxfordIPS.t) :
  Py.contains "IPS" (OxfordIPS.identity self) = true ->
  let cmd := OxfordIPS.buffer_radix self +:+ "R5" in
  let text := Py.slice_from (OxfordIPS.answer self [cmd]) 1 in
  OxfordIPS.get_current_set_point_reading self
  = if Py.contains "?" text then (ips_logged self cmd, Normal tt)
    else match Py.float_of_str text with
         | Some v => (OxfordIPS.set_current_set_point (Some v) (ips_logged self cmd),
                      Normal tt)
         | None => (ips_logged self cmd, Raised ValueError)
         end.
Proof.
  intros Hid cmd text. subst text cmd.
  unfold OxfordIPS.get_current_set_point_reading, OxfordIPS.answer, ips_logged.
  simpl foldl. run. rewrite Hid.
  cbn [OxfordIPS.instrument OxfordIPS.set_instrument OxfordIPS.buffer_radix
       Visa.sent Visa.device].
  destruct (Py.contains "?" _); [reflexivity|].
  destruct (Py.float_of_str _); reflexivity.
Qed.

(** ** Reading the status *)

(** [sub in s] for a one-character [sub]: some character of [s] is it. *)
Lemma contains_char (q : ascii) (l : list ascii) :
  Py.contains (String q "") (string_of_list_ascii l) = existsb (Ascii.eqb q) l.
Proof.
  induction l as [|c l IH]; [reflexivity|].
  cbn [string_of_list_ascii Py.contains Py.prefixb existsb]. rewrite IH.
  destruct (Ascii.eqb q c); reflexivity.
Qed.

(** The failures of the interpreter, as opposed to the classes of [Errors]. *)
Definition builtin (e : exn) : bool :=
  match e with Custom _ => false | _ => true end.

(** [m] raises built-in failures only. *)
Definition raises_builtin {S A : Type} (m : M S A) : Prop :=
  forall s s' e, m s = (s', Raised e) -> builtin e = true.

Lemma bind_raises_builtin {S A B : Type} (m : M S A) (k : A -> M S B) :
  raises_builtin m -> (forall a, raises_builtin (k a)) -> raises_builtin (bind m k).
Proof.
  intros Hm Hk s s' e. unfold bind.
  destruct (m s) as [s1 [a|e1]] eqn:E.
  - apply Hk.
  - intros [= <- <-]. exact (Hm _ _ _ E).
Qed.

Lemma for_each_raises_builtin {S A : Type} (xs : list A) (body : A -> M S unit) :
  (forall x, raises_builtin (body x)) -> raises_builtin (for_each xs body).
Proof.
  intros Hb. induction xs as [|x xs IH]; cbn [for_each].
  - intros s s' e. discriminate.
  - apply bind_raises_builtin; [apply Hb|intros _; exact IH].
Qed.

Lemma index_raises_builtin {S : Type} (s : string) (i : nat) :
  raises_builtin (@index S s i).
Proof.
  intros st st' e. unfold index. destruct (Py.getitem s i); [discriminate|].
  intros [= <- <-]. reflexivity.
Qed.

Lemma ips_append_raises_builtin (key : list atom) :
  raises_builtin (OxfordIPS.append_message key).
Proof.
  intros s s' e. unfold OxfordIPS.append_message. run.
  destruct (OxfordIPS.messages s !! key); [|intros [= <- <-]; reflexivity].
  destruct (OxfordIPS.last_decodified_status s); [discriminate|].
  intros [= <- <-]. reflexivity.
Qed.

Lemma ips_decoder_raises_builtin (status : string) :
  raises_builtin (OxfordIPS._status_decoder_ status).
Proof.
  unfold OxfordIPS._status_decoder_.
  apply bind_raises_builtin; [intros s s' e; discriminate|]. intros _.
  apply for_each_raises_builtin. intros f. unfold OxfordIPS.decode_field.
  destruct (Py.len f =? 2)%nat;
    repeat (apply bind_raises_builtin; [apply index_raises_builtin|intros ?]);
    apply ips_append_raises_builtin.
Qed.

(** [get_status], step by step: the reply is stored before it is looked at;
    a reply holding [?] ends the call there; any other reply goes to the
    decoder, whose outcome is the outcome of the call. *)
Lemma ips_get_status_run (self : OxfordIPS.t) :
  Py.contains "IPS" (OxfordIPS.identity self) = true ->
  let cmd := OxfordIPS.buffer_radix self +:+ "X" in
  let reply := OxfordIPS.answer self [cmd] in
  let stored := OxfordIPS.set_last_queried_status (Some reply) (ips_logged self cmd) in
  OxfordIPS.get_status self
  = if Py.contains "?" reply then (stored, Normal tt)
    else OxfordIPS._status_decoder_ reply stored.
Proof.
  intros Hid cmd reply stored. subst stored reply cmd.
  unfold OxfordIPS.get_status, OxfordIPS.answer, ips_logged. simpl foldl.
  cbv beta iota delta [try_except bind gets modify raise OxfordIPS.query Visa.query fst snd].
  rewrite Hid.
  cbn [OxfordIPS.instrument OxfordIPS.set_instrument OxfordIPS.buffer_radix
       Visa.sent Visa.device].
  destruct (Py.contains "?" _); [reflexivity|].
  match goal with |- context [OxfordIPS._status_decoder_ ?r ?s] =>
    destruct (OxfordIPS._status_decoder_ r s) as [s' [[]|e]] eqn:E end;
    [reflexivity|].
  pose proof (ips_decoder_raises_builtin _ _ _ _ E) as Hb.
  destruct e; try discriminate; reflexivity.
Qed.

Ltac not_question H := each_value H; reflexivity.

(** A valid status holds no [?]. *)
Lemma ips_valid_status_accepted (status : string) :
  ips_valid_status status -> Py.contains "?" status = false.
Proof.
  intros (xm & xn & a & c & h & mm & mn & pm & pn & -> & Hxm & Hxn & Ha & Hc & Hh
          & Hmm & Hmn & Hpm & Hpn).
  rewrite contains_char. cbn [existsb].
  assert (Ascii.eqb "?" xm = false) as -> by not_question Hxm.
  assert (Ascii.eqb "?" xn = false) as -> by not_question Hxn.
  assert (Ascii.eqb "?" a = false) as -> by not_question Ha.
  assert (Ascii.eqb "?" c = false) as -> by not_question Hc.
  assert (Ascii.eqb "?" h = false) as -> by not_question Hh.
  assert (Ascii.eqb "?" mm = false) as -> by not_question Hmm.
  assert (Ascii.eqb "?" mn = false) as -> by not_question Hmn.
  assert (Ascii.eqb "?" pm = false) as -> by not_question Hpm.
  assert (Ascii.eqb "?" pn = false) as -> by not_question Hpn.
  reflexivity.
Qed.

(** X8: When the supply answers the status query with a valid status,
    [get_status] sends that one query, stores the reply and its decoding,
    which is not empty, and returns normally. *)
Theorem ips_get_status_valid_reply (self : OxfordIPS.t) :
  Py.contains "IPS" (OxfordIPS.identity self) = true ->
  OxfordIPS.messages self = OxfordIPS._messages_dictionary_ ->
  let cmd := OxfordIPS.buffer_radix self +:+ "X" in
  let reply := OxfordIPS.answer self [cmd] in
  ips_valid_status reply ->
  exists text,
    OxfordIPS.get_status self
    = (OxfordIPS.set_last_decodified_status (Some text)
         (OxfordIPS.set_last_queried_status (Some reply) (ips_logged self cmd)),
       Normal tt)
    /\ text <> ""
    /\ OxfordIPS.sent (OxfordIPS.get_status self).1
       = (OxfordIPS.sent self ++ [Visa.Query cmd])%list.
Proof.
  intros Hid Hms cmd reply Hvalid.
  pose proof (ips_get_status_run self Hid) as Hrun. cbv zeta in Hrun.
  fold cmd in Hrun. fold reply in Hrun.
  rewrite (ips_valid_status_accepted _ Hvalid) in Hrun.
  destruct (ips_valid_status_decodes
              (OxfordIPS.set_last_queried_status (Some reply) (ips_logged self cmd))
              reply Hms Hvalid) as (text & Hdec & Hne).
  exists text. rewrite Hrun, Hdec. split; [reflexivity|]. split; [exact Hne|reflexivity].
Qed.

Lemma ips_get_status_valid_reply_witness :
  exists text,
    OxfordIPS.get_status (constant_ips "X00A1C3H1M10P03")
    = (OxfordIPS.set_last_decodified_status (Some text)
         (OxfordIPS.set_last_queried_status (Some "X00A1C3H1M10P03")
            (ips_logged (constant_ips "X00A1C3H1M10P03") "@0X")),
       Normal tt)
    /\ text <> ""
    /\ OxfordIPS.sent (OxfordIPS.get_status (constant_ips "X00A1C3H1M10P03")).1
       = [Visa.Query "@0X"].
Proof.
  apply (ips_get_status_valid_reply (constant_ips "X00A1C3H1M10P03"));
    [reflexivity|reflexivity|].
  exists "0"%char, "0"%char, "1"%char, "3"%char, "1"%char, "1"%char, "0"%char,
         "0"%char, "3"%char.
  vm_compute. repeat split; repeat constructor.
Defined.

(** X9: A reply holding [?] is stored as the last queried status all the same;
    the decoded text keeps its previous value, nothing is reported and the
    call returns normally. A reply without [?] that the decoder cannot
    decode makes [get_status] fail with the decoder's failure. *)
Theorem ips_get_status_rejected_or_undecodable (self : OxfordIPS.t) :
  Py.contains "IPS" (OxfordIPS.identity self) = true ->
  let cmd := OxfordIPS.buffer_radix self +:+ "X" in
  let reply := OxfordIPS.answer self [cmd] in
  let stored := OxfordIPS.set_last_queried_status (Some reply) (ips_logged self cmd) in
  (Py.contains "?" reply = true ->
   OxfordIPS.get_status self = (stored, Normal tt)
   /\ OxfordIPS.last_decodified_status (OxfordIPS.get_status self).1
      = OxfordIPS.last_decodified_status self)
  /\ (Py.contains "?" reply = false ->
      forall e, (OxfordIPS._status_decoder_ reply stored).2 = Raised e ->
                (OxfordIPS.get_status self).2 = Raised e).
Proof.
  intros Hid cmd reply stored.
  pose proof (ips_get_status_run self Hid) as Hrun. cbv zeta in Hrun.
  fold cmd in Hrun. fold reply in Hrun. fold stored in Hrun.
  split; intros Hq; rewrite Hq in Hrun.
  - rewrite Hrun. split; reflexivity.
  - intros e He. rewrite Hrun. exact He.
Qed.

Lemma ips_get_status_rejected_or_undecodable_witness :
  (OxfordIPS.get_status (constant_ips "?X")
   = (OxfordIPS.set_last_queried_status (Some "?X") (ips_logged (constant_ips "?X") "@0X"),
      Normal tt)
   /\ OxfordIPS.last_decodified_status (OxfordIPS.get_status (constant_ips "?X")).1 = None)
  /\ (OxfordIPS.get_status (constant_ips "X00A9C1H0M00P01")).2
     = Raised (KeyError [AStr "A"; AStr "9"]).
Proof.
  split.
  - apply (proj1 (ips_get_status_rejected_or_undecodable (constant_ips "?X")
                    eq_refl)).
    reflexivity.
  - apply (proj2 (ips_get_status_rejected_or_undecodable
                    (constant_ips "X00A9C1H0M00P01") eq_refl));
      vm_compute; reflexivity.
Defined.

(** * Witnesses of the decoding theorems *)

Lemma itc_valid_status_decoding_witness :
  (exists text,
     OxfordITC._status_decoder_ "X0A1C1S00H2L0" OxfordITC.fresh
     = (OxfordITC.set_last_decodified_status (Some text) OxfordITC.fresh, Normal tt)
     /\ text <> "")
  /\ (OxfordITC._status_decoder_ "X0A1C1S05H2L0" OxfordITC.fresh).2
     = Raised (KeyError [AStr "S"; AStr "05"]).
Proof.
  split.
  - apply (itc_valid_status_decoding OxfordITC.fresh "X0A1C1S00H2L0"); [reflexivity|].
    exists "0"%char, "1"%char, "1"%char, "0"%char, "0"%char, "2"%char, "0"%char.
    vm_compute. repeat split; repeat constructor.
  - apply (itc_valid_status_decoding OxfordITC.fresh "X0A1C1S05H2L0"); [reflexivity|].
    exists "0"%char, "1"%char, "1"%char, "0"%char, "5"%char, "2"%char, "0"%char.
    vm_compute. repeat split; repeat constructor.
Defined.

Lemma ilm_valid_status_decodes_witness :
  exists text,
    OxfordILM._status_decoder_ "X213S0A0B0CR1F" OxfordILM.fresh
    = (OxfordILM.set_last_decodified_status (Some text) OxfordILM.fresh, Normal tt)
    /\ text <> "".
Proof.
  apply (ilm_valid_status_decodes OxfordILM.fresh "X213S0A0B0CR1F"); [reflexivity|].
  exists "2"%char, "1"%char, "3"%char, "0"%char, "A"%char, "0"%char, "B"%char,
         "0"%char, "C"%char, "1"%char, "F"%char.
  split; [reflexivity|].
  do 3 (split; [vm_compute; repeat constructor|]).
  repeat (constructor; [cbn; repeat first [left; reflexivity | right]|]).
  constructor.
Defined.

Lemma set_target_field_read_back_witness :
  (OxfordIPS.set_target_field 1%float (constant_ips "R+1.00000")).2 = Normal tt
  /\ OxfordIPS.field_set_point
       (OxfordIPS.set_target_field 1%float (constant_ips "R+1.00000")).1 = Some 1%float
  /\ OxfordIPS.sent (OxfordIPS.set_target_field 1%float (constant_ips "R+1.00000")).1
     = [Visa.Query "@0J+1.00000"; Visa.Query "@0R8"].
Proof.
  apply (set_target_field_read_back 1%float 1%float (constant_ips "R+1.00000"));
    reflexivity.
Defined.

Lemma set_target_current_read_back_witness :
  (OxfordIPS.set_target_current 1%float (constant_ips "R+2.0000")).2 = Normal tt
  /\ OxfordIPS.current_set_point
       (OxfordIPS.set_target_current 1%float (constant_ips "R+2.0000")).1 = Some 2%float
  /\ OxfordIPS.sent (OxfordIPS.set_target_current 1%float (constant_ips "R+2.0000")).1
     = [Visa.Query "@0I+1.0000"; Visa.Query "@0R5"].
Proof.
  apply (set_target_current_read_back 1%float 2%float (constant_ips "R+2.0000"));
    reflexivity.
Defined.

Lemma get_current_set_point_reading_outcomes_witness :
  OxfordIPS.get_current_set_point_reading (constant_ips "?R5")
  = (ips_logged (constant_ips "?R5") "@0R5", Raised ValueError)
  /\ OxfordIPS.get_current_set_point_reading (constant_ips "R?")
     = (ips_logged (constant_ips "R?") "@0R5", Normal tt).
Proof.
  split.
  - apply (get_current_set_point_reading_outcomes (constant_ips "?R5")). reflexivity.
  - apply (get_current_set_point_reading_outcomes (constant_ips "R?")). reflexivity.
Defined.

(** * The decoder of the power supply and longer statuses *)

(** The loop over the fields depends on the fields through their keys only. *)
Lemma decode_fields_keys (field_key : string -> option (list atom))
    (ms : gmap (list atom) string) (fs gs : list string) (acc : string) :
  map field_key fs = map field_key gs ->
  decode_fields field_key ms fs acc = decode_fields field_key ms gs acc.
Proof.
  revert gs acc. induction fs as [|f fs IH]; intros [|g gs] acc E; try discriminate;
    [reflexivity|].
  injection E as Ef Es. cbn [decode_fields]. rewrite Ef.
  destruct (field_key g); [|reflexivity]. destruct (ms !! l); [|reflexivity].
  apply IH. exact Es.
Qed.

(** X10: The decoder of the power supply reads the first fifteen characters of
    the status and nothing else: whatever follows them is ignored, with any
    table. *)
Theorem ips_decoder_ignores_trailing (status suffix : string) (self : OxfordIPS.t) :
  Py.len status = 15%nat ->
  OxfordIPS._status_decoder_ (status +:+ suffix) self
  = OxfordIPS._status_decoder_ status self.
Proof.
  intros Hlen. rewrite !ips_decoder_run.
  rewrite (decode_fields_keys ips_field_key (OxfordIPS.messages self)
             (OxfordIPS.status_split (status +:+ suffix)) (OxfordIPS.status_split status));
    [reflexivity|].
  do 15 (destruct status as [|? status]; [discriminate|]).
  destruct status; [|discriminate].
  destruct suffix as [|c suffix]; reflexivity.
Qed.

Lemma ips_decoder_ignores_trailing_witness :
  OxfordIPS._status_decoder_ ("X00A1C3H1M10P03" +:+ "?!") (constant_ips "")
  = OxfordIPS._status_decoder_ "X00A1C3H1M10P03" (constant_ips "").
Proof.
  apply (ips_decoder_ignores_trailing "X00A1C3H1M10P03" "?!" (constant_ips "")).
  reflexivity.
Defined.

(** * Further properties of the resource directory *)

(** X11: An address of the current enumeration is opened at once: the bus is not
    enumerated again, nothing is reported and the directory is unchanged. *)
Theorem open_instrument_known_address (adress : string) (self : Manager.t) :
  adress ∈ Manager.resources self ->
  Manager.open_instrument adress self = (self, Normal (Some adress)).
Proof.
  intros Hin. run_manager. rewrite (bool_decide_eq_true_2 _ Hin). reflexivity.
Qed.

Lemma open_instrument_known_address_witness :
  Manager.open_instrument "GPIB0::23::INSTR" bench
  = (bench, Normal (Some "GPIB0::23::INSTR")).
Proof.
  apply (open_instrument_known_address "GPIB0::23::INSTR" bench).
  apply (bool_decide_eq_true_1 _). reflexivity.
Defined.

(** X12: [_refresh_resources_] enumerates the bus exactly once and keeps the new
    enumeration whatever happens next. It returns normally exactly when the
    enumeration changed; otherwise it reports one failure and raises it:
    [VoidManagerError] on an empty enumeration, [InstrumentNotAvailableError]
    on any other. *)
Theorem refresh_resources_outcome (self : Manager.t) :
  let listed := Manager.bus self (Manager.calls self) in
  let r := Manager._refresh_resources_ self in
  Manager.calls r.1 = S (Manager.calls self)
  /\ Manager.resources r.1 = listed
  /\ (listed <> Manager.resources self ->
      r.2 = Normal tt /\ Manager.reported r.1 = Manager.reported self)
  /\ (listed = Manager.resources self ->
      let e := if bool_decide (listed = []) then Custom Errors.VoidManagerError
               else Custom Errors.InstrumentNotAvailableError in
      r.2 = Raised e /\ Manager.reported r.1 = (Manager.reported self ++ [e])%list).
Proof.
  intros listed r. subst r listed. run_manager.
  cbn [Manager.resources Manager.bus Manager.calls Manager.reported
       Manager.set_resources Manager.set_reported].
  destruct (bool_decide_reflect
              (Manager.bus self (Manager.calls self) = Manager.resources self)) as [He|Hne].
  - destruct (bool_decide (Manager.bus self (Manager.calls self) = [])); cbn;
      (split; [reflexivity|]; split; [reflexivity|]; split; [tauto|]; auto).
  - cbn. split; [reflexivity|]. split; [reflexivity|]. split; [auto|]. tauto.
Qed.

(** X13: Whatever the directory and the bus, a session [open_instrument] returns
    is a session on the requested address, and that address is in the
    enumeration the directory holds afterwards; the bus was enumerated at
    most once. *)
Theorem open_instrument_sound (adress h : string) (self : Manager.t) :
  (Manager.open_instrument adress self).2 = Normal (Some h) ->
  h = adress
  /\ adress ∈ Manager.resources (Manager.open_instrument adress self).1
  /\ Manager.reported (Manager.open_instrument adress self).1 = Manager.reported self
  /\ (Manager.calls (Manager.open_instrument adress self).1
      <= S (Manager.calls self))%nat.
Proof.
  run_manager.
  destruct (bool_decide_reflect (adress ∈ Manager.resources self)) as [Hin|Hout].
  - cbn. intros [= <-]. repeat split; auto.
  - cbn [Manager.resources Manager.bus Manager.calls Manager.reported
         Manager.set_resources Manager.set_reported].
    destruct (bool_decide (Manager.bus self (Manager.calls self) = Manager.resources self)).
    + destruct (bool_decide (Manager.bus self (Manager.calls self) = [])); cbn;
        discriminate.
    + cbn.
      destruct (bool_decide_reflect (adress ∈ Manager.bus self (Manager.calls self)))
        as [Hin|Hout']; cbn; [|discriminate].
      intros [= <-]. repeat split; auto.
Qed.

Lemma open_instrument_sound_witness :
  "GPIB0::27::INSTR" = "GPIB0::27::INSTR"
  /\ "GPIB0::27::INSTR"
       ∈ Manager.resources (Manager.open_instrument "GPIB0::27::INSTR" bench).1
  /\ Manager.reported (Manager.open_instrument "GPIB0::27::INSTR" bench).1
     = Manager.reported bench
  /\ (Manager.calls (Manager.open_instrument "GPIB0::27::INSTR" bench).1
      <= S (Manager.calls bench))%nat.
Proof.
  apply (open_instrument_sound "GPIB0::27::INSTR" "GPIB0::27::INSTR" bench).
  vm_compute. reflexivity.
Defined.

(** * Further properties of the generic instrument *)








(** X15: [type_dictionary] itself: with as many buffers as keys it returns three
    pairs per key and touches nothing; with any other number it hands
    [InvalidTypeDictionaryError] to its [error_handler] once, raises it, and
    sends nothing. *)
Theorem type_dictionary_outcome (keys buffers : list string) (self : Instruments.t) :
  (length keys = length buffers ->
   exists pairs,
     Instruments.type_dictionary keys buffers self = (self, Normal pairs)
     /\ length pairs = (3 * length keys)%nat
     /\ map snd pairs = flat_map (fun b => [b; b; b]) buffers)
  /\ (length keys <> length buffers ->
      Instruments.type_dictionary keys buffers self
      = (Instruments.set_reported
           (Instruments.reported self ++ [Custom Errors.InvalidTypeDictionaryError])%list
           self,
         Raised (Custom Errors.InvalidTypeDictionaryError))).
Proof.
  unfold Instruments.type_dictionary. split; intros Hlen.
  - exists (Instruments.spellings keys buffers).
    cbv beta iota delta [try_except ret]. rewrite (proj2 (Nat.eqb_eq _ _) Hlen).
    split; [reflexivity|].
    revert buffers Hlen. induction keys as [|k keys IH]; intros [|b buffers] Hlen;
      try discriminate; [split; reflexivity|].
    injection Hlen as Hlen. destruct (IH buffers Hlen) as [Hl Hs].
    cbn [Instruments.spellings length map flat_map snd app]. rewrite Hl, Hs.
    split; [lia|reflexivity].
  - cbv beta iota delta [try_except raise]. rewrite (proj2 (Nat.eqb_neq _ _) Hlen).
    reflexivity.
Qed.

Lemma type_dictionary_outcome_witness :
  (exists pairs,
     Instruments.type_dictionary ["up"; "down"] ["UP"; "DOWN"] quiet_2400
     = (quiet_2400, Normal pairs)
     /\ length pairs = (3 * 2)%nat
     /\ map snd pairs = ["UP"; "UP"; "UP"; "DOWN"; "DOWN"; "DOWN"])
  /\ Instruments.type_dictionary ["up"; "down"] ["UP"] quiet_2400
     = (Instruments.set_reported [Custom Errors.InvalidTypeDictionaryError] quiet_2400,
        Raised (Custom Errors.InvalidTypeDictionaryError)).
Proof.
  split.
  - apply (proj1 (type_dictionary_outcome ["up"; "down"] ["UP"; "DOWN"] quiet_2400)).
    reflexivity.
  - apply (proj2 (type_dictionary_outcome ["up"; "down"] ["UP"] quiet_2400)).
    discriminate.
Defined.

(** * Further properties of the source meter *)

(** No character of [s] is [sep]. *)
Fixpoint free_of (sep : ascii) (s : string) : bool :=
  match s with
  | EmptyString => true
  | String c s' => negb (Ascii.eqb c sep) && free_of sep s'
  end.

Lemma split_on_whole (sep : ascii) (s : string) :
  free_of sep s = true -> Py.split_on sep s = [s].
Proof.
  induction s as [|c s IH]; [reflexivity|]. cbn [free_of Py.split_on].
  destruct (Ascii.eqb c sep); [discriminate|]. cbn. intros H. rewrite (IH H). reflexivity.
Qed.

Lemma split_on_first (sep : ascii) (a b : string) :
  free_of sep a = true ->
  Py.split_on sep (a +:+ String sep b) = a :: Py.split_on sep b.
Proof.
  induction a as [|c a IH].
  - intros _. change ("" +:+ String sep b) with (String sep b).
    cbn [Py.split_on]. rewrite Ascii.eqb_refl. reflexivity.
  - cbn [free_of]. change (String c a +:+ String sep b) with (String c (a +:+ String sep b)).
    cbn [Py.split_on]. destruct (Ascii.eqb c sep); [discriminate|]. cbn.
    intros H. rewrite (IH H). reflexivity.
Qed.

(** The object after the error query went out and its answer was split. *)
Definition error_queried (self : Instruments.t) : Instruments.t :=
  let q := Visa.query ":SYST:ERR?" (Instruments.instrument self) in
  Instruments.set_last_internal_error (Some (Py.split_on "," q.2))
    (Instruments.set_instrument q.1 self).

(** [_error_query_] on an answer that starts with a code and a comma. *)
Lemma error_query_coded (self : Instruments.t) (code rest : string) :
  Keithley2400.is_2400 self = true ->
  free_of "," code = true ->
  (Visa.query ":SYST:ERR?" (Instruments.instrument self)).2
    = code +:+ String "," rest ->
  let message := Py.drop 1 (Py.slice_until_last (hd "" (Py.split_on "," rest)) 2) in
  let e := Custom (Errors.ReportInstrumentInternalError code message) in
  Keithley2400._error_query_ self
  = if String.eqb code "0" then (error_queried self, Normal tt)
    else (Instruments.set_reported (Instruments.reported self ++ [e])%list
            (error_queried self),
          Raised e).
Proof.
  intros Hid Hfree Hreply message e. subst e message.
  unfold Keithley2400._error_query_, error_queried. run_scpi. rewrite Hid.
  cbn [Visa.query fst snd] in Hreply. cbv beta iota zeta. rewrite Hreply.
  rewrite (split_on_first _ _ _ Hfree).
  cbn [lookup list_lookup]. cbv beta iota.
  destruct (String.eqb code "0"); cbn [negb]; [reflexivity|].
  destruct (Py.split_on "," rest) as [|m ms] eqn:E.
  { destruct rest; cbn in E; [discriminate|].
    destruct (Ascii.eqb _ _); [discriminate|].
    destruct (Py.split_on "," rest); discriminate. }
  cbn. reflexivity.
Qed.

(** The double quote. *)
Definition quote : string := String "034"%char EmptyString.

(** A source meter that answers the error query with [reply] and anything
    else with [1]. *)
Definition faulty_2400 (reply : string) : Instruments.t :=
  Keithley2400.connected
    (fun log => match last log with
                | Some (Visa.Query ":SYST:ERR?") => reply
                | _ => "1"
                end)
    "KEITHLEY INSTRUMENTS INC.,MODEL 2400,1234567,C30".

(** [_error_query_] on an answer without a comma. *)
Lemma error_query_bare (self : Instruments.t) :
  Keithley2400.is_2400 self = true ->
  let reply := (Visa.query ":SYST:ERR?" (Instruments.instrument self)).2 in
  free_of "," reply = true ->
  Keithley2400._error_query_ self
  = (error_queried self, if String.eqb reply "0" then Normal tt else Raised IndexError)
  /\ Instruments.last_internal_error (error_queried self) = Some [reply]
  /\ Instruments.reported (error_queried self) = Instruments.reported self.
Proof.
  intros Hid reply Hfree. subst reply.
  unfold Keithley2400._error_query_, error_queried. run_scpi. rewrite Hid.
  cbn [Visa.query fst snd] in Hfree. cbv beta iota zeta.
  rewrite (split_on_whole _ _ Hfree). cbn [lookup list_lookup]. cbv beta iota.
  split; [|split; reflexivity].
  destruct (String.eqb _ "0"); reflexivity.
Qed.

(** X16: The answer to the error query is read as an error code, up to the first
    comma, and a message. [_error_query_] keeps the split answer in
    [last_internal_error] in every case. With the code [0] it returns
    normally. With any other code followed by a comma it raises
    [ReportInstrumentInternalError] with the code and the text up to the next
    comma, less its first character and its last two, after handing it to
    [error_handler]. With any other code and no comma it fails with
    [IndexError] on the missing message, and reports nothing. *)
Theorem error_query_outcomes (self : Instruments.t) :
  Keithley2400.is_2400 self = true ->
  let reply := (Visa.query ":SYST:ERR?" (Instruments.instrument self)).2 in
  (forall code rest : string,
     free_of "," code = true ->
     reply = code +:+ String "," rest ->
     let message := Py.drop 1 (Py.slice_until_last (hd "" (Py.split_on "," rest)) 2) in
     let e := Custom (Errors.ReportInstrumentInternalError code message) in
     Keithley2400._error_query_ self
     = if String.eqb code "0" then (error_queried self, Normal tt)
       else (Instruments.set_reported (Instruments.reported self ++ [e])%list
               (error_queried self),
             Raised e))
  /\ (free_of "," reply = true ->
      Keithley2400._error_query_ self
      = (error_queried self,
         if String.eqb reply "0" then Normal tt else Raised IndexError)
      /\ Instruments.reported (error_queried self) = Instruments.reported self)
  /\ Instruments.last_internal_error (error_queried self)
     = Some (Py.split_on "," reply)
  /\ scpi_sent (error_queried self)
     = (scpi_sent self ++ [Visa.Query ":SYST:ERR?"])%list.
Proof.
  intros Hid reply. split; [|split; [|split; reflexivity]].
  - intros code rest Hfree Hreply. exact (error_query_coded self code rest Hid Hfree Hreply).
  - intros Hfree. destruct (error_query_bare self Hid Hfree) as (H1 & _ & H3). auto.
Qed.

Lemma error_query_outcomes_witness :
  Keithley2400._error_query_
    (faulty_2400 ("-113," +:+ quote +:+ "Undefined header" +:+ quote +:+ nl))
  = (Instruments.set_reported
       [Custom (Errors.ReportInstrumentInternalError "-113" "Undefined header")]
       (error_queried
          (faulty_2400 ("-113," +:+ quote +:+ "Undefined header" +:+ quote +:+ nl))),
     Raised (Custom (Errors.ReportInstrumentInternalError "-113" "Undefined header")))
  /\ Keithley2400._error_query_ (faulty_2400 "timeout")
     = (error_queried (faulty_2400 "timeout"), Raised IndexError).
Proof.
  split.
  - apply (proj1 (error_query_outcomes
                    (faulty_2400 ("-113," +:+ quote +:+ "Undefined header" +:+ quote +:+ nl))
                    eq_refl)
             "-113" (quote +:+ "Undefined header" +:+ quote +:+ nl));
      reflexivity.
  - apply (proj1 (proj2 (error_query_outcomes (faulty_2400 "timeout") eq_refl))).
    reflexivity.
Defined.

(** X17: On an instrument that is not a Keithley 2400, the two current-source
    configurations send nothing, whatever their arguments; each hands
    [IncorrectInstrumentError] to [error_handler] once and returns normally. *)
Theorem current_source_wrong_instrument (self : Instruments.t) :
  Keithley2400.is_2400 self = false ->
  let reported :=
    Instruments.set_reported
      (Instruments.reported self ++ [Custom Errors.IncorrectInstrumentError])%list self in
  (forall (auto_clear : bool) (autoclear_mode : string) (auto_settle : bool)
          (settling_delay : Py.value) (auto_range : bool)
          (manual_range source_level : Py.value) (set_level_mode : string)
          (triggered_scaling : bool) (scaling_factor compliance_value : Py.value),
     Keithley2400.current_source_fixed_configuration auto_clear autoclear_mode
       auto_settle settling_delay auto_range manual_range source_level set_level_mode
       triggered_scaling scaling_factor compliance_value self
     = (reported, Normal tt))
  /\ (forall (autoclear : bool) (autoclear_mode : string) (auto_settle : bool)
             (settling_delay start_level stop_level : Py.value) (spacing : string)
             (points : Py.value) (direction sweep_range_mode abort_on_compliance : string)
             (compliance_value : Py.value),
        Keithley2400.current_source_sweep_configuration autoclear autoclear_mode
          auto_settle settling_delay start_level stop_level spacing points direction
          sweep_range_mode abort_on_compliance compliance_value self
        = (reported, Normal tt))
  /\ scpi_sent reported = scpi_sent self.
Proof.
  intros Hid reported. subst reported.
  unfold Keithley2400.current_source_fixed_configuration,
    Keithley2400.current_source_sweep_configuration.
  run_scpi. rewrite Hid. repeat split.
Qed.

(** A Keithley 6517A electrometer driven through the source meter's class. *)
Definition electrometer : Instruments.t :=
  Keithley2400.connected (fun _ => "1") "KEITHLEY INSTRUMENTS INC.,MODEL 6517A,0,B".

Lemma current_source_wrong_instrument_witness :
  Keithley2400.current_source_fixed_configuration
    false "Always" true (Py.VInt 0) true (Py.VFloat 0.01) (Py.VFloat 0.001)
    "Immediate" false (Py.VInt 1) (Py.VInt 20) electrometer
  = (Instruments.set_reported [Custom Errors.IncorrectInstrumentError] electrometer,
     Normal tt)
  /\ Keithley2400.current_source_sweep_configuration
       false "Always" true (Py.VInt 0) (Py.VInt (-1)) (Py.VInt 1) "Linear"
       (Py.VInt 2500) "Up" "Best" "Never" (Py.VFloat 0.0001) electrometer
     = (Instruments.set_reported [Custom Errors.IncorrectInstrumentError] electrometer,
        Normal tt).
Proof.
  pose proof (current_source_wrong_instrument electrometer eq_refl) as (Hf & Hs & _).
  split; [apply Hf|apply Hs].
Defined.

(** The buffer [current_source_fixed_configuration] assembles when
    [auto_clear] is off. *)
Definition fixed_buffer (auto_settle : bool) (settling_delay : Py.value)
    (auto_range : bool) (manual_range source_level : Py.value) (set_level_mode : string)
    (triggered_scaling : bool) (scaling_factor compliance_value : Py.value) : string :=
  let general :=
    if auto_settle then ":SOUR:CLE:AUTO OFF;" +:+ ":SOUR:DEL:AUTO ON;"
    else ":SOUR:CLE:AUTO OFF;" +:+ ":SOUR:DEL:AUTO OFF;:SOUR:DEL "
           +:+ Py.str settling_delay +:+ ";" in
  let buffer := general +:+ ":SOUR:FUNC CURR;:SOUR:CURR:MODE FIX;" in
  let buffer :=
    if auto_range then buffer +:+ ":SOUR:CURR:RANG:AUTO ON;"
    else buffer +:+ ":SOUR:CURR:RANG:AUTO OFF;:SOUR:CURR:RANG " +:+ Py.str manual_range in
  let buffer :=
    if Keithley2400.spelled "immediate" set_level_mode then
      buffer +:+ ":SOUR:CURR " +:+ Py.str source_level +:+ ";"
    else if Keithley2400.spelled "triggered" set_level_mode then
      let buffer := buffer +:+ ":SOUR:CURR:TRIG " +:+ Py.str source_level +:+ ";" in
      if triggered_scaling then
        buffer +:+ ":SOUR:CURR:TRIG:SFAC ON;:SOUR:CURR:TRIG:SFAC " +:+ Py.str scaling_factor
      else buffer +:+ ":SOUR:CURR:TRIG:SFAC OFF;"
    else buffer in
  buffer +:+ ":SENS:VOLT:PROT " +:+ Py.str compliance_value +:+ ";".

(** With [auto_clear] off, the configuration is written whatever the other
    arguments are, followed by the completion query and the error query. *)
Lemma fixed_configuration_run (self : Instruments.t) (autoclear_mode : string)
    (auto_settle : bool) (settling_delay : Py.value) (auto_range : bool)
    (manual_range source_level : Py.value) (set_level_mode : string)
    (triggered_scaling : bool) (scaling_factor compliance_value : Py.value) :
  Keithley2400.is_2400 self = true ->
  let buffer := fixed_buffer auto_settle settling_delay auto_range manual_range
                  source_level set_level_mode triggered_scaling scaling_factor
                  compliance_value in
  let written :=
    Instruments.set_instrument
      (Visa.query "*OPC?" (Visa.write buffer (Instruments.instrument self))).1 self in
  Keithley2400.current_source_fixed_configuration false autoclear_mode auto_settle
    settling_delay auto_range manual_range source_level set_level_mode
    triggered_scaling scaling_factor compliance_value self
  = match Keithley2400._error_query_ written with
    | (s, Raised e) =>
        if Keithley2400.is_ReportInstrumentInternalError e
           || Keithley2400.is_IncorrectInstrumentError e
           || Keithley2400.is_InvalidTypeDictionaryKeyError e
        then (Instruments.set_reported (Instruments.reported s ++ [e])%list s, Normal tt)
        else (s, Raised e)
    | r => r
    end.
Proof.
  intros Hid buffer written. subst written buffer.
  unfold Keithley2400.current_source_fixed_configuration,
    Keithley2400._source_general_configuration_, fixed_buffer.
  run_scpi. rewrite Hid. cbv beta iota zeta.
  destruct auto_settle; cbv beta iota;
    match goal with
    | |- _ = match Keithley2400._error_query_ ?s with _ => _ end =>
        set (q := Keithley2400._error_query_ s);
        repeat match goal with
               | |- context [Keithley2400._error_query_ ?s'] =>
                   change (Keithley2400._error_query_ s') with q
               end;
        destruct q as [s' [[]|e]]; try reflexivity
    end;
    destruct (_ || _); reflexivity.
Qed.

(** X18: An error the instrument reports after a configuration does not reach the
    caller of [current_source_fixed_configuration]: the buffer is written,
    the completion and error queries go out, the error found is handed to
    [error_handler] twice, by [_error_query_] and by the configuration
    method, and the call returns normally. *)
Theorem fixed_configuration_swallows_instrument_error (self : Instruments.t)
    (autoclear_mode : string) (auto_settle : bool) (settling_delay : Py.value)
    (auto_range : bool) (manual_range source_level : Py.value) (set_level_mode : string)
    (triggered_scaling : bool) (scaling_factor compliance_value : Py.value)
    (code rest : string) :
  Keithley2400.is_2400 self = true ->
  free_of "," code = true ->
  String.eqb code "0" = false ->
  (forall log, Visa.device (Instruments.instrument self) (log ++ [Visa.Query ":SYST:ERR?"])
               = code +:+ String "," rest) ->
  let r := Keithley2400.current_source_fixed_configuration false autoclear_mode
             auto_settle settling_delay auto_range manual_range source_level
             set_level_mode triggered_scaling scaling_factor compliance_value self in
  let e := Custom (Errors.ReportInstrumentInternalError code
                     (Py.drop 1 (Py.slice_until_last (hd "" (Py.split_on "," rest)) 2))) in
  r.2 = Normal tt
  /\ Instruments.reported r.1 = (Instruments.reported self ++ [e; e])%list
  /\ scpi_sent r.1
     = (scpi_sent self
          ++ [Visa.Write (fixed_buffer auto_settle settling_delay auto_range manual_range
                            source_level set_level_mode triggered_scaling scaling_factor
                            compliance_value);
              Visa.Query "*OPC?"; Visa.Query ":SYST:ERR?"])%list.
Proof.
  intros Hid Hfree Hcode Hdev r e. subst r e.
  rewrite fixed_configuration_run by exact Hid. cbv zeta.
  erewrite error_query_coded; [|exact Hid|exact Hfree|apply Hdev].
  rewrite Hcode. cbn [Keithley2400.is_ReportInstrumentInternalError orb fst snd].
  split; [reflexivity|]. split.
  - cbn. rewrite <- app_assoc. reflexivity.
  - unfold scpi_sent. cbn. rewrite <- !app_assoc. reflexivity.
Qed.

Lemma fixed_configuration_swallows_instrument_error_witness :
  let meter := faulty_2400 ("-221," +:+ quote +:+ "Settings conflict" +:+ quote +:+ nl) in
  let r := Keithley2400.current_source_fixed_configuration
             false "Always" true (Py.VInt 0) true (Py.VFloat 0.01) (Py.VFloat 0.001)
             "Immediate" false (Py.VInt 1) (Py.VInt 20) meter in
  r.2 = Normal tt
  /\ Instruments.reported r.1
     = [Custom (Errors.ReportInstrumentInternalError "-221" "Settings conflict");
        Custom (Errors.ReportInstrumentInternalError "-221" "Settings conflict")]
  /\ scpi_sent r.1
     = [Visa.Write (":SOUR:CLE:AUTO OFF;:SOUR:DEL:AUTO ON;:SOUR:FUNC CURR;"
                    +:+ ":SOUR:CURR:MODE FIX;:SOUR:CURR:RANG:AUTO ON;:SOUR:CURR 0.001;"
                    +:+ ":SENS:VOLT:PROT 20;");
        Visa.Query "*OPC?"; Visa.Query ":SYST:ERR?"].
Proof.
  apply (fixed_configuration_swallows_instrument_error
           (faulty_2400 ("-221," +:+ quote +:+ "Settings conflict" +:+ quote +:+ nl))
           "Always" true (Py.VInt 0) true (Py.VFloat 0.01) (Py.VFloat 0.001)
           "Immediate" false (Py.VInt 1) (Py.VInt 20)
           "-221" (quote +:+ "Settings conflict" +:+ quote +:+ nl));
    try reflexivity.
  intros log. cbn. rewrite last_snoc. reflexivity.
Defined.

(** X19: A [set_level_mode] that is none of the six recognised spellings of
    [immediate] and [triggered] is skipped without a word: the buffer of
    [current_source_fixed_configuration] is written with the range and the
    compliance but no source level, and the checks follow as usual. *)
Theorem fixed_configuration_unrecognised_level_mode (self : Instruments.t)
    (autoclear_mode : string) (auto_settle : bool) (settling_delay : Py.value)
    (auto_range : bool) (manual_range source_level : Py.value) (set_level_mode : string)
    (triggered_scaling : bool) (scaling_factor compliance_value : Py.value) :
  Keithley2400.is_2400 self = true ->
  Keithley2400.spelled "immediate" set_level_mode = false ->
  Keithley2400.spelled "triggered" set_level_mode = false ->
  let general :=
    if auto_settle then ":SOUR:CLE:AUTO OFF;:SOUR:DEL:AUTO ON;"
    else ":SOUR:CLE:AUTO OFF;:SOUR:DEL:AUTO OFF;:SOUR:DEL " +:+ Py.str settling_delay
           +:+ ";" in
  let range :=
    if auto_range then ":SOUR:CURR:RANG:AUTO ON;"
    else ":SOUR:CURR:RANG:AUTO OFF;:SOUR:CURR:RANG " +:+ Py.str manual_range in
  scpi_sent (Keithley2400.current_source_fixed_configuration false autoclear_mode
               auto_settle settling_delay auto_range manual_range source_level
               set_level_mode triggered_scaling scaling_factor compliance_value self).1
  = (scpi_sent self
       ++ [Visa.Write (general +:+ ":SOUR:FUNC CURR;:SOUR:CURR:MODE FIX;" +:+ range
                       +:+ ":SENS:VOLT:PROT " +:+ Py.str compliance_value +:+ ";");
           Visa.Query "*OPC?"; Visa.Query ":SYST:ERR?"])%list.
Proof.
  intros Hid Hi Ht general range.
  rewrite fixed_configuration_run by exact Hid. cbv zeta.
  set (written := Instruments.set_instrument _ self).
  assert (Hw : Keithley2400.is_2400 written = true) by exact Hid.
  pose proof (error_query_sent written Hw) as Hsent.
  assert (Hbuf : scpi_sent written
                 = (scpi_sent self
                      ++ [Visa.Write (general +:+ ":SOUR:FUNC CURR;:SOUR:CURR:MODE FIX;"
                                      +:+ range +:+ ":SENS:VOLT:PROT "
                                      +:+ Py.str compliance_value +:+ ";");
                          Visa.Query "*OPC?"])%list).
  { unfold written, scpi_sent, fixed_buffer. cbn [Instruments.instrument
      Instruments.set_instrument Visa.query Visa.write Visa.sent fst snd].
    rewrite Hi, Ht. subst general range. rewrite <- app_assoc.
    destruct auto_settle, auto_range; rewrite ?string_append_assoc; reflexivity. }
  destruct (Keithley2400._error_query_ written) as [s [[]|e]]; cbn [fst snd] in Hsent |- *.
  - rewrite Hsent, Hbuf, <- app_assoc. reflexivity.
  - destruct (_ || _); unfold scpi_sent in *; cbn; rewrite Hsent, Hbuf, <- app_assoc;
      reflexivity.
Qed.

Lemma fixed_configuration_unrecognised_level_mode_witness :
  scpi_sent (Keithley2400.current_source_fixed_configuration
               false "Always" true (Py.VInt 0) false (Py.VFloat 0.01) (Py.VFloat 0.005)
               "at once" false (Py.VInt 1) (Py.VInt 10) quiet_2400).1
  = [Visa.Write (":SOUR:CLE:AUTO OFF;:SOUR:DEL:AUTO ON;:SOUR:FUNC CURR;:SOUR:CURR:MODE FIX;"
                 +:+ ":SOUR:CURR:RANG:AUTO OFF;:SOUR:CURR:RANG 0.01:SENS:VOLT:PROT 10;");
     Visa.Query "*OPC?"; Visa.Query ":SYST:ERR?"].
Proof.
  apply (fixed_configuration_unrecognised_level_mode quiet_2400 "Always" true (Py.VInt 0)
           false (Py.VFloat 0.01) (Py.VFloat 0.005) "at once" false (Py.VInt 1)
           (Py.VInt 10)); reflexivity.
Defined.

(** * Properties of the shared Oxford commands *)

Ltac run_cryostat :=
  cbv beta iota delta
    [try_except bind gets modify raise reraise ret
     Cryostat.query Cryostat.error_handler Cryostat.identity_has Cryostat.check_reply
     Visa.query fst snd].

(** The object after one more query went out. *)
Definition cryostat_logged (self : Cryostat.t) (cmd : string) : Cryostat.t :=
  Cryostat.set_instrument (Visa.query cmd (Cryostat.instrument self)).1 self.

(** The command [set_control_mode] sends. *)
Definition control_command (self : Cryostat.t) (remote locked : bool) : string :=
  Cryostat.buffer_radix self
    +:+ (if remote then if locked then "C1" else "C3"
         else if locked then "C0" else "C2").

(** What a reply holding [?] leads to: the failure of the first model named
    in the identity, among ILM, IPS and ITC in this order. *)
Definition rejection (identity : option string) : outcome unit :=
  match identity with
  | None => Raised TypeError
  | Some text =>
      if Py.contains "ILM" text then Raised Errors.LMNotResponding
      else if Py.contains "IPS" text then Raised Errors.PSNotResponding
      else if Py.contains "ITC" text then Raised Errors.TCNotResponding
      else Normal tt
  end.

(** The handler shared by the methods: a not-responding failure is handed to
    [error_handler] once and raised again; anything else passes. *)
Definition handled (s : Cryostat.t) (o : outcome unit) : Cryostat.t * outcome unit :=
  match o with
  | Raised e =>
      if Cryostat.is_not_responding e
      then (Cryostat.set_reported (Cryostat.reported s ++ [e])%list s, Raised e)
      else (s, Raised e)
  | Normal _ => (s, o)
  end.

Lemma check_reply_run (string : string) (self : Cryostat.t) :
  Cryostat.check_reply string self
  = (self, if Py.contains "?" string then rejection (Cryostat.identity self)
           else Normal tt).
Proof.
  run_cryostat. destruct (Py.contains "?" string); [|reflexivity].
  unfold rejection. destruct self as [i radix [text|] status reported closed];
    cbv beta iota delta [Cryostat.identity]; [|reflexivity].
  destruct (Py.contains "ILM" text); [reflexivity|].
  destruct (Py.contains "IPS" text); [reflexivity|].
  destruct (Py.contains "ITC" text); reflexivity.
Qed.

Lemma set_control_mode_run (remote locked : bool) (self : Cryostat.t) :
  let cmd := control_command self remote locked in
  let reply := (Visa.query cmd (Cryostat.instrument self)).2 in
  Cryostat.set_control_mode remote locked self
  = handled (cryostat_logged self cmd)
      (if Py.contains "?" reply then rejection (Cryostat.identity self) else Normal tt).
Proof.
  intros cmd reply. subst reply cmd.
  unfold Cryostat.set_control_mode, control_command, cryostat_logged, handled.
  destruct remote, locked;
    cbv beta iota zeta delta [try_except bind gets Cryostat.query Visa.query];
    rewrite check_reply_run;
    cbn [Cryostat.identity Cryostat.set_instrument Visa.query fst snd];
    (destruct (Py.contains "?" _); [|reflexivity]);
    destruct (rejection (Cryostat.identity self)) as [[]|e]; try reflexivity;
    destruct (Cryostat.is_not_responding e); reflexivity.
Qed.

(** X20: [set_control_mode] sends one command. A reply without [?] ends the call
    normally. A reply with [?] is a failure only if the identity names a
    model: the first of ILM, IPS, ITC it contains gives the class, which is
    handed to [error_handler] once and raised to the caller. With an
    identity that names none of the three the rejection goes unnoticed, and
    with no identity read yet the test itself fails with [TypeError]. *)
Theorem set_control_mode_outcome (remote locked : bool) (self : Cryostat.t) :
  let cmd := control_command self remote locked in
  let reply := (Visa.query cmd (Cryostat.instrument self)).2 in
  let sent := cryostat_logged self cmd in
  let failed (e : Errors.t) :=
    (Cryostat.set_reported (Cryostat.reported self ++ [Custom e])%list sent,
     @Raised unit (Custom e)) in
  Visa.sent (Cryostat.instrument sent)
  = (Visa.sent (Cryostat.instrument self) ++ [Visa.Query cmd])%list
  /\ (Py.contains "?" reply = false ->
      Cryostat.set_control_mode remote locked self = (sent, Normal tt))
  /\ (Py.contains "?" reply = true ->
      match Cryostat.identity self with
      | None => Cryostat.set_control_mode remote locked self = (sent, Raised TypeError)
      | Some text =>
          Cryostat.set_control_mode remote locked self
          = if Py.contains "ILM" text then failed Errors.LMNotResponding
            else if Py.contains "IPS" text then failed Errors.PSNotResponding
            else if Py.contains "ITC" text then failed Errors.TCNotResponding
            else (sent, Normal tt)
      end).
Proof.
  intros cmd reply sent failed.
  pose proof (set_control_mode_run remote locked self) as Hrun. cbv zeta in Hrun.
  fold cmd in Hrun. fold reply in Hrun. fold sent in Hrun.
  split; [reflexivity|]. split; intros Hq; rewrite Hq in Hrun.
  - exact Hrun.
  - unfold rejection in Hrun. destruct (Cryostat.identity self) as [text|]; [|exact Hrun].
    rewrite Hrun. subst failed. cbv beta.
    destruct (Py.contains "ILM" text); [reflexivity|].
    destruct (Py.contains "IPS" text); [reflexivity|].
    destruct (Py.contains "ITC" text); reflexivity.
Qed.

(** An instrument that answers every query with the same text. *)
Definition constant_cryostat (reply : string) (identity : option string) : Cryostat.t :=
  Cryostat.connected (fun _ => reply) "@1" identity.

Lemma set_control_mode_outcome_witness :
  Cryostat.set_control_mode true true (constant_cryostat "C" (Some "ITC503"))
  = (cryostat_logged (constant_cryostat "C" (Some "ITC503")) "@1C1", Normal tt)
  /\ Cryostat.set_control_mode true false (constant_cryostat "?C3" (Some "ITC503"))
     = (Cryostat.set_reported [Custom Errors.TCNotResponding]
          (cryostat_logged (constant_cryostat "?C3" (Some "ITC503")) "@1C3"),
        Raised (Custom Errors.TCNotResponding))
  /\ Cryostat.set_control_mode false false (constant_cryostat "?C2" (Some "PS120"))
     = (cryostat_logged (constant_cryostat "?C2" (Some "PS120")) "@1C2", Normal tt)
  /\ Cryostat.set_control_mode false true (constant_cryostat "?C0" None)
     = (cryostat_logged (constant_cryostat "?C0" None) "@1C0", Raised TypeError).
Proof.
  split; [|split; [|split]].
  - apply (proj1 (proj2 (set_control_mode_outcome true true
                           (constant_cryostat "C" (Some "ITC503"))))).
    reflexivity.
  - apply (proj2 (proj2 (set_control_mode_outcome true false
                           (constant_cryostat "?C3" (Some "ITC503")))) eq_refl).
  - apply (proj2 (proj2 (set_control_mode_outcome false false
                           (constant_cryostat "?C2" (Some "PS120")))) eq_refl).
  - apply (proj2 (proj2 (set_control_mode_outcome false true
                           (constant_cryostat "?C0" None))) eq_refl).
Defined.

(** X21: The digit [set_control_mode] sends after [C] is the digit the status
    tables of the power supply and of the temperature controller decode to
    the same state. *)
Theorem control_mode_digit_decodes (remote locked : bool) :
  let digit := Py.slice_from (control_command (constant_cryostat "" None) remote locked) 3 in
  let place := if remote then "REMOTE" else "LOCAL" in
  let lock := if locked then "LOCKED" else "UNLOCKED" in
  OxfordIPS._messages_dictionary_ !! [AStr "C"; AStr digit]
  = Some ("Power supply in " +:+ place +:+ " AND " +:+ lock +:+ "." +:+ nl)
  /\ OxfordITC._messages_dictionary_ !! [AStr "C"; AStr digit]
     = Some ("Temperature controller in " +:+ place +:+ " and " +:+ lock
             +:+ " state." +:+ nl).
Proof. destruct remote, locked; split; vm_compute; reflexivity. Qed.

(** X22: [_general_close_] closes the session only after the instrument accepted
    the return to local control: when [set_control_mode] fails, the failure
    reaches the caller and the session stays open. *)
Theorem general_close_outcome (self : Cryostat.t) :
  let r := Cryostat._general_close_ self in
  let cmd := Cryostat.buffer_radix self +:+ "C2" in
  Visa.sent (Cryostat.instrument r.1)
  = (Visa.sent (Cryostat.instrument self) ++ [Visa.Query cmd])%list
  /\ (r.2 = Normal tt -> Cryostat.closed r.1 = true
                         /\ Cryostat.reported r.1 = Cryostat.reported self)
  /\ (forall e, r.2 = Raised e ->
                Cryostat.closed r.1 = Cryostat.closed self
                /\ Py.contains "?" (Visa.query cmd (Cryostat.instrument self)).2 = true).
Proof.
  intros r cmd. subst r. unfold Cryostat._general_close_, bind.
  rewrite set_control_mode_run. cbv zeta.
  change (control_command self false false) with cmd.
  destruct (Py.contains "?" _).
  - destruct (rejection (Cryostat.identity self)) as [[]|e]; cbn [handled].
    + repeat split; try discriminate.
    + destruct (Cryostat.is_not_responding e); cbn; repeat split; try discriminate.
  - cbn. repeat split; discriminate.
Qed.

Lemma general_close_outcome_witness :
  Cryostat.closed (Cryostat._general_close_ (constant_cryostat "C" (Some "IPS120"))).1
    = true
  /\ Cryostat.closed (Cryostat._general_close_ (constant_cryostat "?C2" (Some "IPS120"))).1
     = false.
Proof.
  split.
  - apply (proj1 (proj2 (general_close_outcome (constant_cryostat "C" (Some "IPS120"))))).
    reflexivity.
  - apply (proj2 (proj2 (general_close_outcome (constant_cryostat "?C2" (Some "IPS120"))))
             (Custom Errors.PSNotResponding)).
    reflexivity.
Defined.

Lemma get_status_string_run (self : Cryostat.t) :
  let cmd := Cryostat.buffer_radix self +:+ "X" in
  let reply := (Visa.query cmd (Cryostat.instrument self)).2 in
  Cryostat.get_status_string self
  = handled (Cryostat.set_last_queried_status (Some reply) (cryostat_logged self cmd))
      (if Py.contains "?" reply then rejection (Cryostat.identity self) else Normal tt).
Proof.
  intros cmd reply. subst reply cmd.
  unfold Cryostat.get_status_string, cryostat_logged, handled.
  cbv beta iota zeta delta [try_except bind gets modify Cryostat.query Visa.query].
  rewrite check_reply_run.
  cbn [Cryostat.identity Cryostat.set_instrument Cryostat.set_last_queried_status
       Visa.query fst snd].
  destruct (Py.contains "?" _); [|reflexivity].
  destruct (rejection (Cryostat.identity self)) as [[]|e]; reflexivity.
Qed.

(** X23: [get_status_string] stores the reply before looking at it: a rejected
    status query overwrites [last_queried_status] with the rejection, and on
    a power supply the rejection is reported once and raised. *)
Theorem get_status_string_stores_reply (self : Cryostat.t) :
  let cmd := Cryostat.buffer_radix self +:+ "X" in
  let reply := (Visa.query cmd (Cryostat.instrument self)).2 in
  let r := Cryostat.get_status_string self in
  Cryostat.last_queried_status r.1 = Some reply
  /\ Visa.sent (Cryostat.instrument r.1)
     = (Visa.sent (Cryostat.instrument self) ++ [Visa.Query cmd])%list
  /\ (Py.contains "?" reply = false -> r.2 = Normal tt)
  /\ (forall text, Cryostat.identity self = Some text ->
      Py.contains "?" reply = true -> Py.contains "ILM" text = false ->
      Py.contains "IPS" text = true ->
      r.2 = Raised (Custom Errors.PSNotResponding)
      /\ Cryostat.reported r.1
         = (Cryostat.reported self ++ [Custom Errors.PSNotResponding])%list).
Proof.
  intros cmd reply r. subst r.
  pose proof (get_status_string_run self) as Hrun. cbv zeta in Hrun.
  fold cmd in Hrun. fold reply in Hrun. rewrite Hrun. clear Hrun.
  split; [|split; [|split]].
  - destruct (if Py.contains "?" reply then _ else _) as [[]|e]; cbn [handled];
      [reflexivity|]. destruct (Cryostat.is_not_responding e); reflexivity.
  - destruct (if Py.contains "?" reply then _ else _) as [[]|e]; cbn [handled];
      [reflexivity|]. destruct (Cryostat.is_not_responding e); reflexivity.
  - intros ->. reflexivity.
  - intros text Hid -> Hilm Hips. rewrite Hid. unfold rejection. rewrite Hilm, Hips.
    split; reflexivity.
Qed.

Lemma get_status_string_stores_reply_witness :
  Cryostat.last_queried_status
    (Cryostat.get_status_string (constant_cryostat "?X" (Some "IPS120-10"))).1
  = Some "?X"
  /\ (Cryostat.get_status_string (constant_cryostat "?X" (Some "IPS120-10"))).2
     = Raised (Custom Errors.PSNotResponding)
  /\ Cryostat.reported
       (Cryostat.get_status_string (constant_cryostat "?X" (Some "IPS120-10"))).1
     = [Custom Errors.PSNotResponding].
Proof.
  pose proof (get_status_string_stores_reply (constant_cryostat "?X" (Some "IPS120-10")))
    as (H1 & _ & _ & H4).
  split; [exact H1|]. apply (H4 "IPS120-10"); reflexivity.
Defined.

(** * Properties of the further control commands *)

(** The command the flags of [set_activity] select: the first one set, in
    the order [hold], [to_set_point], [to_zero], [clamped]. *)
Definition activity_command (hold to_set_point to_zero clamped : bool) : option string :=
  if hold then Some "A0"
  else if to_set_point then Some "A1"
  else if to_zero then Some "A2"
  else if clamped then Some "A4"
  else None.

(** The object after the selected command, if any, went out. *)
Definition commanded (self : OxfordIPS.t) (cmd : option string) : OxfordIPS.t :=
  match cmd with
  | Some c => ips_logged self (OxfordIPS.buffer_radix self +:+ c)
  | None => self
  end.

(** The object after the status was queried and decoded to [text]. *)
Definition status_read (self : OxfordIPS.t) (text : string) : OxfordIPS.t :=
  let cmd := OxfordIPS.buffer_radix self +:+ "X" in
  OxfordIPS.set_last_decodified_status (Some text)
    (OxfordIPS.set_last_queried_status (Some (OxfordIPS.answer self [cmd]))
       (ips_logged self cmd)).

Lemma ips_get_status_decoded (self : OxfordIPS.t) :
  Py.contains "IPS" (OxfordIPS.identity self) = true ->
  OxfordIPS.messages self = OxfordIPS._messages_dictionary_ ->
  ips_valid_status (OxfordIPS.answer self [OxfordIPS.buffer_radix self +:+ "X"]) ->
  exists text, OxfordIPS.get_status self = (status_read self text, Normal tt).
Proof.
  intros Hid Hms Hvalid.
  pose proof (ips_get_status_run self Hid) as Hrun. cbv zeta in Hrun.
  rewrite (ips_valid_status_accepted _ Hvalid) in Hrun.
  destruct (ips_valid_status_decodes
              (OxfordIPS.set_last_queried_status
                 (Some (OxfordIPS.answer self [OxfordIPS.buffer_radix self +:+ "X"]))
                 (ips_logged self (OxfordIPS.buffer_radix self +:+ "X")))
              _ Hms Hvalid) as (text & Hdec & _).
  exists text. rewrite Hrun, Hdec. reflexivity.
Qed.

(** Every character of a valid status up to the fifteenth can be read. *)
Lemma ips_valid_status_char (status : string) (i : nat) :
  ips_valid_status status -> (i < 15)%nat ->
  exists c, Py.getitem status i = Some c.
Proof.
  intros (xm & xn & a & c & h & mm & mn & pm & pn & -> & _) Hi.
  do 15 (destruct i as [|i]; [eexists; reflexivity|]). lia.
Qed.

Ltac run_control :=
  cbv beta iota delta
    [try_except bind gets modify raise ret index OxfordIPSControl.flag_unconfirmed
     OxfordIPSControl.status_char OxfordIPS.query Visa.query fst snd].

(** The state after the status was read holds the reply. *)
Lemma status_read_status (self : OxfordIPS.t) (text : string) :
  OxfordIPS.last_queried_status (status_read self text)
  = Some (OxfordIPS.answer self [OxfordIPS.buffer_radix self +:+ "X"]).
Proof. reflexivity. Qed.

Ltac after_status Hget Hlq Hch :=
  match type of Hget with
  | ?lhs = _ =>
      match goal with
      | |- context [OxfordIPS.get_status ?x] =>
          change (OxfordIPS.get_status x) with lhs; rewrite Hget
      end
  end;
  run_control;
  repeat (rewrite ?Hlq, ?Hch; cbv beta iota;
          try match goal with
              | |- context [String.eqb ?c ?d] => destruct (String.eqb c d)
              end;
          cbn [negb OxfordIPS.is_PSNotResponding OxfordIPS.is_IncorrectInstrumentError orb]);
  try reflexivity.

(** X24: [set_activity] sends the command of the first flag set, or none, then
    reads the status. When the status read is a valid one, the call returns
    normally whatever activity the status shows: a status that does not
    confirm the command raises [PSNotResponding] inside the method, whose
    handler drops it. *)
Theorem set_activity_never_reports (hold to_set_point to_zero clamped : bool)
    (self : OxfordIPS.t) :
  Py.contains "IPS" (OxfordIPS.identity self) = true ->
  OxfordIPS.messages self = OxfordIPS._messages_dictionary_ ->
  let sent := commanded self (activity_command hold to_set_point to_zero clamped) in
  ips_valid_status (OxfordIPS.answer sent [OxfordIPS.buffer_radix self +:+ "X"]) ->
  exists text,
    OxfordIPSControl.set_activity hold to_set_point to_zero clamped self
    = (status_read sent text, Normal tt).
Proof.
  intros Hid Hms sent Hvalid.
  assert (Hid1 : Py.contains "IPS" (OxfordIPS.identity sent) = true)
    by (subst sent; destruct (activity_command _ _ _ _); exact Hid).
  assert (Hms1 : OxfordIPS.messages sent = OxfordIPS._messages_dictionary_)
    by (subst sent; destruct (activity_command _ _ _ _); exact Hms).
  assert (Hr : OxfordIPS.buffer_radix sent = OxfordIPS.buffer_radix self)
    by (subst sent; destruct (activity_command _ _ _ _); reflexivity).
  rewrite <- Hr in Hvalid.
  destruct (ips_get_status_decoded sent Hid1 Hms1 Hvalid) as (text & Hget).
  destruct (ips_valid_status_char _ 4 Hvalid) as (ch & Hch); [lia|].
  exists text.
  pose proof (status_read_status sent text) as Hlq.
  remember (status_read sent text) as read eqn:Hread.
  remember (OxfordIPS.answer sent [OxfordIPS.buffer_radix sent +:+ "X"]) as reply.
  clear Hread Heqreply Hvalid.
  unfold OxfordIPSControl.set_activity.
  cbv beta iota delta [try_except bind gets]. rewrite Hid.
  subst sent.
  destruct hold, to_set_point, to_zero, clamped;
    cbv beta iota delta [activity_command commanded] in Hget;
    cbv beta iota zeta delta [OxfordIPS.query Visa.query ret bind];
    after_status Hget Hlq Hch.
Qed.

Lemma set_activity_never_reports_witness :
  exists text,
    OxfordIPSControl.set_activity true false false false (constant_ips "X00A1C3H1M10P03")
    = (status_read (ips_logged (constant_ips "X00A1C3H1M10P03") "@0A0") text, Normal tt).
Proof.
  apply (set_activity_never_reports true false false false
           (constant_ips "X00A1C3H1M10P03")); [reflexivity|reflexivity|].
  exists "0"%char, "0"%char, "1"%char, "3"%char, "1"%char, "1"%char, "0"%char,
         "0"%char, "3"%char.
  vm_compute. repeat split; repeat constructor.
Defined.

(** X25: A rejected status query after [set_activity]: with [hold] set, the
    method reads the fifth character of the stored reply, and a reply
    shorter than that, such as the two-character rejection, fails with
    [IndexError], which reaches the caller. *)
Theorem set_activity_short_rejection (to_set_point to_zero clamped : bool)
    (self : OxfordIPS.t) :
  Py.contains "IPS" (OxfordIPS.identity self) = true ->
  let sent := ips_logged self (OxfordIPS.buffer_radix self +:+ "A0") in
  let cmd := OxfordIPS.buffer_radix self +:+ "X" in
  let reply := OxfordIPS.answer sent [cmd] in
  Py.contains "?" reply = true ->
  Py.getitem reply 4 = None ->
  OxfordIPSControl.set_activity true to_set_point to_zero clamped self
  = (OxfordIPS.set_last_queried_status (Some reply) (ips_logged sent cmd),
     Raised IndexError).
Proof.
  intros Hid sent cmd reply Hq Hshort.
  assert (Hid1 : Py.contains "IPS" (OxfordIPS.identity sent) = true) by exact Hid.
  pose proof (ips_get_status_run sent Hid1) as Hget. cbv zeta in Hget.
  change (OxfordIPS.buffer_radix sent) with (OxfordIPS.buffer_radix self) in Hget.
  fold cmd in Hget. fold reply in Hget. rewrite Hq in Hget.
  assert (Hlq : OxfordIPS.last_queried_status
                  (OxfordIPS.set_last_queried_status (Some reply) (ips_logged sent cmd))
                = Some reply) by reflexivity.
  remember (OxfordIPS.set_last_queried_status (Some reply) (ips_logged sent cmd)) as read.
  clear Heqread. remember reply as text. clear Heqtext Hq.
  unfold OxfordIPSControl.set_activity.
  cbv beta iota delta [try_except bind gets]. rewrite Hid.
  cbv beta iota zeta delta [OxfordIPS.query Visa.query ret bind].
  after_status Hget Hlq Hshort.
Qed.

Lemma set_activity_short_rejection_witness :
  OxfordIPSControl.set_activity true false false false (constant_ips "?X")
  = (OxfordIPS.set_last_queried_status (Some "?X")
       (ips_logged (ips_logged (constant_ips "?X") "@0A0") "@0X"),
     Raised IndexError).
Proof.
  apply (set_activity_short_rejection false false false (constant_ips "?X"));
    reflexivity.
Defined.

(** X26: [set_switch_heater] sends [H1] or [H0], then reads the status. When the
    status read is a valid one, the call returns normally whatever the
    status says of the heater. *)
Theorem set_switch_heater_never_reports (opened : bool) (self : OxfordIPS.t) :
  Py.contains "IPS" (OxfordIPS.identity self) = true ->
  OxfordIPS.messages self = OxfordIPS._messages_dictionary_ ->
  let sent := ips_logged self (OxfordIPS.buffer_radix self
                                 +:+ (if opened then "H1" else "H0")) in
  ips_valid_status (OxfordIPS.answer sent [OxfordIPS.buffer_radix self +:+ "X"]) ->
  exists text,
    OxfordIPSControl.set_switch_heater opened self = (status_read sent text, Normal tt).
Proof.
  intros Hid Hms sent Hvalid.
  assert (Hid1 : Py.contains "IPS" (OxfordIPS.identity sent) = true) by exact Hid.
  assert (Hms1 : OxfordIPS.messages sent = OxfordIPS._messages_dictionary_) by exact Hms.
  change (OxfordIPS.buffer_radix self) with (OxfordIPS.buffer_radix sent) in Hvalid.
  destruct (ips_get_status_decoded sent Hid1 Hms1 Hvalid) as (text & Hget).
  destruct (ips_valid_status_char _ 8 Hvalid) as (ch & Hch); [lia|].
  exists text.
  pose proof (status_read_status sent text) as Hlq.
  remember (status_read sent text) as read eqn:Hread.
  remember (OxfordIPS.answer sent [OxfordIPS.buffer_radix sent +:+ "X"]) as reply.
  clear Hread Heqreply Hvalid.
  unfold OxfordIPSControl.set_switch_heater.
  cbv beta iota delta [try_except bind gets]. rewrite Hid.
  subst sent.
  destruct opened;
    cbv beta iota zeta delta [OxfordIPS.query Visa.query ret bind];
    after_status Hget Hlq Hch.
Qed.

Lemma set_switch_heater_never_reports_witness :
  exists text,
    OxfordIPSControl.set_switch_heater true (constant_ips "X00A1C3H0M10P03")
    = (status_read (ips_logged (constant_ips "X00A1C3H0M10P03") "@0H1") text, Normal tt).
Proof.
  apply (set_switch_heater_never_reports true (constant_ips "X00A1C3H0M10P03"));
    [reflexivity|reflexivity|].
  exists "0"%char, "0"%char, "1"%char, "3"%char, "0"%char, "1"%char, "0"%char,
         "0"%char, "3"%char.
  vm_compute. repeat split; repeat constructor.
Defined.

(** * Properties of the sense, route and output configurations *)

(** A buffer written and checked: whatever the error query finds, and
    whatever the handler around reports, the traffic is the buffer, the
    completion query and the error query. *)
Lemma written_and_checked (buffer : string) (classes : exn -> bool) (self : Instruments.t) :
  Keithley2400.is_2400 self = true ->
  let r := try_except
             (Instruments.write buffer ;; Instruments._operation_complete_query_ ;;
              Keithley2400._error_query_)
             classes (fun error => Instruments.error_handler error) self in
  scpi_sent r.1
  = (scpi_sent self ++ [Visa.Write buffer; Visa.Query "*OPC?"; Visa.Query ":SYST:ERR?"])%list
  /\ forall e, r.2 = Raised e -> classes e = false.
Proof.
  intros Hid r. subst r. run_scpi. cbv beta iota zeta.
  set (self1 := Instruments.set_instrument _ self).
  set (self2 := Instruments.set_instrument _ self1).
  assert (H2 : Keithley2400.is_2400 self2 = true) by exact Hid.
  pose proof (error_query_sent self2 H2) as Hsent.
  destruct (Keithley2400._error_query_ self2) as [self3 [[]|e]] eqn:Hq;
    cbn [fst snd] in Hsent |- *.
  - split; [|discriminate]. rewrite Hsent. unfold scpi_sent, self2, self1. cbn.
    rewrite <- !app_assoc. reflexivity.
  - destruct (classes e) eqn:Hc; cbn [fst snd].
    + split; [|discriminate]. unfold scpi_sent in *. cbn. rewrite Hsent.
      unfold self2, self1. cbn. rewrite <- !app_assoc. reflexivity.
    + split; [|intros e' [= <-]; exact Hc]. rewrite Hsent. unfold scpi_sent, self2, self1.
      cbn. rewrite <- !app_assoc. reflexivity.
Qed.

(** X27: With [auto_range] on, [current_sense_configuration] sends nothing at
    all: the write and the two queries are part of the manual-range branch.
    With [auto_range] off it writes the manual range and the integration
    time. [voltage_sense_configuration] writes in both cases. *)
Theorem current_sense_auto_range_sends_nothing (self : Instruments.t)
    (manual_range NPLCs : Py.value) :
  Keithley2400.is_2400 self = true ->
  let checked (buffer : string) :=
    (scpi_sent self
       ++ [Visa.Write buffer; Visa.Query "*OPC?"; Visa.Query ":SYST:ERR?"])%list in
  Keithley2400Setup.current_sense_configuration true manual_range NPLCs self
  = (self, Normal tt)
  /\ scpi_sent (Keithley2400Setup.current_sense_configuration false manual_range NPLCs
                  self).1
     = checked (":SENS:FUNC:CONC ON;:SENS:FUNC:ALL;"
                +:+ ":SENS:CURR:RANG:AUTO OFF;:SENS:CURR:RANG " +:+ Py.str manual_range
                +:+ ";" +:+ ":SENS:CURR:NPLC " +:+ Py.str NPLCs +:+ ";")
  /\ scpi_sent (Keithley2400Setup.voltage_sense_configuration true manual_range NPLCs
                  self).1
     = checked (":SENS:FUNC:CONC ON;:SENS:FUNC:ALL;" +:+ ":SENS:VOLT:RANG:AUTO ON;"
                +:+ ":SENS:VOLT:NPLC " +:+ Py.str NPLCs +:+ ";")
  /\ scpi_sent (Keithley2400Setup.voltage_sense_configuration false manual_range NPLCs
                  self).1
     = checked (":SENS:FUNC:CONC ON;:SENS:FUNC:ALL;"
                +:+ ":SENS:VOLT:RANG:AUTO OFF;:SENS:VOLT:RANG " +:+ Py.str manual_range
                +:+ ";" +:+ ":SENS:VOLT:NPLC " +:+ Py.str NPLCs +:+ ";").
Proof.
  intros Hid checked. subst checked. cbv beta.
  unfold Keithley2400Setup.current_sense_configuration,
    Keithley2400Setup.voltage_sense_configuration.
  split; [cbv beta iota zeta delta [try_except bind gets ret]; rewrite Hid; reflexivity|].
  split; [|split].
  - match goal with
    | |- scpi_sent (try_except ?body ?classes ?h self).1 = (_ ++ [Visa.Write ?b; _; _])%list =>
        pose proof (proj1 (written_and_checked b classes self Hid)) as H
    end.
    cbv zeta in H. rewrite <- H. clear H.
    cbv beta iota zeta delta [try_except bind gets]. rewrite Hid.
    rewrite !string_append_assoc. reflexivity.
  - match goal with
    | |- scpi_sent (try_except ?body ?classes ?h self).1 = (_ ++ [Visa.Write ?b; _; _])%list =>
        pose proof (proj1 (written_and_checked b classes self Hid)) as H
    end.
    cbv zeta in H. rewrite <- H. clear H.
    cbv beta iota zeta delta [try_except bind gets]. rewrite Hid.
    rewrite !string_append_assoc. reflexivity.
  - match goal with
    | |- scpi_sent (try_except ?body ?classes ?h self).1 = (_ ++ [Visa.Write ?b; _; _])%list =>
        pose proof (proj1 (written_and_checked b classes self Hid)) as H
    end.
    cbv zeta in H. rewrite <- H. clear H.
    cbv beta iota zeta delta [try_except bind gets]. rewrite Hid.
    rewrite !string_append_assoc. reflexivity.
Qed.

Lemma current_sense_auto_range_sends_nothing_witness :
  Keithley2400Setup.current_sense_configuration true (Py.VFloat 0.0001) (Py.VInt 10)
    quiet_2400
  = (quiet_2400, Normal tt)
  /\ scpi_sent (Keithley2400Setup.current_sense_configuration false (Py.VFloat 0.0001)
                  (Py.VInt 10) quiet_2400).1
     = [Visa.Write (":SENS:FUNC:CONC ON;:SENS:FUNC:ALL;:SENS:CURR:RANG:AUTO OFF;"
                    +:+ ":SENS:CURR:RANG 0.0001;:SENS:CURR:NPLC 10;");
        Visa.Query "*OPC?"; Visa.Query ":SYST:ERR?"]
  /\ scpi_sent (Keithley2400Setup.voltage_sense_configuration true (Py.VFloat 0.0001)
                  (Py.VInt 10) quiet_2400).1
     = [Visa.Write (":SENS:FUNC:CONC ON;:SENS:FUNC:ALL;:SENS:VOLT:RANG:AUTO ON;"
                    +:+ ":SENS:VOLT:NPLC 10;");
        Visa.Query "*OPC?"; Visa.Query ":SYST:ERR?"].
Proof.
  pose proof (current_sense_auto_range_sends_nothing quiet_2400 (Py.VFloat 0.0001)
                (Py.VInt 10) eq_refl) as (H1 & H2 & H3 & _).
  split; [exact H1|]. split; [exact H2|exact H3].
Defined.

Definition route_names : list (string * string) :=
  [("front", "FRON"); ("rear", "REAR")].

Definition output_names : list (string * string) :=
  [("hi-z", "HIMP"); ("normal", "NORM"); ("zero", "ZERO"); ("guard", "GUAR")].

Ltac setup_dictionary_cases s :=
  unfold Instruments.dict; cbn [Instruments.spellings foldl fst snd fmap list_fmap];
  rewrite ?lookup_insert, ?lookup_empty;
  cbv delta [route_names output_names];
  cbn [mnemonic];
  unfold Keithley2400.spelled;
  repeat match goal with
         | |- context [decide (?c = s)] =>
             destruct (decide (c = s)) as [<-|?]; [reflexivity|]
         end;
  repeat match goal with
         | H : ?c <> s |- context [String.eqb s ?d] =>
             let E := fresh in
             assert (E : String.eqb s d = false)
               by (apply String.eqb_neq; intros ->; apply H; reflexivity);
             rewrite E; clear E
         end;
  reflexivity.

Lemma route_dictionary (s : string) :
  Instruments.dict (Instruments.spellings ["front"; "rear"] ["FRON"; "REAR"]) !! s
    = mnemonic route_names s.
Proof. setup_dictionary_cases s. Qed.

Lemma output_dictionary (s : string) :
  Instruments.dict (Instruments.spellings ["hi-z"; "normal"; "zero"; "guard"]
                      ["HIMP"; "NORM"; "ZERO"; "GUAR"]) !! s
    = mnemonic output_names s.
Proof. setup_dictionary_cases s. Qed.

(** X28: The terminals of [route_configuration] and the off mode of
    [output_configuration] are recognised as listed, in title case and in
    upper case. A recognised option is written as its mnemonic, followed by
    the completion and error queries. Any other spelling ends the call with
    the [KeyError] of the dictionary lookup: nothing is sent and nothing is
    handed to [error_handler]. *)
Theorem route_and_output_options (self : Instruments.t) (terminals : string)
    (output_enable : bool) (output_off_mode : string) :
  Keithley2400.is_2400 self = true ->
  let checked (buffer : string) :=
    (scpi_sent self
       ++ [Visa.Write buffer; Visa.Query "*OPC?"; Visa.Query ":SYST:ERR?"])%list in
  match mnemonic route_names terminals with
  | Some m =>
      scpi_sent (Keithley2400Setup.route_configuration terminals self).1
      = checked (":ROUT:TERM " +:+ m +:+ ";")
  | None =>
      Keithley2400Setup.route_configuration terminals self
      = (self, Raised (KeyError [AStr terminals]))
  end
  /\ match mnemonic output_names output_off_mode with
     | Some m =>
         scpi_sent (Keithley2400Setup.output_configuration output_enable output_off_mode
                      self).1
         = checked ((if output_enable then ":OUTP:ENAB ON;" else ":OUTP:ENAB OFF;")
                    +:+ ":OUTP:SMODE " +:+ m +:+ ";")
     | None =>
         Keithley2400Setup.output_configuration output_enable output_off_mode self
         = (self, Raised (KeyError [AStr output_off_mode]))
     end.
Proof.
  intros Hid checked. subst checked. cbv beta.
  unfold Keithley2400Setup.route_configuration, Keithley2400Setup.output_configuration.
  split.
  - destruct (mnemonic route_names terminals) as [m|] eqn:E.
    + match goal with
      | |- scpi_sent (try_except ?body ?classes ?h self).1 = (_ ++ [Visa.Write ?b; _; _])%list =>
          pose proof (proj1 (written_and_checked b classes self Hid)) as H
      end.
      cbv zeta in H. rewrite <- H. clear H.
      cbv beta iota zeta delta [try_except bind gets]. rewrite Hid.
      run_tables. rewrite lookup_key_run, route_dictionary, E. reflexivity.
    + cbv beta iota zeta delta [try_except bind gets]. rewrite Hid.
      run_tables. rewrite lookup_key_run, route_dictionary, E. reflexivity.
  - destruct (mnemonic output_names output_off_mode) as [m|] eqn:E.
    + match goal with
      | |- scpi_sent (try_except ?body ?classes ?h self).1 = (_ ++ [Visa.Write ?b; _; _])%list =>
          pose proof (proj1 (written_and_checked b classes self Hid)) as H
      end.
      cbv zeta in H. rewrite <- H. clear H.
      cbv beta iota zeta delta [try_except bind gets]. rewrite Hid.
      run_tables. rewrite lookup_key_run, output_dictionary, E.
      destruct output_enable; rewrite ?string_append_assoc; reflexivity.
    + cbv beta iota zeta delta [try_except bind gets]. rewrite Hid.
      run_tables. rewrite lookup_key_run, output_dictionary, E. reflexivity.
Qed.

Lemma route_and_output_options_witness :
  scpi_sent (Keithley2400Setup.route_configuration "Rear" quiet_2400).1
  = [Visa.Write ":ROUT:TERM REAR;"; Visa.Query "*OPC?"; Visa.Query ":SYST:ERR?"]
  /\ Keithley2400Setup.output_configuration false "Hi-z" quiet_2400
     = (quiet_2400, Raised (KeyError [AStr "Hi-z"])).
Proof.
  pose proof (route_and_output_options quiet_2400 "Rear" false "Hi-z" eq_refl) as [H1 H2].
  split; [exact H1|exact H2].
Defined.

(** * Properties of the output and of the reset *)

(** The traffic of the source meter so far. *)
Definition output_sent (self : Keithley2400Output.t) : list Visa.io :=
  scpi_sent (Keithley2400Output.instruments self).

Ltac run_output :=
  cbv beta iota zeta delta
    [try_except bind gets modify raise reraise ret
     Keithley2400Output.inherited Keithley2400Output.is_2400
     Instruments.query Instruments.write Instruments.error_handler
     Instruments._operation_complete_query_
     InstrumentsCommon._self_test_query_ InstrumentsCommon._reset_command_
     InstrumentsCommon._clear_status_ InstrumentsCommon._event_enable_
     InstrumentsCommon._event_enable_query_
     InstrumentsCommon._event_status_register_query_
     InstrumentsCommon._options_query_
     InstrumentsCommon._service_request_enable_command_
     InstrumentsCommon._service_request_enable_query_
     Visa.query Visa.write fst snd].

(** The four messages of a switch. *)
Definition switch_traffic (state : string) : list Visa.io :=
  [Visa.Write (":OUTP:STAT " +:+ state +:+ ";"); Visa.Query ":OUTP:STAT?";
   Visa.Query "*OPC?"; Visa.Query ":SYST:ERR?"].

(** [_output_off_] on a Keithley 2400 sends its four messages whatever the
    instrument answers, and keeps the instrument a Keithley 2400. *)
Lemma output_off_sent (self : Keithley2400Output.t) :
  Keithley2400Output.is_2400 self = true ->
  output_sent (Keithley2400Output._output_off_ self).1
  = (output_sent self ++ switch_traffic "OFF")%list.
Proof.
  intros Hid. unfold Keithley2400Output._output_off_, output_sent.
  unfold Keithley2400Output.is_2400 in Hid.
  run_output. rewrite Hid.
  cbn [Keithley2400Output.instruments Keithley2400Output.set_instruments
       Keithley2400Output.set_output_status].
  set (i1 := Instruments.set_instrument _ (Keithley2400Output.instruments self)).
  set (i2 := Instruments.set_instrument _ i1).
  set (i3 := Instruments.set_instrument _ i2).
  assert (H3 : Keithley2400.is_2400 i3 = true) by exact Hid.
  pose proof (error_query_sent i3 H3) as Hsent.
  destruct (Keithley2400._error_query_ i3) as [i4 [[]|e]];
    cbn [fst snd Keithley2400Output.instruments Keithley2400Output.set_instruments]
      in Hsent |- *.
  - rewrite Hsent. unfold scpi_sent, i3, i2, i1, switch_traffic. cbn.
    rewrite <- !app_assoc. reflexivity.
  - destruct (_ || _);
      cbn [fst snd Keithley2400Output.instruments Keithley2400Output.set_instruments];
      unfold scpi_sent in *; cbn; rewrite Hsent; unfold i3, i2, i1, switch_traffic; cbn;
      rewrite <- !app_assoc; reflexivity.
Qed.

(** X29: When the error query that follows the switching on reports an error,
    [_output_on_] switches the output off again, with the four messages of
    [_output_off_], before the failure reaches the caller; the call never
    returns normally then. *)
Theorem output_on_failure_switches_off (self : Keithley2400Output.t)
    (code rest : string) :
  Keithley2400Output.is_2400 self = true ->
  free_of "," code = true ->
  String.eqb code "0" = false ->
  Visa.device (Instruments.instrument (Keithley2400Output.instruments self))
              (output_sent self ++ switch_traffic "ON")
  = code +:+ String "," rest ->
  let r := Keithley2400Output._output_on_ self in
  output_sent r.1 = (output_sent self ++ switch_traffic "ON" ++ switch_traffic "OFF")%list
  /\ exists e, r.2 = Raised e.
Proof.
  intros Hid Hfree Hcode Hdev r. subst r.
  unfold Keithley2400Output._output_on_.
  pose proof Hid as Hid'. unfold Keithley2400Output.is_2400 in Hid'.
  run_output. rewrite Hid'.
  cbn [Keithley2400Output.instruments Keithley2400Output.set_instruments
       Keithley2400Output.set_output_status].
  set (i1 := Instruments.set_instrument _ (Keithley2400Output.instruments self)).
  set (i2 := Instruments.set_instrument _ i1).
  set (i3 := Instruments.set_instrument _ i2).
  assert (H3 : Keithley2400.is_2400 i3 = true) by exact Hid'.
  assert (Hreply : (Visa.query ":SYST:ERR?" (Instruments.instrument i3)).2
                   = code +:+ String "," rest).
  { rewrite <- Hdev. unfold i3, i2, i1, output_sent, scpi_sent, switch_traffic. cbn.
    rewrite <- !app_assoc. reflexivity. }
  rewrite (error_query_coded i3 code rest H3 Hfree Hreply). rewrite Hcode.
  cbn [Keithley2400.is_ReportInstrumentInternalError orb fst snd
       Keithley2400Output.instruments Keithley2400Output.set_instruments].
  match goal with
  | |- context [Keithley2400Output._output_off_ ?s] => set (s4 := s)
  end.
  assert (H4 : Keithley2400Output.is_2400 s4 = true) by exact Hid'.
  pose proof (output_off_sent s4 H4) as Hoff.
  assert (Hs4 : output_sent s4 = (output_sent self ++ switch_traffic "ON")%list).
  { unfold s4, output_sent, scpi_sent, error_queried, i3, i2, i1, switch_traffic. cbn.
    rewrite <- !app_assoc. reflexivity. }
  rewrite Hs4, <- app_assoc in Hoff.
  destruct (Keithley2400Output._output_off_ s4) as [s5 [[]|e']];
    cbn [fst snd] in Hoff |- *.
  - split; [exact Hoff|]. eexists. reflexivity.
  - split; [exact Hoff|]. eexists. reflexivity.
Qed.

(** A source meter that answers every error query with an error. *)
Definition failing_output : Keithley2400Output.t :=
  Keithley2400Output.connected
    (faulty_2400 ("802," +:+ quote +:+ "Output blocked by interlock" +:+ quote +:+ nl)).

Lemma output_on_failure_switches_off_witness :
  output_sent (Keithley2400Output._output_on_ failing_output).1
  = [Visa.Write ":OUTP:STAT ON;"; Visa.Query ":OUTP:STAT?"; Visa.Query "*OPC?";
     Visa.Query ":SYST:ERR?";
     Visa.Write ":OUTP:STAT OFF;"; Visa.Query ":OUTP:STAT?"; Visa.Query "*OPC?";
     Visa.Query ":SYST:ERR?"]
  /\ exists e, (Keithley2400Output._output_on_ failing_output).2 = Raised e.
Proof.
  apply (output_on_failure_switches_off failing_output "802"
           (quote +:+ "Output blocked by interlock" +:+ quote +:+ nl));
    reflexivity.
Defined.

Lemma error_query_clean (i : Instruments.t) (rest : string) :
  Keithley2400.is_2400 i = true ->
  (Visa.query ":SYST:ERR?" (Instruments.instrument i)).2 = "0" +:+ String "," rest ->
  Keithley2400._error_query_ i = (error_queried i, Normal tt).
Proof.
  intros Hid Hreply.
  rewrite (error_query_coded i "0" rest Hid eq_refl Hreply). reflexivity.
Qed.

(** ** The reset, step by step *)

(** The source meter after a write, after a query, after a clean error
    query. *)
Definition wrote (cmd : string) (s : Keithley2400Output.t) : Keithley2400Output.t :=
  Keithley2400Output.set_instruments
    (Instruments.set_instrument
       (Visa.write cmd (Instruments.instrument (Keithley2400Output.instruments s)))
       (Keithley2400Output.instruments s)) s.

Definition asked (cmd : string) (s : Keithley2400Output.t) : Keithley2400Output.t :=
  Keithley2400Output.set_instruments
    (Instruments.set_instrument
       (Visa.query cmd (Instruments.instrument (Keithley2400Output.instruments s))).1
       (Keithley2400Output.instruments s)) s.

Definition checked (s : Keithley2400Output.t) : Keithley2400Output.t :=
  Keithley2400Output.set_instruments
    (error_queried (Keithley2400Output.instruments s)) s.

(** What the steps keep, and what they add to the traffic. *)
Record kept (s s' : Keithley2400Output.t) (added : list Visa.io) : Prop := {
  kept_device :
    Visa.device (Instruments.instrument (Keithley2400Output.instruments s'))
    = Visa.device (Instruments.instrument (Keithley2400Output.instruments s));
  kept_identity : Keithley2400Output.is_2400 s' = Keithley2400Output.is_2400 s;
  kept_reported :
    Instruments.reported (Keithley2400Output.instruments s')
    = Instruments.reported (Keithley2400Output.instruments s);
  kept_sent : output_sent s' = (output_sent s ++ added)%list
}.

Lemma kept_refl (s : Keithley2400Output.t) : kept s s [].
Proof. split; try reflexivity. symmetry. apply app_nil_r. Qed.

Lemma kept_trans (s1 s2 s3 : Keithley2400Output.t) (a b : list Visa.io) :
  kept s1 s2 a -> kept s2 s3 b -> kept s1 s3 (a ++ b).
Proof.
  intros [d1 i1 r1 t1] [d2 i2 r2 t2]. split; try congruence.
  rewrite t2, t1, app_assoc. reflexivity.
Qed.

Lemma kept_wrote (cmd : string) (s : Keithley2400Output.t) :
  kept s (wrote cmd s) [Visa.Write cmd].
Proof. split; reflexivity. Qed.

Lemma kept_asked (cmd : string) (s : Keithley2400Output.t) :
  kept s (asked cmd s) [Visa.Query cmd].
Proof. split; reflexivity. Qed.

Lemma kept_checked (s : Keithley2400Output.t) :
  kept s (checked s) [Visa.Query ":SYST:ERR?"].
Proof. split; reflexivity. Qed.

Lemma kept_output_status (v : option string) (s : Keithley2400Output.t) :
  kept s (Keithley2400Output.set_output_status v s) [].
Proof. split; try reflexivity. symmetry. apply app_nil_r. Qed.

Lemma kept_options (v : option string) (s : Keithley2400Output.t) :
  kept s (Keithley2400Output.set_options v s) [].
Proof. split; try reflexivity. symmetry. apply app_nil_r. Qed.

(** One step of a sequence that returned normally. *)
Lemma bind_normal {S A B : Type} (m : M S A) (k : A -> M S B) (s s' : S) (a : A) :
  m s = (s', Normal a) -> bind m k s = k a s'.
Proof. intros H. unfold bind. rewrite H. reflexivity. Qed.

Lemma inherited_write (cmd : string) (s : Keithley2400Output.t) :
  Keithley2400Output.inherited (Instruments.write cmd) s = (wrote cmd s, Normal tt).
Proof. reflexivity. Qed.

Lemma inherited_query (cmd : string) (s : Keithley2400Output.t) :
  Keithley2400Output.inherited (Instruments.query cmd) s
  = (asked cmd s,
     Normal (Visa.query cmd
               (Instruments.instrument (Keithley2400Output.instruments s))).2).
Proof. reflexivity. Qed.

Lemma inherited_dropped_query (cmd : string) (s : Keithley2400Output.t) :
  Keithley2400Output.inherited (Instruments.query cmd ;; ret tt) s
  = (asked cmd s, Normal tt).
Proof. reflexivity. Qed.

(** The instrument answers every error query with the code [0]. *)
Definition clean (s : Keithley2400Output.t) (rest : string) : Prop :=
  forall log,
    Visa.device (Instruments.instrument (Keithley2400Output.instruments s))
                (log ++ [Visa.Query ":SYST:ERR?"])
    = "0" +:+ String "," rest.

Lemma inherited_error_query (s : Keithley2400Output.t) (rest : string) :
  Keithley2400Output.is_2400 s = true -> clean s rest ->
  Keithley2400Output.inherited Keithley2400._error_query_ s = (checked s, Normal tt).
Proof.
  intros Hid Hclean. unfold Keithley2400Output.inherited.
  rewrite (error_query_clean (Keithley2400Output.instruments s) rest Hid (Hclean _)).
  reflexivity.
Qed.

Lemma kept_clean (s s' : Keithley2400Output.t) (added : list Visa.io) (rest : string) :
  kept s s' added -> clean s rest -> clean s' rest.
Proof. intros [d _ _ _] H log. rewrite d. apply H. Qed.

(** [_output_off_] on a clean Keithley 2400. *)
Lemma output_off_clean (s : Keithley2400Output.t) (rest : string) :
  Keithley2400Output.is_2400 s = true -> clean s rest ->
  exists s', Keithley2400Output._output_off_ s = (s', Normal tt)
             /\ kept s s' (switch_traffic "OFF")
             /\ Keithley2400Output.options s' = Keithley2400Output.options s.
Proof.
  intros Hid Hclean. unfold Keithley2400Output._output_off_.
  unfold try_except.
  erewrite (bind_normal (gets _)) by reflexivity. rewrite Hid.
  erewrite bind_normal by apply inherited_write.
  erewrite bind_normal by apply inherited_query.
  erewrite (bind_normal (modify _)) by reflexivity.
  erewrite bind_normal by apply inherited_dropped_query.
  erewrite inherited_error_query; [|exact Hid|].
  2: { intros log. apply Hclean. }
  eexists. split; [reflexivity|]. split; [|reflexivity].
  split; try reflexivity.
  unfold output_sent, scpi_sent, switch_traffic. cbn. rewrite <- !app_assoc. reflexivity.
Qed.

(** X30: The reset of a Keithley 2400 that reports no error: the common commands
    go out in the order of the source, the output is switched off when
    [secure_output] is set, and the completion and error queries close the
    sequence. [options] is [None] afterwards whatever the instrument answered
    to the options query, whose reply [_options_query_] does not return. *)
Theorem system_reset_sequence (self : Keithley2400Output.t) (secure_output : bool)
    (rest : string) :
  Keithley2400Output.is_2400 self = true ->
  (forall log,
     Visa.device (Instruments.instrument (Keithley2400Output.instruments self))
                 (log ++ [Visa.Query ":SYST:ERR?"])
     = "0" +:+ String "," rest) ->
  let r := Keithley2400Output._system_reset_ secure_output self in
  r.2 = Normal tt
  /\ Keithley2400Output.options r.1 = None
  /\ Instruments.reported (Keithley2400Output.instruments r.1)
     = Instruments.reported (Keithley2400Output.instruments self)
  /\ output_sent r.1
     = (output_sent self
          ++ [Visa.Query "*TST?"; Visa.Write "*RST"; Visa.Write "*CLS";
              Visa.Write "*ESE 255"; Visa.Query "*ESE?"; Visa.Query "*ESR?";
              Visa.Query "*OPT?"; Visa.Write "*SRE 189"; Visa.Query "*SRE?"]
          ++ (if secure_output then switch_traffic "OFF" else [])
          ++ [Visa.Query "*OPC?"; Visa.Query ":SYST:ERR?"])%list.
Proof.
  intros Hid Hclean r. subst r. fold (clean self rest) in Hclean.
  unfold Keithley2400Output._system_reset_, try_except.
  erewrite (bind_normal (gets _)) by reflexivity. rewrite Hid.
  erewrite bind_normal by apply inherited_dropped_query.
  erewrite bind_normal by apply inherited_write.
  erewrite bind_normal by apply inherited_write.
  erewrite bind_normal by apply inherited_write.
  erewrite bind_normal by apply inherited_dropped_query.
  erewrite bind_normal by apply inherited_dropped_query.
  erewrite (bind_normal (Keithley2400Output.inherited InstrumentsCommon._options_query_))
    by reflexivity.
  erewrite (bind_normal (modify _)) by reflexivity.
  erewrite bind_normal by apply inherited_write.
  erewrite bind_normal by apply inherited_dropped_query.
  match goal with
  | |- context [bind (if secure_output then _ else _) _ ?s] => set (s9 := s)
  end.
  assert (K9 : kept self s9
                 [Visa.Query "*TST?"; Visa.Write "*RST"; Visa.Write "*CLS";
                  Visa.Write "*ESE 255"; Visa.Query "*ESE?"; Visa.Query "*ESR?";
                  Visa.Query "*OPT?"; Visa.Write "*SRE 189"; Visa.Query "*SRE?"]).
  { split; try reflexivity. unfold s9, output_sent, scpi_sent. cbn.
    rewrite <- !app_assoc. reflexivity. }
  assert (O9 : Keithley2400Output.options s9 = None) by reflexivity.
  assert (Hid9 : Keithley2400Output.is_2400 s9 = true)
    by (rewrite (kept_identity _ _ _ K9); exact Hid).
  pose proof (kept_clean _ _ _ _ K9 Hclean) as Hclean9.
  clearbody s9.
  assert (Hoff : exists s10,
             (if secure_output then Keithley2400Output._output_off_ else ret tt) s9
             = (s10, Normal tt)
             /\ kept s9 s10 (if secure_output then switch_traffic "OFF" else [])
             /\ Keithley2400Output.options s10 = Keithley2400Output.options s9).
  { destruct secure_output.
    - apply (output_off_clean s9 rest Hid9 Hclean9).
    - exists s9. split; [reflexivity|]. split; [apply kept_refl|reflexivity]. }
  destruct Hoff as (s10 & E10 & K10 & O10).
  erewrite bind_normal by exact E10.
  erewrite bind_normal by apply inherited_dropped_query.
  pose proof (kept_trans _ _ _ _ _ K9 K10) as K.
  pose proof (kept_trans _ _ _ _ _ K (kept_asked "*OPC?" s10)) as K'.
  assert (Hid11 : Keithley2400Output.is_2400 (asked "*OPC?" s10) = true)
    by (rewrite (kept_identity _ _ _ K'); exact Hid).
  erewrite inherited_error_query; [|exact Hid11|exact (kept_clean _ _ _ _ K' Hclean)].
  pose proof (kept_trans _ _ _ _ _ K' (kept_checked (asked "*OPC?" s10))) as [_ _ Hr Hs].
  cbn [fst snd]. split; [reflexivity|]. split; [rewrite <- O9, <- O10; reflexivity|].
  split; [exact Hr|]. rewrite Hs, <- !app_assoc. reflexivity.
Qed.

Lemma system_reset_sequence_witness :
  let meter := Keithley2400Output.connected quiet_2400 in
  (Keithley2400Output._system_reset_ true meter).2 = Normal tt
  /\ Keithley2400Output.options (Keithley2400Output._system_reset_ true meter).1 = None
  /\ output_sent (Keithley2400Output._system_reset_ true meter).1
     = [Visa.Query "*TST?"; Visa.Write "*RST"; Visa.Write "*CLS";
        Visa.Write "*ESE 255"; Visa.Query "*ESE?"; Visa.Query "*ESR?";
        Visa.Query "*OPT?"; Visa.Write "*SRE 189"; Visa.Query "*SRE?";
        Visa.Write ":OUTP:STAT OFF;"; Visa.Query ":OUTP:STAT?"; Visa.Query "*OPC?";
        Visa.Query ":SYST:ERR?"; Visa.Query "*OPC?"; Visa.Query ":SYST:ERR?"].
Proof.
  pose proof (system_reset_sequence (Keithley2400Output.connected quiet_2400) true
                "No error" eq_refl) as H.
  destruct H as (H1 & H2 & _ & H4).
  { intros log. cbn. rewrite last_snoc. reflexivity. }
  split; [exact H1|]. split; [exact H2|exact H4].
Defined.
